(** * The crypto knowledge base: fact extraction, embedding store, retrieval

    A shallow embedding of the retrieval core of the repository

      - [data_ingestion/fetch_prices.py]   ([CryptoData], the parsing loop),
      - [knowledge/fact_extractor.py]      ([CryptoFact], [CryptoFactExtractor]),
      - [knowledge/embed_store.py]         ([CryptoVectorStore]),
      - [rag_pipeline/retriever.py]        ([CryptoRetriever]),
      - [utils/config.py]                  ([Config.validate]),
      - [knowledge/update_scheduler.py]    ([update_knowledge_base]),
      - [batch_process.py]                 ([update_json_batch]),

    followed by the properties of the specification, each proved or refuted
    on that embedding.

    Python floats are IEEE binary64 numbers: they are Rocq's primitive
    floats.  Python ints are [Z].  A call that raises is a [Raise e] result.
    Logging has no effect on any value and is left out. *)

From Stdlib Require Import ZArith List String Ascii Bool Lia DecimalString.
From Stdlib Require Import PrimFloat FloatOps SpecFloat.
Import ListNotations.

Open Scope string_scope.
Open Scope Z_scope.

(* ================================================================== *)
(** * The Python runtime the code relies on                           *)
(* ================================================================== *)

Module Py.

(** Exceptions the modelled code can raise. *)
Inductive exn : Set :=
| TypeError
| ValueError
| OverflowError
| IndexError
| KeyError
| AttributeError
| DuplicateIDError
| IDAlreadyExistsError.

Inductive result (A : Type) : Type :=
| Ok (a : A)
| Raise (e : exn).
Arguments Ok {A} a.
Arguments Raise {A} e.

Definition bind {A B} (r : result A) (k : A -> result B) : result B :=
  match r with
  | Ok a => k a
  | Raise e => Raise e
  end.

Definition returns {A} (r : result A) : bool :=
  match r with Ok _ => true | Raise _ => false end.

(** [s.isascii()]: every character of the text is in the ASCII range.  A
    [str] is kept as the bytes of its UTF-8 form, so such a text has one
    byte per character. *)
Fixpoint isascii (s : string) : bool :=
  match s with
  | EmptyString => true
  | String c s' => (nat_of_ascii c <? 128)%nat && isascii s'
  end.

(** The values a field of a record or an entry of a [dict] holds here. *)
Inductive pyval : Type :=
| PyNone
| PyInt (z : Z)
| PyFloat (x : float)
| PyStr (s : string).

(** A [dict] with string keys, in insertion order; a key occurs once. *)
Definition dict : Type := list (string * pyval).

Fixpoint dict_get (d : dict) (k : string) : option pyval :=
  match d with
  | [] => None
  | (k', v) :: d' => if String.eqb k' k then Some v else dict_get d' k
  end.

(** [d[k] = v]: an existing key keeps its position. *)
Fixpoint dict_set (d : dict) (k : string) (v : pyval) : dict :=
  match d with
  | [] => [(k, v)]
  | (k', v') :: d' =>
      if String.eqb k' k then (k', v) :: d' else (k', v') :: dict_set d' k v
  end.

(** [{**a, **b}]. *)
Definition dict_merge (a b : dict) : dict :=
  fold_left (fun acc kv => dict_set acc (fst kv) (snd kv)) b a.

(** [d.get(k, default)]. *)
Definition dict_get_default (d : dict) (k : string) (default : pyval) : pyval :=
  match dict_get d k with
  | Some v => v
  | None => default
  end.

(** [x in l] for a list of strings. *)
Definition mem (x : string) (l : list string) : bool :=
  existsb (String.eqb x) l.

(** ** Numbers *)

(** [str(z)] of an int. *)
Definition str_int (z : Z) : string := NilZero.string_of_int (Z.to_int z).

(** The float a rounded value stands for; a value rounded beyond the
    largest binary64 number is an [OverflowError]. *)
Definition float_of_rounded (sf : spec_float) : result float :=
  match sf with
  | S754_infinity _ => Raise OverflowError
  | _ => Ok (SF2Prim sf)
  end.

(** [float(z)] of an int: the nearest binary64 number, ties to even;
    [OverflowError] beyond the largest one. *)
Definition float_of_int (z : Z) : result float :=
  float_of_rounded (binary_normalize prec emax z 0 false).

(** [a / b] on two ints, [b] not zero: the binary64 number nearest to the
    exact quotient; [OverflowError] when it is out of range. *)
Definition int_truediv (a b : Z) : result float :=
  match Z.abs a, Z.abs b with
  | Zpos ma, Zpos mb =>
      float_of_rounded
        (SFdiv prec emax (S754_finite (a <? 0) ma 0) (S754_finite (b <? 0) mb 0))
  | _, _ => Ok (if xorb (a <? 0) (b <? 0) then neg_zero else zero)
  end.

(** [x != 0]; no operand makes [!=] raise. *)
Definition ne_zero (v : pyval) : bool :=
  match v with
  | PyInt z => negb (z =? 0)
  | PyFloat x => negb (x =? 0)%float
  | PyNone | PyStr _ => true
  end.

(** [x > 0]. *)
Definition gt_zero (v : pyval) : result bool :=
  match v with
  | PyInt z => Ok (0 <? z)
  | PyFloat x => Ok (0 <? x)%float
  | PyNone | PyStr _ => Raise TypeError
  end.

(** [abs(x)]. *)
Definition py_abs (v : pyval) : result pyval :=
  match v with
  | PyInt z => Ok (PyInt (Z.abs z))
  | PyFloat x => Ok (PyFloat (abs x))
  | PyNone | PyStr _ => Raise TypeError
  end.

(** [x / d] for a positive int literal [d] that binary64 holds exactly. *)
Definition truediv_lit (v : pyval) (d : Z) : result pyval :=
  match v with
  | PyInt z => bind (int_truediv z d) (fun q => Ok (PyFloat q))
  | PyFloat x => bind (float_of_int d) (fun fd => Ok (PyFloat (x / fd)%float))
  | PyNone | PyStr _ => Raise TypeError
  end.

(** ** Fixed-point formatting: the format specs [.2f] and [,.2f] *)

(** [n / d] rounded to the nearest integer, ties to even ([0 <= n], [0 < d]). *)
Definition div_half_even (n d : Z) : Z :=
  let q := n / d in
  match (2 * (n mod d)) ?= d with
  | Lt => q
  | Gt => q + 1
  | Eq => if Z.even q then q else q + 1
  end.

(** The integer nearest to [m * 2^e * 100]. *)
Definition hundredths (m : positive) (e : Z) : Z :=
  if 0 <=? e then Zpos m * 100 * 2 ^ e
  else div_half_even (Zpos m * 100) (2 ^ (- e)).

(** Thousands separators: a comma before every group of three digits,
    counted from the right. *)
Fixpoint group3 (rev_digits : list ascii) (i : nat) : list ascii :=
  match rev_digits with
  | [] => []
  | c :: rest =>
      match i, rest with
      | 2%nat, _ :: _ => c :: ","%char :: group3 rest 0
      | _, _ => c :: group3 rest (S i)
      end
  end.

Definition with_commas (digits : string) : string :=
  string_of_list_ascii (rev (group3 (rev (list_ascii_of_string digits)) 0)).

Definition two_digits (n : Z) : string :=
  if n <? 10 then "0" ++ str_int n else str_int n.

Definition fixed2 (comma : bool) (n : Z) : string :=
  let whole := str_int (n / 100) in
  (if comma then with_commas whole else whole) ++ "." ++ two_digits (n mod 100).

Definition sign_str (s : bool) : string := if s then "-" else "".

(** [format(x, ".2f")] and [format(x, ",.2f")] of a float. *)
Definition format_float_2f (comma : bool) (x : float) : string :=
  match Prim2SF x with
  | S754_nan => "nan"
  | S754_infinity s => sign_str s ++ "inf"
  | S754_zero s => sign_str s ++ fixed2 comma 0
  | S754_finite s m e => sign_str s ++ fixed2 comma (hundredths m e)
  end.

(** The same on any value: an int is converted to a float first, [None]
    has no such format ([TypeError]) and a [str] rejects the code [f]
    ([ValueError]). *)
Definition format_2f (comma : bool) (v : pyval) : result string :=
  match v with
  | PyFloat x => Ok (format_float_2f comma x)
  | PyInt z => bind (float_of_int z) (fun x => Ok (format_float_2f comma x))
  | PyNone => Raise TypeError
  | PyStr _ => Raise ValueError
  end.

End Py.

Notation "x <- c1 ;; c2" := (Py.bind c1 (fun x => c2))
  (at level 61, c1 at next level, right associativity).

(* ================================================================== *)
(** * data_ingestion/fetch_prices.py                                  *)
(* ================================================================== *)

Module fetch_prices.

(** The dataclass [CryptoData].  A dataclass does not check its
    annotations, so a numeric field holds whatever value it was built
    with, [None] included.  [market_cap_rank] is only ever interpolated
    with [str()], which no value makes raise: the model keeps an int (what
    the annotation says) or [None]. *)
Record CryptoData : Type := {
  id : string;
  symbol : string;
  name : string;
  current_price : Py.pyval;
  market_cap : Py.pyval;
  market_cap_rank : option Z;
  price_change_24h : Py.pyval;
  price_change_percentage_24h : Py.pyval;
  volume_24h : Py.pyval;
  timestamp : string;
  source : string
}.

(** ** The parsing loop of [fetch_top_cryptocurrencies] and
    [fetch_specific_coins] *)

(** A numeric value of the API's JSON answer: a number or [null]. *)
Inductive json_number : Type :=
| JNull
| JInt (z : Z)
| JFloat (x : float).

(** The value under [symbol], on which the parser calls a method: a
    string, or a JSON value of another kind ([null], a number, ...). *)
Inductive json_text : Type :=
| JString (s : string)
| JNotString.

(** One coin of the answer, by the keys the parser reads; [None] is a key
    the coin lacks.  The id and the name, which the parser stores as they
    are, are strings. *)
Record coin : Type := {
  coin_id : option string;
  coin_symbol : option json_text;
  coin_name : option string;
  coin_current_price : option json_number;
  coin_market_cap : option json_number;
  coin_market_cap_rank : option json_number;
  coin_price_change_24h : option json_number;
  coin_price_change_percentage_24h : option json_number;
  coin_total_volume : option json_number
}.

(** [coin[key]]. *)
Definition subscript {A} (field : option A) : Py.result A :=
  match field with
  | Some v => Py.Ok v
  | None => Py.Raise Py.KeyError
  end.

(** [v or 0]: [null], 0 and 0.0 are false. *)
Definition or_zero (v : json_number) : json_number :=
  match v with
  | JNull => JInt 0
  | JInt z => if z =? 0 then JInt 0 else v
  | JFloat x => if (x =? 0)%float then JInt 0 else v
  end.

(** [float(v)]. *)
Definition to_float (v : json_number) : Py.result float :=
  match v with
  | JNull => Py.Raise Py.TypeError
  | JInt z => Py.float_of_int z
  | JFloat x => Py.Ok x
  end.

(** [int(v)]: a float is cut towards zero; [nan] has no int
    ([ValueError]) and an infinity overflows. *)
Definition to_int (v : json_number) : Py.result Z :=
  match v with
  | JNull => Py.Raise Py.TypeError
  | JInt z => Py.Ok z
  | JFloat x =>
      match Prim2SF x with
      | S754_nan => Py.Raise Py.ValueError
      | S754_infinity _ => Py.Raise Py.OverflowError
      | S754_zero _ => Py.Ok 0
      | S754_finite s m e =>
          let magnitude := if 0 <=? e then Zpos m * 2 ^ e else Zpos m / 2 ^ (- e) in
          Py.Ok (if s then - magnitude else magnitude)
      end
  end.

(** [str.upper] on ASCII text: the letters a to z are mapped, every other
    character of the ASCII range is kept.  (Outside that range [str.upper]
    maps further letters; a statement that depends on the result of
    [upper] is made for ASCII text.) *)
Definition upper_char (c : ascii) : ascii :=
  let n := nat_of_ascii c in
  if (97 <=? n)%nat && (n <=? 122)%nat then ascii_of_nat (n - 32) else c.

Fixpoint upper (s : string) : string :=
  match s with
  | EmptyString => EmptyString
  | String c s' => String (upper_char c) (upper s')
  end.

(** [v.upper()]: only a string has the method. *)
Definition upper_method (v : json_text) : Py.result string :=
  match v with
  | JString s => Py.Ok (upper s)
  | JNotString => Py.Raise Py.AttributeError
  end.

(** The body of the [try]: the record built from a coin. *)
Definition parse_coin (timestamp : string) (c : coin) : Py.result CryptoData :=
  Py.bind (subscript (coin_id c)) (fun i =>
  Py.bind (Py.bind (subscript (coin_symbol c)) upper_method) (fun sym =>
  Py.bind (subscript (coin_name c)) (fun n =>
  Py.bind (Py.bind (subscript (coin_current_price c)) (fun v => to_float (or_zero v)))
    (fun price =>
  Py.bind (Py.bind (subscript (coin_market_cap c)) (fun v => to_int (or_zero v)))
    (fun cap =>
  Py.bind (Py.bind (subscript (coin_market_cap_rank c)) (fun v => to_int (or_zero v)))
    (fun rank =>
  Py.bind (Py.bind (subscript (coin_price_change_24h c)) (fun v => to_float (or_zero v)))
    (fun change =>
  Py.bind (Py.bind (subscript (coin_price_change_percentage_24h c))
             (fun v => to_float (or_zero v)))
    (fun pct =>
  Py.bind (Py.bind (subscript (coin_total_volume c)) (fun v => to_float (or_zero v)))
    (fun volume =>
  Py.Ok {| id := i;
           symbol := sym;
           name := n;
           current_price := Py.PyFloat price;
           market_cap := Py.PyInt cap;
           market_cap_rank := Some rank;
           price_change_24h := Py.PyFloat change;
           price_change_percentage_24h := Py.PyFloat pct;
           volume_24h := Py.PyFloat volume;
           timestamp := timestamp;
           source := "coingecko" |}))))))))).

(** [except (KeyError, TypeError, ValueError)]. *)
Definition caught (e : Py.exn) : bool :=
  match e with
  | Py.KeyError | Py.TypeError | Py.ValueError => true
  | _ => false
  end.

(** [coin.get('id', 'unknown')], the coin named in the warning. *)
Definition warned_id (c : coin) : string :=
  match coin_id c with
  | Some i => i
  | None => "unknown"
  end.

(** The loop over the coins: the records built so far and the warnings
    logged so far. *)
Fixpoint parse_loop (timestamp : string) (crypto_list : list CryptoData)
    (warnings : list string) (data : list coin)
  : Py.result (list CryptoData * list string) :=
  match data with
  | [] => Py.Ok (crypto_list, warnings)
  | c :: rest =>
      match parse_coin timestamp c with
      | Py.Ok crypto_data =>
          parse_loop timestamp (crypto_list ++ [crypto_data])%list warnings rest
      | Py.Raise e =>
          if caught e
          then parse_loop timestamp crypto_list (warnings ++ [warned_id c])%list rest
          else Py.Raise e
      end
  end.

(** [fetch_top_cryptocurrencies] from the answer of the request on: [data]
    is what [_make_request] returned ([None] after the last failed
    attempt), [timestamp] the time read before the loop.  The records and
    the ids named in the warnings. *)
Definition fetch_top_cryptocurrencies (timestamp : string)
    (data : option (list coin)) : Py.result (list CryptoData * list string) :=
  match data with
  | None | Some [] => Py.Ok ([], [])
  | Some coins => parse_loop timestamp [] [] coins
  end.

End fetch_prices.

(* ================================================================== *)
(** * knowledge/fact_extractor.py                                     *)
(* ================================================================== *)

Module fact_extractor.
Import Py.

Record CryptoFact : Type := {
  fact_id : string;
  content : string;
  crypto_id : string;
  crypto_symbol : string;
  fact_type : string;
  timestamp : string;
  metadata : dict
}.

(** An int-or-[None] field as a value, and its [str()]. *)
Definition rank_val (r : option Z) : pyval :=
  match r with Some z => PyInt z | None => PyNone end.

Definition rank_str (r : option Z) : string :=
  match r with Some z => str_int z | None => "None" end.

Definition _extract_price_facts (crypto : fetch_prices.CryptoData)
  : result (list CryptoFact) :=
  price <- format_2f true (fetch_prices.current_price crypto) ;;
  let price_content :=
    fetch_prices.name crypto ++ " (" ++ fetch_prices.symbol crypto
      ++ ") is currently trading at $" ++ price ++ " USD." in
  Ok [ {| fact_id := fetch_prices.id crypto ++ "_price_" ++ fetch_prices.timestamp crypto;
          content := price_content;
          crypto_id := fetch_prices.id crypto;
          crypto_symbol := fetch_prices.symbol crypto;
          fact_type := "price";
          timestamp := fetch_prices.timestamp crypto;
          metadata := [ ("price", fetch_prices.current_price crypto);
                        ("currency", PyStr "USD");
                        ("source", PyStr (fetch_prices.source crypto)) ] |} ].

Definition _extract_change_facts (crypto : fetch_prices.CryptoData)
  : result (list CryptoFact) :=
  let change_pct := fetch_prices.price_change_percentage_24h crypto in
  let change_abs := fetch_prices.price_change_24h crypto in
  if ne_zero change_pct then
    up <- gt_zero change_pct ;;
    let direction := if up : bool then "increased" else "decreased" in
    apct <- py_abs change_pct ;;
    pct <- format_2f false apct ;;
    aabs <- py_abs change_abs ;;
    dollars <- format_2f false aabs ;;
    let change_content :=
      fetch_prices.name crypto ++ " has " ++ direction ++ " by " ++ pct
        ++ "% ($" ++ dollars ++ ") in the last 24 hours." in
    Ok [ {| fact_id := fetch_prices.id crypto ++ "_change_" ++ fetch_prices.timestamp crypto;
            content := change_content;
            crypto_id := fetch_prices.id crypto;
            crypto_symbol := fetch_prices.symbol crypto;
            fact_type := "change";
            timestamp := fetch_prices.timestamp crypto;
            metadata := [ ("change_percentage", change_pct);
                          ("change_absolute", change_abs);
                          ("direction", PyStr direction);
                          ("timeframe", PyStr "24h") ] |} ]
  else Ok [].

Definition _extract_market_facts (crypto : fetch_prices.CryptoData)
  : result (list CryptoFact) :=
  positive_cap <- gt_zero (fetch_prices.market_cap crypto) ;;
  if positive_cap : bool then
    market_cap_billions <- truediv_lit (fetch_prices.market_cap crypto) 1000000000 ;;
    billions <- format_2f false market_cap_billions ;;
    let market_content :=
      fetch_prices.name crypto ++ " has a market capitalization of $" ++ billions
        ++ " billion USD, ranking #" ++ rank_str (fetch_prices.market_cap_rank crypto)
        ++ " by market cap." in
    Ok [ {| fact_id := fetch_prices.id crypto ++ "_market_" ++ fetch_prices.timestamp crypto;
            content := market_content;
            crypto_id := fetch_prices.id crypto;
            crypto_symbol := fetch_prices.symbol crypto;
            fact_type := "market_cap";
            timestamp := fetch_prices.timestamp crypto;
            metadata := [ ("market_cap", fetch_prices.market_cap crypto);
                          ("market_cap_billions", market_cap_billions);
                          ("rank", rank_val (fetch_prices.market_cap_rank crypto)) ] |} ]
  else Ok [].

Definition _extract_volume_facts (crypto : fetch_prices.CryptoData)
  : result (list CryptoFact) :=
  positive_volume <- gt_zero (fetch_prices.volume_24h crypto) ;;
  if positive_volume : bool then
    volume_millions <- truediv_lit (fetch_prices.volume_24h crypto) 1000000 ;;
    millions <- format_2f false volume_millions ;;
    let volume_content :=
      fetch_prices.name crypto ++ " has a 24-hour trading volume of $" ++ millions
        ++ " million USD." in
    Ok [ {| fact_id := fetch_prices.id crypto ++ "_volume_" ++ fetch_prices.timestamp crypto;
            content := volume_content;
            crypto_id := fetch_prices.id crypto;
            crypto_symbol := fetch_prices.symbol crypto;
            fact_type := "volume";
            timestamp := fetch_prices.timestamp crypto;
            metadata := [ ("volume_24h", fetch_prices.volume_24h crypto);
                          ("volume_millions", volume_millions);
                          ("timeframe", PyStr "24h") ] |} ]
  else Ok [].

(** The facts one pass of the loop body appends, in order. *)
Definition facts_of_record (crypto : fetch_prices.CryptoData)
  : result (list CryptoFact) :=
  price <- _extract_price_facts crypto ;;
  change <- _extract_change_facts crypto ;;
  market <- _extract_market_facts crypto ;;
  volume <- _extract_volume_facts crypto ;;
  Ok (price ++ change ++ market ++ volume)%list.

(** The loop of [extract_facts]: [facts] is the list built so far. *)
Fixpoint extract_loop (facts : list CryptoFact)
    (crypto_data : list fetch_prices.CryptoData) : result (list CryptoFact) :=
  match crypto_data with
  | [] => Ok facts
  | crypto :: rest =>
      new_facts <- facts_of_record crypto ;;
      extract_loop (facts ++ new_facts)%list rest
  end.

Definition extract_facts (crypto_data : list fetch_prices.CryptoData)
  : result (list CryptoFact) :=
  extract_loop [] crypto_data.

End fact_extractor.

(* ================================================================== *)
(** * The vector database behind the store (chromadb)                 *)
(* ================================================================== *)

(** The collection object [embed_store.py] drives is chromadb's, a library
    outside the repository.  What the code relies on is modelled here after
    the library's documented contract: a collection holds one entry per id;
    [add] validates its batch, inserts and never overwrites, [count] and
    [get(limit=n)] read the entries in insertion order, and [query] answers
    with the ids, documents, metadatas and distances of the entries it
    found.  Releases differ on what [add] does with an id that is already
    stored (the batch is refused with an error, or the entries with a known
    id are skipped), so that choice is a parameter of the client, as is the
    vector index that ranks the entries. *)
Module chromadb.
Import Py.

Record entry : Type := {
  entry_id : string;
  document : string;
  entry_metadata : dict;
  embedding : list float
}.

Definition Collection : Type := list entry.

Definition ids_of (c : Collection) : list string := map entry_id c.

Fixpoint distinct (l : list string) : bool :=
  match l with
  | [] => true
  | x :: l' => negb (mem x l') && distinct l'
  end.

Inductive existing_id_policy : Set :=
| RefuseBatch
| SkipExisting.

(** What [collection.query] returns: one inner list per query embedding. *)
Record QueryResult : Type := {
  ids : list (list string);
  documents : option (list (list string));
  metadatas : option (list (list dict));
  distances : option (list (list float))
}.

(** The database as the store uses it.  [nearest] stands for the vector
    index: the entries it finds for a query embedding, closest first, each
    with its distance.  Which entries those are is the index's business;
    the shape of the answer is the library's and is fixed by [query]. *)
Record Client : Type := {
  on_existing_id : existing_id_policy;
  nearest : Collection -> list float -> Z -> option (string * string)
            -> list (entry * float)
}.

(** [collection.query(query_embeddings=[e], n_results=n, where=w)], as
    [search_facts] calls it, without [include=].  The library refuses
    [n <= 0] with a [TypeError]; otherwise the answer holds, for the one
    query embedding, the ids, the documents, the metadatas and the
    distances of the entries found: the default [include] names all
    three. *)
Definition answer (found : list (entry * float)) : QueryResult :=
  {| ids := [map (fun hit => entry_id (fst hit)) found];
     documents := Some [map (fun hit => document (fst hit)) found];
     metadatas := Some [map (fun hit => entry_metadata (fst hit)) found];
     distances := Some [map snd found] |}.

Definition query (cl : Client) (c : Collection) (query_embedding : list float)
    (n_results : Z) (where_clause : option (string * string))
  : result QueryResult :=
  if n_results <=? 0 then Raise TypeError
  else Ok (answer (nearest cl c query_embedding n_results where_clause)).

(** A metadata value the database stores: a str, an int or a float.
    [None] is refused. *)
Definition valid_metadata_value (v : pyval) : bool :=
  match v with
  | PyNone => false
  | PyInt _ | PyFloat _ | PyStr _ => true
  end.

Definition valid_metadata (m : dict) : bool :=
  forallb (fun kv => valid_metadata_value (snd kv)) m.

Definition get_by_id (c : Collection) (i : string) : list entry :=
  filter (fun e => String.eqb (entry_id e) i) c.

(** [collection.add(documents=, metadatas=, embeddings=, ids=)].  The
    batch is validated before anything is stored: an id given twice is a
    [DuplicateIDError], a metadata value that is [None] a [ValueError].
    What happens to an id the collection already holds depends on the
    version of the library: [on_existing_id]. *)
Definition add (cl : Client) (c : Collection) (batch : list entry)
  : result Collection :=
  if negb (distinct (map entry_id batch)) then Raise DuplicateIDError
  else if negb (forallb (fun e => valid_metadata (entry_metadata e)) batch)
  then Raise ValueError
  else
    match on_existing_id cl with
    | RefuseBatch =>
        if existsb (fun e => mem (entry_id e) (ids_of c)) batch
        then Raise IDAlreadyExistsError
        else Ok (c ++ batch)%list
    | SkipExisting =>
        Ok (c ++ filter (fun e => negb (mem (entry_id e) (ids_of c))) batch)%list
    end.

Definition count (c : Collection) : Z := Z.of_nat (List.length c).

(** [collection.get(limit=n)['metadatas']]. *)
Definition get_metadatas (c : Collection) (limit : Z) : list dict :=
  map entry_metadata (firstn (Z.to_nat limit) c).

End chromadb.

(* ================================================================== *)
(** * knowledge/embed_store.py                                        *)
(* ================================================================== *)

Module embed_store.
Import Py.

(** The object state of a [CryptoVectorStore]: the sentence encoder (a
    black box from text to vector), the database client and the
    collection it currently holds. *)
Record CryptoVectorStore : Type := {
  embedding_model : string -> list float;
  client : chromadb.Client;
  collection : chromadb.Collection
}.

Definition with_collection (self : CryptoVectorStore) (c : chromadb.Collection)
  : CryptoVectorStore :=
  {| embedding_model := embedding_model self;
     client := client self;
     collection := c |}.

(** The metadata [add_facts] stores for a fact. *)
Definition stored_metadata (fact : fact_extractor.CryptoFact) : dict :=
  dict_merge
    [ ("crypto_id", PyStr (fact_extractor.crypto_id fact));
      ("crypto_symbol", PyStr (fact_extractor.crypto_symbol fact));
      ("fact_type", PyStr (fact_extractor.fact_type fact));
      ("timestamp", PyStr (fact_extractor.timestamp fact)) ]
    (fact_extractor.metadata fact).

Definition entry_of_fact (self : CryptoVectorStore)
    (fact : fact_extractor.CryptoFact) : chromadb.entry :=
  {| chromadb.entry_id := fact_extractor.fact_id fact;
     chromadb.document := fact_extractor.content fact;
     chromadb.entry_metadata := stored_metadata fact;
     chromadb.embedding := embedding_model self (fact_extractor.content fact) |}.

(** [add_facts]: the store after the call and the returned count. *)
Definition add_facts (self : CryptoVectorStore)
    (facts : list fact_extractor.CryptoFact) : result (CryptoVectorStore * Z) :=
  match facts with
  | [] => Ok (self, 0)
  | _ :: _ =>
      c' <- chromadb.add (client self) (collection self)
              (map (entry_of_fact self) facts) ;;
      Ok (with_collection self c', Z.of_nat (List.length facts))
  end.

(** A search hit: the dict [search_facts] builds, with the key
    [similarity] the retriever adds later.  [distance] is [None] when the
    key is absent, [Some None] when it holds Python's [None]. *)
Record candidate : Type := {
  content : string;
  metadata : dict;
  distance : option (option float);
  id : string;
  similarity : option float
}.

Definition index {A} (l : list A) (i : nat) : result A :=
  match nth_error l i with
  | Some a => Ok a
  | None => Raise IndexError
  end.

(** [results[key][0][i]] for a key whose value may be [None]. *)
Definition index00 {A} (field : option (list (list A))) (i : nat) : result A :=
  match field with
  | None => Raise TypeError
  | Some rows => row <- index rows 0 ;; index row i
  end.

Definition format_hit (results : chromadb.QueryResult) (i : nat)
  : result candidate :=
  doc <- index00 (chromadb.documents results) i ;;
  meta <- index00 (chromadb.metadatas results) i ;;
  dist <- match chromadb.distances results with
          | None | Some [] => Ok None
          | Some rows => row <- index rows 0 ;; d <- index row i ;; Ok (Some d)
          end ;;
  ident <- index00 (Some (chromadb.ids results)) i ;;
  Ok {| content := doc; metadata := meta; distance := Some dist;
        id := ident; similarity := None |}.

Fixpoint format_loop (results : chromadb.QueryResult)
    (formatted_results : list candidate) (indices : list nat)
  : result (list candidate) :=
  match indices with
  | [] => Ok formatted_results
  | i :: rest =>
      hit <- format_hit results i ;;
      format_loop results (formatted_results ++ [hit])%list rest
  end.

(** The "Format results" part of [search_facts]. *)
Definition format_results (results : chromadb.QueryResult)
  : result (list candidate) :=
  match chromadb.documents results with
  | Some (first :: _) =>
      match first with
      | [] => Ok []
      | _ :: _ => format_loop results [] (seq 0 (List.length first))
      end
  | Some [] | None => Ok []
  end.

Definition search_facts (self : CryptoVectorStore) (query : string)
    (n_results : Z) (crypto_filter : option string) : result (list candidate) :=
  let query_embedding := embedding_model self query in
  let where_clause :=
    match crypto_filter with
    | Some f => if String.eqb f "" then None else Some ("crypto_symbol", f)
    | None => None
    end in
  results <- chromadb.query (client self) (collection self)
               query_embedding n_results where_clause ;;
  format_results results.

(** ** Statistics *)

(** Python's [==] on the modelled values. *)
Definition float_eq_int (x : float) (z : Z) : bool :=
  match Prim2SF x with
  | S754_zero _ => z =? 0
  | S754_finite s m e =>
      let mz := if s then Zneg m else Zpos m in
      if 0 <=? e then z =? mz * 2 ^ e else z * 2 ^ (- e) =? mz
  | S754_nan | S754_infinity _ => false
  end.

Definition py_eq (a b : pyval) : bool :=
  match a, b with
  | PyNone, PyNone => true
  | PyInt x, PyInt y => x =? y
  | PyFloat x, PyFloat y => (x =? y)%float
  | PyInt z, PyFloat x | PyFloat x, PyInt z => float_eq_int x z
  | PyStr s, PyStr t => String.eqb s t
  | _, _ => false
  end.

(** [s.add(v)] on a set kept as the list of its members (Python fixes no
    iteration order for a set; the model keeps the order of arrival). *)
Definition set_add (s : list pyval) (v : pyval) : list pyval :=
  if existsb (py_eq v) s then s else (s ++ [v])%list.

Inductive stat_value : Type :=
| StatInt (n : Z)
| StatList (l : list pyval).

Definition get_collection_stats (self : CryptoVectorStore)
  : list (string * stat_value) :=
  let count := chromadb.count (collection self) in
  if 0 <? count then
    let sample := chromadb.get_metadatas (collection self) (Z.min 100 count) in
    let crypto_symbols :=
      fold_left (fun s metadata =>
                   set_add s (dict_get_default metadata "crypto_symbol" (PyStr "unknown")))
                sample [] in
    let fact_types :=
      fold_left (fun s metadata =>
                   set_add s (dict_get_default metadata "fact_type" (PyStr "unknown")))
                sample [] in
    [ ("total_facts", StatInt count);
      ("unique_cryptos", StatInt (Z.of_nat (List.length crypto_symbols)));
      ("crypto_symbols", StatList crypto_symbols);
      ("fact_types", StatList fact_types) ]
  else [ ("total_facts", StatInt 0) ].

Fixpoint stat_get (stats : list (string * stat_value)) (k : string)
  : option stat_value :=
  match stats with
  | [] => None
  | (k', v) :: rest => if String.eqb k' k then Some v else stat_get rest k
  end.

(** [clear_collection]: the collection is deleted and created again. *)
Definition clear_collection (self : CryptoVectorStore) : CryptoVectorStore :=
  with_collection self [].

End embed_store.

(* ================================================================== *)
(** * rag_pipeline/retriever.py                                       *)
(* ================================================================== *)

Module retriever.
Import Py.

(** What the retriever needs of its [vector_store]: the method
    [search_facts].  [CryptoVectorStore] is one implementation; the
    module falls back to another one at import time. *)
Class VectorStore (S : Type) : Type := {
  search_facts : S -> string -> Z -> option string
                 -> result (list embed_store.candidate)
}.

#[global] Instance CryptoVectorStore_store : VectorStore embed_store.CryptoVectorStore :=
  {| search_facts := embed_store.search_facts |}.

(** A store that answers every search with a fixed list of hits. *)
#[global] Instance canned_store : VectorStore (list embed_store.candidate) :=
  {| search_facts := fun hits _ _ _ => Ok hits |}.

Record RetrievalResult : Type := {
  query : string;
  facts : list embed_store.candidate;
  total_found : Z;
  retrieval_time : float
}.

(** [result.get('distance', 1.0)]. *)
Definition get_distance (hit : embed_store.candidate) : option float :=
  match embed_store.distance hit with
  | Some v => v
  | None => Some 1%float
  end.

(** [1 - d]: [None] is not a number. *)
Definition one_minus (d : option float) : result float :=
  match d with
  | Some x => Ok (1 - x)%float
  | None => Raise TypeError
  end.

(** [result['similarity'] = similarity]. *)
Definition set_similarity (hit : embed_store.candidate) (s : float)
  : embed_store.candidate :=
  {| embed_store.content := embed_store.content hit;
     embed_store.metadata := embed_store.metadata hit;
     embed_store.distance := embed_store.distance hit;
     embed_store.id := embed_store.id hit;
     embed_store.similarity := Some s |}.

(** The filtering loop: [filtered_facts] is the list built so far. *)
Fixpoint filter_loop (relevance_threshold : float)
    (filtered_facts raw_results : list embed_store.candidate)
  : result (list embed_store.candidate) :=
  match raw_results with
  | [] => Ok filtered_facts
  | hit :: rest =>
      similarity <- one_minus (get_distance hit) ;;
      if (relevance_threshold <=? similarity)%float
      then filter_loop relevance_threshold
             (filtered_facts ++ [set_similarity hit similarity])%list rest
      else filter_loop relevance_threshold filtered_facts rest
  end.

(** [l[:n]] for an int [n] of either sign. *)
Definition slice_to {A} (l : list A) (n : Z) : list A :=
  if n <? 0 then firstn (Z.to_nat (Z.of_nat (List.length l) + n)) l
  else firstn (Z.to_nat n) l.

(** [retrieve_facts]; [start_time] and [end_time] are the two readings of
    [time.time()]. *)
Definition retrieve_facts {S} `{VectorStore S} (vector_store : S)
    (start_time end_time : float) (query : string) (max_facts : Z)
    (crypto_filter : option string) (relevance_threshold : float)
  : result RetrievalResult :=
  raw_results <- search_facts vector_store query (max_facts * 2) crypto_filter ;;
  filtered_facts <- filter_loop relevance_threshold [] raw_results ;;
  let filtered_facts := slice_to filtered_facts max_facts in
  let retrieval_time := (end_time - start_time)%float in
  Ok {| query := query;
        facts := filtered_facts;
        total_found := Z.of_nat (List.length raw_results);
        retrieval_time := retrieval_time |}.

(** ** Query analysis *)

(** [str.lower] on ASCII text: the letters A to Z are mapped, every other
    character of the ASCII range is kept.  (Outside that range [str.lower]
    maps further letters; a statement that depends on the result of
    [lower] is made for ASCII text.) *)
Definition lower_char (c : ascii) : ascii :=
  let n := nat_of_ascii c in
  if (65 <=? n)%nat && (n <=? 90)%nat then ascii_of_nat (n + 32) else c.

Fixpoint lower (s : string) : string :=
  match s with
  | EmptyString => EmptyString
  | String c s' => String (lower_char c) (lower s')
  end.

(** [needle in haystack]. *)
Fixpoint contains (needle haystack : string) : bool :=
  String.prefix needle haystack ||
  match haystack with
  | EmptyString => false
  | String _ rest => contains needle rest
  end.

Definition crypto_mapping : list (string * string) :=
  [ ("bitcoin", "BTC"); ("btc", "BTC");
    ("ethereum", "ETH"); ("eth", "ETH");
    ("cardano", "ADA"); ("ada", "ADA");
    ("solana", "SOL"); ("sol", "SOL");
    ("polkadot", "DOT"); ("dot", "DOT");
    ("chainlink", "LINK"); ("link", "LINK");
    ("polygon", "MATIC"); ("matic", "MATIC");
    ("avalanche", "AVAX"); ("avax", "AVAX") ].

Definition intent_keywords : list (string * list string) :=
  [ ("price", ["price"; "cost"; "value"; "worth"; "trading"]);
    ("change", ["change"; "increase"; "decrease"; "up"; "down"; "gain"; "loss"]);
    ("market_cap", ["market cap"; "market capitalization"; "valuation"]);
    ("volume", ["volume"; "trading volume"; "liquidity"]);
    ("ranking", ["rank"; "ranking"; "position"; "top"]) ].

(** [list(set(l))]; a set has no fixed order, the model keeps the order of
    first occurrence. *)
Fixpoint list_set (l : list string) (seen : list string) : list string :=
  match l with
  | [] => seen
  | x :: l' =>
      if mem x seen then list_set l' seen
      else list_set l' (seen ++ [x])%list
  end.

Record QueryIntent : Type := {
  cryptos : list string;
  intents : list string;
  is_comparison : bool;
  is_general : bool
}.

Definition analyze_query_intent (query : string) : QueryIntent :=
  let query_lower := lower query in
  let mentioned_cryptos :=
    map snd (filter (fun entry => contains (fst entry) query_lower) crypto_mapping) in
  let detected_intents :=
    map fst (filter (fun entry =>
                       existsb (fun keyword => contains keyword query_lower) (snd entry))
                    intent_keywords) in
  {| cryptos := list_set mentioned_cryptos [];
     intents := detected_intents;
     is_comparison :=
       existsb (fun word => contains word query_lower)
               ["compare"; "vs"; "versus"; "between"];
     is_general := (List.length mentioned_cryptos =? 0)%nat |}.

(** ** The context string *)

Section ContextString.

(** [str(x)] of a float, Python's shortest representation that reads back
    as [x]: a function of the runtime, taken as it is. *)
Variable float_repr : float -> string.

(** [str(v)], as an f-string interpolates a value. *)
Definition py_str (v : pyval) : string :=
  match v with
  | PyStr s => s
  | PyInt z => str_int z
  | PyNone => "None"
  | PyFloat x => float_repr x
  end.

(** [v[:19]]: only a string can be sliced. *)
Definition slice19 (v : pyval) : result string :=
  match v with
  | PyStr s => Ok (substring 0 19 s)
  | PyNone | PyInt _ | PyFloat _ => Raise TypeError
  end.

(** The two lines the loop appends for the fact numbered [i]. *)
Definition context_entry (i : Z) (fact : embed_store.candidate)
  : result (list string) :=
  let content := embed_store.content fact in
  let metadata := embed_store.metadata fact in
  let timestamp := dict_get_default metadata "timestamp" (PyStr "unknown") in
  let source := py_str (dict_get_default metadata "crypto_symbol" (PyStr "N/A")) in
  time <- slice19 timestamp ;;
  Ok [ str_int i ++ ". " ++ content;
       "   (Source: " ++ source ++ ", Time: " ++ time ++ ")" ].

(** The loop over [enumerate(facts, 1)], from number [i] on. *)
Fixpoint context_loop (context_parts : list string) (i : Z)
    (facts : list embed_store.candidate) : result (list string) :=
  match facts with
  | [] => Ok context_parts
  | fact :: rest =>
      entry <- context_entry i fact ;;
      context_loop (context_parts ++ entry)%list (i + 1) rest
  end.

Definition context_header : string :=
  "Based on the latest cryptocurrency data, here are the relevant facts:".

Definition no_context : string :=
  "No relevant information found in the knowledge base.".

(** The list [context_parts] when the loop is over. *)
Definition context_parts (retrieval_result : RetrievalResult) : result (list string) :=
  context_loop [context_header] 1 (facts retrieval_result).

Definition newline : string := String (ascii_of_nat 10) EmptyString.

Definition get_context_string (retrieval_result : RetrievalResult) : result string :=
  match facts retrieval_result with
  | [] => Ok no_context
  | _ :: _ =>
      parts <- context_parts retrieval_result ;;
      Ok (String.concat newline parts)
  end.

End ContextString.

End retriever.

(* ================================================================== *)
(** * utils/config.py                                                 *)
(* ================================================================== *)

Module config.

(** The class attributes of [Config], read from the environment. *)
Record Config : Type := {
  GROQ_API_KEY : string;
  COINGECKO_API_KEY : option string;
  LANGCHAIN_TRACING_V2 : string;
  LANGCHAIN_API_KEY : option string;
  UPDATE_INTERVAL_MINUTES : Z;
  MAX_CRYPTO_COINS : Z;
  VECTOR_DB_PATH : string;
  LOG_LEVEL : string;
  LLM_MODEL : string;
  MAX_TOKENS : Z;
  TEMPERATURE : float
}.

(** [Config.validate()]: the printed warning is left out. *)
Definition validate (cls : Config) : bool :=
  if String.eqb (GROQ_API_KEY cls) "" then false else true.

End config.

(* ================================================================== *)
(** * knowledge/update_scheduler.py                                   *)
(* ================================================================== *)

Module update_scheduler.
Import Py.

(** The scheduler owns a fetcher, an extractor and a vector store; only the
    store has a state. *)
Record CryptoKnowledgeScheduler : Type := {
  vector_store : embed_store.CryptoVectorStore
}.

(** What one run of [update_knowledge_base] logs at its end. *)
Inductive outcome : Type :=
| Updated (added_count : Z)
| NothingFetched
| Failed (e : exn).

(** [update_knowledge_base]: [data] is the answer of the API request and
    [timestamp] the time read by the fetcher.  The whole body is in a
    [try] that catches every exception. *)
Definition update_knowledge_base (self : CryptoKnowledgeScheduler)
    (timestamp : string) (data : option (list fetch_prices.coin))
  : CryptoKnowledgeScheduler * outcome :=
  match fetch_prices.fetch_top_cryptocurrencies timestamp data with
  | Raise e => (self, Failed e)
  | Ok ([], _) => (self, NothingFetched)
  | Ok (crypto_data, _) =>
      match fact_extractor.extract_facts crypto_data with
      | Raise e => (self, Failed e)
      | Ok facts =>
          match embed_store.add_facts (vector_store self) facts with
          | Raise e => (self, Failed e)
          | Ok (store, added_count) =>
              ({| vector_store := store |}, Updated added_count)
          end
      end
  end.

End update_scheduler.

(* ================================================================== *)
(** * batch_process.py                                                *)
(* ================================================================== *)

Module batch_process.
Import Py.

(** The JSON file in the state the script leaves it in: [None] when it
    does not exist, else the list of rows it holds.  What else the path can
    hold when the script starts is [on_disk], below. *)
Definition json_file : Type := option (list dict).

Definition read_json (file : json_file) : list dict :=
  match file with
  | None => []
  | Some data => data
  end.

(** [value["usd"]]. *)
Definition getitem (d : dict) (k : string) : result pyval :=
  match dict_get d k with
  | Some v => Ok v
  | None => Raise KeyError
  end.

(** The loop over [prices.items()]: [data] is the list built so far. *)
Fixpoint append_prices (timestamp : string) (data : list dict)
    (prices : list (string * dict)) : result (list dict) :=
  match prices with
  | [] => Ok data
  | (crypto, value) :: rest =>
      price_usd <- getitem value "usd" ;;
      append_prices timestamp
        (data ++ [ [ ("timestamp", PyStr timestamp);
                     ("crypto", PyStr crypto);
                     ("price_usd", price_usd) ] ])%list
        rest
  end.

(** [update_json_batch]: [utcnow] is the clock reading in ISO format; the
    result is the file as written. *)
Definition update_json_batch (utcnow : string) (prices : list (string * dict))
    (file : json_file) : result json_file :=
  let data := read_json file in
  let timestamp := utcnow ++ "Z" in
  data <- append_prices timestamp data prices ;;
  Ok (Some data).

(** ** Any file *)

(** A JSON document: a list of rows, or a value of another kind (an
    object, a string, a number, [null]). *)
Inductive json_document : Type :=
| JsonList (rows : list dict)
| JsonNotList.

(** What the path holds: nothing, a file that is not a JSON text (an empty
    file, for one), or a JSON document. *)
Inductive on_disk : Type :=
| Absent
| NotJson
| Holds (document : json_document).

(** [read_json] on any file: [json.load] raises [JSONDecodeError], which is
    a [ValueError], on a file that is not a JSON text. *)
Definition read_json_on_disk (file : on_disk) : result json_document :=
  match file with
  | Absent => Ok (JsonList [])
  | NotJson => Raise ValueError
  | Holds document => Ok document
  end.

(** The loop on what [read_json] returned: only a list has [append], and
    the method is looked up once per entry of [prices]. *)
Definition append_to (timestamp : string) (data : json_document)
    (prices : list (string * dict)) : result json_document :=
  match data with
  | JsonList rows =>
      rows <- append_prices timestamp rows prices ;;
      Ok (JsonList rows)
  | JsonNotList =>
      match prices with
      | [] => Ok JsonNotList
      | _ :: _ => Raise AttributeError
      end
  end.

(** [update_json_batch] on any file; the result is the file as written. *)
Definition update_json_batch_on_disk (utcnow : string)
    (prices : list (string * dict)) (file : on_disk) : result on_disk :=
  data <- read_json_on_disk file ;;
  let timestamp := utcnow ++ "Z" in
  data <- append_to timestamp data prices ;;
  Ok (Holds data).

(** A file that is absent or holds a list, among all files. *)
Definition disk_of (file : json_file) : on_disk :=
  match file with
  | None => Absent
  | Some rows => Holds (JsonList rows)
  end.

End batch_process.

(* ================================================================== *)
(** * Vocabulary of the properties                                    *)
(* ================================================================== *)

Module props.
Import Py.

(** The hit carries a number as its distance (or no [distance] key, for
    which the retriever takes 1.0). *)
Definition scored (hit : embed_store.candidate) : bool :=
  match retriever.get_distance hit with
  | Some _ => true
  | None => false
  end.

(** A returned fact is relevant for threshold [t]: its [similarity] is
    one minus its distance and is at least [t]. *)
Definition relevant (t : float) (fact : embed_store.candidate) : Prop :=
  exists d : float,
    retriever.get_distance fact = Some d /\
    embed_store.similarity fact = Some (1 - d)%float /\
    (t <=? 1 - d)%float = true.

Definition len {A} (l : list A) : Z := Z.of_nat (List.length l).

(** ** Fact extraction *)

(** The facts of a batch, record after record. *)
Fixpoint facts_of_records (crypto_data : list fetch_prices.CryptoData)
  : result (list fact_extractor.CryptoFact) :=
  match crypto_data with
  | [] => Ok []
  | crypto :: rest =>
      new_facts <- fact_extractor.facts_of_record crypto ;;
      more <- facts_of_records rest ;;
      Ok (new_facts ++ more)%list
  end.

Definition has_type (ty : string) (fact : fact_extractor.CryptoFact) : bool :=
  String.eqb (fact_extractor.fact_type fact) ty.

(** How many facts of a type a list holds. *)
Definition count_type (ty : string) (facts : list fact_extractor.CryptoFact) : nat :=
  List.length (filter (has_type ty) facts).

(** The middle part of a fact id, by fact type. *)
Definition id_tag (fact_type : string) : string :=
  if String.eqb fact_type "market_cap" then "market" else fact_type.

(** [d[k]]. *)
Definition item (d : dict) (k : string) : result pyval :=
  match dict_get d k with
  | Some v => Ok v
  | None => Raise KeyError
  end.

(** [str(v)] of a string, an int or [None]. *)
Definition str_of (v : pyval) : result string :=
  match v with
  | PyStr s => Ok s
  | PyInt z => Ok (str_int z)
  | PyNone => Ok "None"
  | PyFloat _ => Raise TypeError
  end.

(** The sentence of a fact, derived again from the entity's name and the
    fact's symbol, type and metadata. *)
Definition regenerate (name symbol fact_type : string) (metadata : dict)
  : result string :=
  if String.eqb fact_type "price" then
    p <- item metadata "price" ;;
    price <- format_2f true p ;;
    Ok (name ++ " (" ++ symbol ++ ") is currently trading at $" ++ price ++ " USD.")
  else if String.eqb fact_type "change" then
    change_pct <- item metadata "change_percentage" ;;
    change_abs <- item metadata "change_absolute" ;;
    d <- item metadata "direction" ;;
    direction <- str_of d ;;
    apct <- py_abs change_pct ;;
    pct <- format_2f false apct ;;
    aabs <- py_abs change_abs ;;
    dollars <- format_2f false aabs ;;
    Ok (name ++ " has " ++ direction ++ " by " ++ pct ++ "% ($" ++ dollars
          ++ ") in the last 24 hours.")
  else if String.eqb fact_type "market_cap" then
    b <- item metadata "market_cap_billions" ;;
    r <- item metadata "rank" ;;
    billions <- format_2f false b ;;
    rank <- str_of r ;;
    Ok (name ++ " has a market capitalization of $" ++ billions
          ++ " billion USD, ranking #" ++ rank ++ " by market cap.")
  else if String.eqb fact_type "volume" then
    m <- item metadata "volume_millions" ;;
    millions <- format_2f false m ;;
    Ok (name ++ " has a 24-hour trading volume of $" ++ millions ++ " million USD.")
  else Raise ValueError.

(** A value [format(v, ".2f")] accepts: a float, or an int in float range. *)
Definition converts (v : pyval) : bool :=
  match v with
  | PyFloat _ => true
  | PyInt z => returns (float_of_int z)
  | PyNone | PyStr _ => false
  end.

(** A value [v / d] accepts: a float, or an int whose quotient is in float
    range. *)
Definition divides (d : Z) (v : pyval) : bool :=
  match v with
  | PyFloat _ => true
  | PyInt z => returns (int_truediv z d)
  | PyNone | PyStr _ => false
  end.

(** A record whose numeric fields hold numbers. *)
Definition numeric_record (crypto : fetch_prices.CryptoData) : bool :=
  converts (fetch_prices.current_price crypto)
  && converts (fetch_prices.price_change_percentage_24h crypto)
  && converts (fetch_prices.price_change_24h crypto)
  && divides 1000000000 (fetch_prices.market_cap crypto)
  && divides 1000000 (fetch_prices.volume_24h crypto).

(** ** The store *)

(** The store once a call of [add_facts] is over: the returned one, or the
    one before the call when the call raised. *)
Definition after_add_facts (self : embed_store.CryptoVectorStore)
    (facts : list fact_extractor.CryptoFact) : embed_store.CryptoVectorStore :=
  match embed_store.add_facts self facts with
  | Ok (self', _) => self'
  | Raise _ => self
  end.

(** The metadata [get_collection_stats] samples, and the values they hold
    under a key. *)
Definition sampled (self : embed_store.CryptoVectorStore) : list dict :=
  map chromadb.entry_metadata (firstn 100 (embed_store.collection self)).

Definition values_of (k : string) (metadatas : list dict) : list pyval :=
  map (fun metadata => dict_get_default metadata k (PyStr "unknown")) metadatas.

(** [v in s] by Python's equality. *)
Definition py_in (v : pyval) (s : list pyval) : bool :=
  existsb (embed_store.py_eq v) s.

(** No member equals, by Python's equality, a member that arrived before
    it; the list is read newest first. *)
Fixpoint distinct_newest_first (r : list pyval) : bool :=
  match r with
  | [] => true
  | v :: older => negb (py_in v older) && distinct_newest_first older
  end.

(** [s] is the set of the values [l], in order of arrival: its members are
    values of [l], every value of [l] is a member or equal to one, and no
    two members are equal. *)
Definition set_of (s l : list pyval) : Prop :=
  (forall v, In v s -> In v l) /\
  (forall v, In v l -> In v s \/ py_in v s = true) /\
  distinct_newest_first (rev s) = true.

End props.

(* ================================================================== *)
(** * Concrete data used by the examples                              *)
(* ================================================================== *)

Module sample.
Import Py.

Definition hit (ident : string) (d : option (option float)) : embed_store.candidate :=
  {| embed_store.content := "Bitcoin (BTC) is currently trading at $50,000.00 USD.";
     embed_store.metadata := [ ("crypto_symbol", PyStr "BTC") ];
     embed_store.distance := d;
     embed_store.id := ident;
     embed_store.similarity := None |}.

(** Three hits at distances 0.125, 0.1875 and 0.5, closest first. *)
Definition three_hits : list embed_store.candidate :=
  [ hit "a" (Some (Some 0.125%float));
    hit "b" (Some (Some 0.1875%float));
    hit "c" (Some (Some 0.5%float)) ].

(** The Bitcoin record of the end-to-end example. *)
Definition btc : fetch_prices.CryptoData :=
  {| fetch_prices.id := "bitcoin";
     fetch_prices.symbol := "BTC";
     fetch_prices.name := "Bitcoin";
     fetch_prices.current_price := PyFloat 50000;
     fetch_prices.market_cap := PyInt 950000000000;
     fetch_prices.market_cap_rank := Some 1;
     fetch_prices.price_change_24h := PyFloat 1200;
     fetch_prices.price_change_percentage_24h := PyFloat 2.5;
     fetch_prices.volume_24h := PyFloat 25000000000;
     fetch_prices.timestamp := "2024-01-01T00:00:00+00:00";
     fetch_prices.source := "coingecko" |}.

Definition with_name (crypto : fetch_prices.CryptoData) (n : string)
  : fetch_prices.CryptoData :=
  {| fetch_prices.id := fetch_prices.id crypto;
     fetch_prices.symbol := fetch_prices.symbol crypto;
     fetch_prices.name := n;
     fetch_prices.current_price := fetch_prices.current_price crypto;
     fetch_prices.market_cap := fetch_prices.market_cap crypto;
     fetch_prices.market_cap_rank := fetch_prices.market_cap_rank crypto;
     fetch_prices.price_change_24h := fetch_prices.price_change_24h crypto;
     fetch_prices.price_change_percentage_24h :=
       fetch_prices.price_change_percentage_24h crypto;
     fetch_prices.volume_24h := fetch_prices.volume_24h crypto;
     fetch_prices.timestamp := fetch_prices.timestamp crypto;
     fetch_prices.source := fetch_prices.source crypto |}.

Definition with_price (crypto : fetch_prices.CryptoData) (p : pyval)
  : fetch_prices.CryptoData :=
  {| fetch_prices.id := fetch_prices.id crypto;
     fetch_prices.symbol := fetch_prices.symbol crypto;
     fetch_prices.name := fetch_prices.name crypto;
     fetch_prices.current_price := p;
     fetch_prices.market_cap := fetch_prices.market_cap crypto;
     fetch_prices.market_cap_rank := fetch_prices.market_cap_rank crypto;
     fetch_prices.price_change_24h := fetch_prices.price_change_24h crypto;
     fetch_prices.price_change_percentage_24h :=
       fetch_prices.price_change_percentage_24h crypto;
     fetch_prices.volume_24h := fetch_prices.volume_24h crypto;
     fetch_prices.timestamp := fetch_prices.timestamp crypto;
     fetch_prices.source := fetch_prices.source crypto |}.

Definition btc_price_fact (n price : string) (p : pyval) : fact_extractor.CryptoFact :=
  {| fact_extractor.fact_id := "bitcoin_price_2024-01-01T00:00:00+00:00";
     fact_extractor.content :=
       n ++ " (BTC) is currently trading at $" ++ price ++ " USD.";
     fact_extractor.crypto_id := "bitcoin";
     fact_extractor.crypto_symbol := "BTC";
     fact_extractor.fact_type := "price";
     fact_extractor.timestamp := "2024-01-01T00:00:00+00:00";
     fact_extractor.metadata :=
       [ ("price", p); ("currency", PyStr "USD"); ("source", PyStr "coingecko") ] |}.

Definition btc_change_fact (n : string) : fact_extractor.CryptoFact :=
  {| fact_extractor.fact_id := "bitcoin_change_2024-01-01T00:00:00+00:00";
     fact_extractor.content :=
       n ++ " has increased by 2.50% ($1200.00) in the last 24 hours.";
     fact_extractor.crypto_id := "bitcoin";
     fact_extractor.crypto_symbol := "BTC";
     fact_extractor.fact_type := "change";
     fact_extractor.timestamp := "2024-01-01T00:00:00+00:00";
     fact_extractor.metadata :=
       [ ("change_percentage", PyFloat 2.5); ("change_absolute", PyFloat 1200);
         ("direction", PyStr "increased"); ("timeframe", PyStr "24h") ] |}.

Definition btc_market_fact (n : string) : fact_extractor.CryptoFact :=
  {| fact_extractor.fact_id := "bitcoin_market_2024-01-01T00:00:00+00:00";
     fact_extractor.content :=
       n ++ " has a market capitalization of $950.00 billion USD, ranking #1 by market cap.";
     fact_extractor.crypto_id := "bitcoin";
     fact_extractor.crypto_symbol := "BTC";
     fact_extractor.fact_type := "market_cap";
     fact_extractor.timestamp := "2024-01-01T00:00:00+00:00";
     fact_extractor.metadata :=
       [ ("market_cap", PyInt 950000000000); ("market_cap_billions", PyFloat 950);
         ("rank", PyInt 1) ] |}.

Definition btc_volume_fact (n : string) : fact_extractor.CryptoFact :=
  {| fact_extractor.fact_id := "bitcoin_volume_2024-01-01T00:00:00+00:00";
     fact_extractor.content :=
       n ++ " has a 24-hour trading volume of $25000.00 million USD.";
     fact_extractor.crypto_id := "bitcoin";
     fact_extractor.crypto_symbol := "BTC";
     fact_extractor.fact_type := "volume";
     fact_extractor.timestamp := "2024-01-01T00:00:00+00:00";
     fact_extractor.metadata :=
       [ ("volume_24h", PyFloat 25000000000); ("volume_millions", PyFloat 25000);
         ("timeframe", PyStr "24h") ] |}.

(** The four facts of a Bitcoin record named [n] at price [p], printed [price]. *)
Definition btc_facts (n price : string) (p : pyval) : list fact_extractor.CryptoFact :=
  [ btc_price_fact n price p; btc_change_fact n; btc_market_fact n; btc_volume_fact n ].

(** ** Stores *)

(** An index for the examples: of the entries that satisfy the [where]
    clause it finds the first [n_results], each at distance 0.125. *)
Definition satisfies (where_clause : option (string * string)) (e : chromadb.entry)
  : bool :=
  match where_clause with
  | None => true
  | Some (key, wanted) =>
      match dict_get (chromadb.entry_metadata e) key with
      | Some (PyStr found) => String.eqb found wanted
      | Some PyNone | Some (PyInt _) | Some (PyFloat _) | None => false
      end
  end.

Definition first_entries (c : chromadb.Collection) (query_embedding : list float)
    (n_results : Z) (where_clause : option (string * string))
  : list (chromadb.entry * float) :=
  map (fun e => (e, 0.125%float))
      (firstn (Z.to_nat n_results) (filter (satisfies where_clause) c)).

Definition btc_entry : chromadb.entry :=
  {| chromadb.entry_id := "bitcoin_price_2024-01-01T00:00:00+00:00";
     chromadb.document := "Bitcoin (BTC) is currently trading at $50,000.00 USD.";
     chromadb.entry_metadata :=
       [ ("crypto_id", PyStr "bitcoin"); ("crypto_symbol", PyStr "BTC");
         ("fact_type", PyStr "price");
         ("timestamp", PyStr "2024-01-01T00:00:00+00:00");
         ("price", PyFloat 50000); ("currency", PyStr "USD");
         ("source", PyStr "coingecko") ];
     chromadb.embedding := [1%float; 0%float] |}.

(** A store that holds the price fact of the sample record. *)
Definition store_of (policy : chromadb.existing_id_policy)
  : embed_store.CryptoVectorStore :=
  {| embed_store.embedding_model := fun _ => [1%float; 0%float];
     embed_store.client :=
       {| chromadb.on_existing_id := policy; chromadb.nearest := first_entries |};
     embed_store.collection := [btc_entry] |}.

(** The price fact of the same snapshot, extracted again at another price:
    same id, new content. *)
Definition btc_price_fact_again : fact_extractor.CryptoFact :=
  btc_price_fact "Bitcoin" "51,000.00" (PyFloat 51000).

(** A store of [n] price facts of one symbol followed by one fact of
    another symbol. *)
Definition entry_for (sym : string) (k : nat) : chromadb.entry :=
  {| chromadb.entry_id := sym ++ "_price_" ++ str_int (Z.of_nat k);
     chromadb.document := sym ++ " price";
     chromadb.entry_metadata :=
       [ ("crypto_id", PyStr sym); ("crypto_symbol", PyStr sym);
         ("fact_type", PyStr "price"); ("timestamp", PyStr (str_int (Z.of_nat k))) ];
     chromadb.embedding := [1%float; 0%float] |}.

Definition crowded_store (n : nat) : embed_store.CryptoVectorStore :=
  {| embed_store.embedding_model := fun _ => [1%float; 0%float];
     embed_store.client :=
       {| chromadb.on_existing_id := chromadb.SkipExisting;
          chromadb.nearest := first_entries |};
     embed_store.collection :=
       (map (entry_for "BTC") (seq 0 n) ++ [entry_for "ETH" 0])%list |}.

Definition empty_store : embed_store.CryptoVectorStore :=
  {| embed_store.embedding_model := fun _ => [1%float; 0%float];
     embed_store.client :=
       {| chromadb.on_existing_id := chromadb.SkipExisting;
          chromadb.nearest := first_entries |};
     embed_store.collection := [] |}.

End sample.

(* ================================================================== *)
(** * Vocabulary of the further properties                            *)
(* ================================================================== *)

Module derived.
Import Py.

(** ** Fact extraction *)

(** The guards of the three conditional extractors. *)
Definition emits_change (crypto : fetch_prices.CryptoData) : bool :=
  ne_zero (fetch_prices.price_change_percentage_24h crypto).

Definition emits_market (crypto : fetch_prices.CryptoData) : bool :=
  match gt_zero (fetch_prices.market_cap crypto) with
  | Ok b => b
  | Raise _ => false
  end.

Definition emits_volume (crypto : fetch_prices.CryptoData) : bool :=
  match gt_zero (fetch_prices.volume_24h crypto) with
  | Ok b => b
  | Raise _ => false
  end.

(** How many elements of a list satisfy a test. *)
Definition count_if {A} (p : A -> bool) (l : list A) : nat :=
  List.length (filter p l).

(** ** Retrieval *)

(** The test of the filtering loop on a hit, and the hit as the loop keeps
    it. *)
Definition passes (t : float) (hit : embed_store.candidate) : bool :=
  match retriever.get_distance hit with
  | Some d => (t <=? 1 - d)%float
  | None => false
  end.

Definition annotate (hit : embed_store.candidate) : embed_store.candidate :=
  match retriever.get_distance hit with
  | Some d => retriever.set_similarity hit (1 - d)%float
  | None => hit
  end.





(** The value under [timestamp] is a string, or the key is absent. *)
Definition timestamp_is_text (fact : embed_store.candidate) : bool :=
  match dict_get_default (embed_store.metadata fact) "timestamp" (PyStr "unknown") with
  | PyStr _ => true
  | PyNone | PyInt _ | PyFloat _ => false
  end.

(** A retrieval result that holds the stored price fact of the sample
    record, and a stand-in for the runtime's printer of floats (the sample
    has no float to print). *)
Definition stored_hit (d : float) : embed_store.candidate :=
  {| embed_store.content := chromadb.document sample.btc_entry;
     embed_store.metadata := chromadb.entry_metadata sample.btc_entry;
     embed_store.distance := Some (Some d);
     embed_store.id := chromadb.entry_id sample.btc_entry;
     embed_store.similarity := Some (1 - d)%float |}.

Definition one_fact_result : retriever.RetrievalResult :=
  {| retriever.query := "What is Bitcoin's price?";
     retriever.facts := [stored_hit 0.125%float];
     retriever.total_found := 1;
     retriever.retrieval_time := 0%float |}.

Definition no_float_repr (x : float) : string := "".

(** ** The store *)

(** The first inner list of a field of a query result. *)
Definition first_row {A} (field : option (list (list A))) : list A :=
  match field with
  | Some (row :: _) => row
  | Some [] | None => []
  end.

(** No fact of the batch has an id that the collection holds. *)
Definition fresh_ids (self : embed_store.CryptoVectorStore)
    (facts : list fact_extractor.CryptoFact) : bool :=
  forallb (fun fact =>
             negb (mem (fact_extractor.fact_id fact)
                       (chromadb.ids_of (embed_store.collection self))))
          facts.

(** No metadata that [add_facts] builds for the batch holds [None]: the
    database stores them all. *)
Definition storable (facts : list fact_extractor.CryptoFact) : bool :=
  forallb (fun fact => chromadb.valid_metadata (embed_store.stored_metadata fact)) facts.

(** The answer of the database to a search that finds the stored price
    fact at distance 0.125. *)
Definition one_answer : chromadb.QueryResult :=
  {| chromadb.ids := [[chromadb.entry_id sample.btc_entry]];
     chromadb.documents := Some [[chromadb.document sample.btc_entry]];
     chromadb.metadatas := Some [[chromadb.entry_metadata sample.btc_entry]];
     chromadb.distances := Some [[0.125%float]] |}.

(** The numbers [get_collection_stats] reports, when it reports them. *)
Definition stat_int (stats : list (string * embed_store.stat_value)) (k : string)
  : option Z :=
  match embed_store.stat_get stats k with
  | Some (embed_store.StatInt n) => Some n
  | Some (embed_store.StatList _) | None => None
  end.

(** ** The fetcher *)

(** The types of the numeric fields of a record the fetcher builds. *)
Definition from_fetcher (crypto : fetch_prices.CryptoData) : bool :=
  match fetch_prices.current_price crypto, fetch_prices.market_cap crypto,
        fetch_prices.market_cap_rank crypto, fetch_prices.price_change_24h crypto,
        fetch_prices.price_change_percentage_24h crypto, fetch_prices.volume_24h crypto
  with
  | PyFloat _, PyInt _, Some _, PyFloat _, PyFloat _, PyFloat _ => true
  | _, _, _, _, _, _ => false
  end.

(** A coin with its three names and [null] for every number. *)
Definition null_coin (i sym n : string) : fetch_prices.coin :=
  {| fetch_prices.coin_id := Some i;
     fetch_prices.coin_symbol := Some (fetch_prices.JString sym);
     fetch_prices.coin_name := Some n;
     fetch_prices.coin_current_price := Some fetch_prices.JNull;
     fetch_prices.coin_market_cap := Some fetch_prices.JNull;
     fetch_prices.coin_market_cap_rank := Some fetch_prices.JNull;
     fetch_prices.coin_price_change_24h := Some fetch_prices.JNull;
     fetch_prices.coin_price_change_percentage_24h := Some fetch_prices.JNull;
     fetch_prices.coin_total_volume := Some fetch_prices.JNull |}.

(** The Bitcoin coin of the end-to-end example as the API gives it, and a
    coin that lacks its price. *)
Definition btc_coin : fetch_prices.coin :=
  {| fetch_prices.coin_id := Some "bitcoin";
     fetch_prices.coin_symbol := Some (fetch_prices.JString "btc");
     fetch_prices.coin_name := Some "Bitcoin";
     fetch_prices.coin_current_price := Some (fetch_prices.JInt 50000);
     fetch_prices.coin_market_cap := Some (fetch_prices.JInt 950000000000);
     fetch_prices.coin_market_cap_rank := Some (fetch_prices.JInt 1);
     fetch_prices.coin_price_change_24h := Some (fetch_prices.JFloat 1200);
     fetch_prices.coin_price_change_percentage_24h := Some (fetch_prices.JFloat 2.5);
     fetch_prices.coin_total_volume := Some (fetch_prices.JInt 25000000000) |}.

Definition priceless_coin : fetch_prices.coin :=
  {| fetch_prices.coin_id := Some "ethereum";
     fetch_prices.coin_symbol := Some (fetch_prices.JString "eth");
     fetch_prices.coin_name := Some "Ethereum";
     fetch_prices.coin_current_price := None;
     fetch_prices.coin_market_cap := Some (fetch_prices.JInt 400000000000);
     fetch_prices.coin_market_cap_rank := Some (fetch_prices.JInt 2);
     fetch_prices.coin_price_change_24h := Some fetch_prices.JNull;
     fetch_prices.coin_price_change_percentage_24h := Some fetch_prices.JNull;
     fetch_prices.coin_total_volume := Some fetch_prices.JNull |}.


(** A coin whose market cap is an infinite float. *)
Definition infinite_cap_coin : fetch_prices.coin :=
  {| fetch_prices.coin_id := Some "bitcoin";
     fetch_prices.coin_symbol := Some (fetch_prices.JString "btc");
     fetch_prices.coin_name := Some "Bitcoin";
     fetch_prices.coin_current_price := Some (fetch_prices.JInt 50000);
     fetch_prices.coin_market_cap := Some (fetch_prices.JFloat infinity);
     fetch_prices.coin_market_cap_rank := Some (fetch_prices.JInt 1);
     fetch_prices.coin_price_change_24h := Some (fetch_prices.JFloat 1200);
     fetch_prices.coin_price_change_percentage_24h := Some (fetch_prices.JFloat 2.5);
     fetch_prices.coin_total_volume := Some (fetch_prices.JInt 25000000000) |}.

(** The coins of an answer. *)
Definition coins_of (data : option (list fetch_prices.coin)) : list fetch_prices.coin :=
  match data with
  | Some coins => coins
  | None => []
  end.

(** The record and the fact a coin without numbers gives. *)
Definition zero_record (timestamp i sym n : string) : fetch_prices.CryptoData :=
  {| fetch_prices.id := i;
     fetch_prices.symbol := fetch_prices.upper sym;
     fetch_prices.name := n;
     fetch_prices.current_price := PyFloat 0;
     fetch_prices.market_cap := PyInt 0;
     fetch_prices.market_cap_rank := Some 0;
     fetch_prices.price_change_24h := PyFloat 0;
     fetch_prices.price_change_percentage_24h := PyFloat 0;
     fetch_prices.volume_24h := PyFloat 0;
     fetch_prices.timestamp := timestamp;
     fetch_prices.source := "coingecko" |}.

Definition zero_price_fact (timestamp i sym n : string) : fact_extractor.CryptoFact :=
  {| fact_extractor.fact_id := i ++ "_price_" ++ timestamp;
     fact_extractor.content :=
       n ++ " (" ++ fetch_prices.upper sym ++ ") is currently trading at $0.00 USD.";
     fact_extractor.crypto_id := i;
     fact_extractor.crypto_symbol := fetch_prices.upper sym;
     fact_extractor.fact_type := "price";
     fact_extractor.timestamp := timestamp;
     fact_extractor.metadata :=
       [ ("price", PyFloat 0); ("currency", PyStr "USD");
         ("source", PyStr "coingecko") ] |}.

(** ** The scheduler and the batch file *)

Definition scheduler_of (store : embed_store.CryptoVectorStore)
  : update_scheduler.CryptoKnowledgeScheduler :=
  {| update_scheduler.vector_store := store |}.


(** The row [update_json_batch] writes for a crypto. *)
Definition row (timestamp crypto : string) (price_usd : pyval) : dict :=
  [ ("timestamp", PyStr timestamp); ("crypto", PyStr crypto);
    ("price_usd", price_usd) ].

(** Prices as the simple-price API gives them. *)
Definition two_prices : list (string * dict) :=
  [ ("bitcoin", [ ("usd", PyInt 50000) ]);
    ("ethereum", [ ("usd", PyFloat 2500.5) ]) ].

Definition prices_without_usd : list (string * dict) :=
  [ ("bitcoin", [ ("usd", PyInt 50000) ]);
    ("ethereum", [ ("eur", PyFloat 2300) ]) ].

Definition old_file : batch_process.json_file :=
  Some [ row "2023-12-31T00:00:00Z" "bitcoin" (PyInt 42000) ].

End derived.

(* ================================================================== *)
(** * Properties of the retriever                                     *)
(* ================================================================== *)

Section RetrieverProperties.
Import Py.
Context {S : Type} `{retriever.VectorStore S}.

Lemma get_distance_set_similarity (hit : embed_store.candidate) (s : float) :
  retriever.get_distance (retriever.set_similarity hit s) = retriever.get_distance hit.
Proof. reflexivity. Qed.

Lemma filter_loop_relevant (t : float) :
  forall raw_results filtered_facts out,
    retriever.filter_loop t filtered_facts raw_results = Ok out ->
    Forall (props.relevant t) filtered_facts ->
    Forall (props.relevant t) out.
Proof.
  induction raw_results as [|hit rest IH]; simpl; intros acc out Hrun Hacc.
  - inversion Hrun; subst; exact Hacc.
  - destruct (retriever.get_distance hit) as [d|] eqn:Hd; simpl in Hrun;
      [|discriminate].
    destruct (t <=? 1 - d)%float eqn:Hge.
    + apply (IH _ _ Hrun). apply Forall_app; split; [exact Hacc|].
      constructor; [|constructor].
      exists d. rewrite get_distance_set_similarity. auto.
    + apply (IH _ _ Hrun Hacc).
Qed.

Lemma filter_loop_returns (t : float) :
  forall raw_results filtered_facts,
    forallb props.scored raw_results = true ->
    exists out, retriever.filter_loop t filtered_facts raw_results = Ok out.
Proof.
  induction raw_results as [|hit rest IH]; simpl; intros acc Hsc.
  - eauto.
  - apply andb_true_iff in Hsc as [Hhit Hrest].
    unfold props.scored in Hhit.
    destruct (retriever.get_distance hit) as [d|]; [simpl|discriminate].
    destruct (t <=? 1 - d)%float; apply IH; exact Hrest.
Qed.

Lemma filter_loop_raises (t : float) :
  forall raw_results filtered_facts,
    forallb props.scored raw_results = false ->
    retriever.filter_loop t filtered_facts raw_results = Raise TypeError.
Proof.
  induction raw_results as [|hit rest IH]; simpl; intros acc Hsc.
  - discriminate.
  - unfold props.scored in Hsc at 1.
    destruct (retriever.get_distance hit) as [d|]; [simpl in *|reflexivity].
    destruct (t <=? 1 - d)%float; apply IH; exact Hsc.
Qed.


Lemma Forall_firstn {A} (P : A -> Prop) (n : nat) (l : list A) :
  Forall P l -> Forall P (firstn n l).
Proof.
  intros Hl. rewrite <- (firstn_skipn n l) in Hl.
  apply Forall_app in Hl. tauto.
Qed.

Lemma slice_to_Forall {A} (P : A -> Prop) (l : list A) (n : Z) :
  Forall P l -> Forall P (retriever.slice_to l n).
Proof.
  intros Hl. unfold retriever.slice_to.
  destruct (n <? 0); apply Forall_firstn; exact Hl.
Qed.


(** The filtering loop keeps the passing hits, in order, each annotated. *)
Lemma filter_loop_filter (t : float) :
  forall raw_results filtered_facts out,
    retriever.filter_loop t filtered_facts raw_results = Ok out ->
    out = (filtered_facts
             ++ map derived.annotate (filter (derived.passes t) raw_results))%list.
Proof.
  induction raw_results as [|hit rest IH]; simpl; intros acc out Hrun.
  - inversion Hrun. rewrite app_nil_r. reflexivity.
  - unfold derived.passes at 1.
    destruct (retriever.get_distance hit) as [d|] eqn:Hd; simpl in Hrun;
      [|discriminate].
    destruct (t <=? 1 - d)%float.
    + rewrite (IH _ _ Hrun), <- app_assoc. simpl.
      unfold derived.annotate at 2. rewrite Hd. reflexivity.
    + apply (IH _ _ Hrun).
Qed.

(** C7 as amended.  No threshold is refused: for every threshold, inside
    [0, 1] or not, [retrieve_facts] runs the search and, the hits carrying
    numbers as distances, returns a result that counts all of them and
    keeps exactly the hits whose similarity is at least the threshold, in
    the order of the search, cut to [max_facts] by the slice. *)
Theorem retrieve_facts_accepts_every_threshold
    (vector_store : S) (start_time end_time : float) (query : string)
    (k : Z) (crypto_filter : option string) (t : float)
    (raw_results : list embed_store.candidate) :
  retriever.search_facts vector_store query (k * 2) crypto_filter = Ok raw_results ->
  forallb props.scored raw_results = true ->
  exists r,
    retriever.retrieve_facts vector_store start_time end_time query k crypto_filter t
      = Ok r /\
    retriever.total_found r = props.len raw_results /\
    retriever.facts r
    = retriever.slice_to
        (map derived.annotate (filter (derived.passes t) raw_results)) k /\
    Forall (props.relevant t) (retriever.facts r).
Proof.
  intros Hsearch Hsc. unfold retriever.retrieve_facts. rewrite Hsearch; simpl.
  destruct (filter_loop_returns t raw_results [] Hsc) as [kept Hkept].
  rewrite Hkept; simpl. eexists; split; [reflexivity|]. simpl. split; [reflexivity|].
  split.
  - apply filter_loop_filter in Hkept. simpl in Hkept. rewrite Hkept. reflexivity.
  - apply slice_to_Forall. apply (filter_loop_relevant t _ _ _ Hkept). constructor.
Qed.

(** Whether [retrieve_facts] raises never depends on the threshold. *)
Lemma retrieve_facts_returns_whatever_threshold
    (vector_store : S) (start_time end_time : float) (query : string)
    (k : Z) (crypto_filter : option string) (t t' : float) :
  returns (retriever.retrieve_facts vector_store start_time end_time query k crypto_filter t)
  = returns (retriever.retrieve_facts vector_store start_time end_time query k crypto_filter t').
Proof.
  unfold retriever.retrieve_facts.
  destruct (retriever.search_facts vector_store query (k * 2) crypto_filter)
    as [raw|e]; simpl; [|reflexivity].
  destruct (forallb props.scored raw) eqn:Hsc.
  - destruct (filter_loop_returns t raw [] Hsc) as [a Ha].
    destruct (filter_loop_returns t' raw [] Hsc) as [b Hb].
    rewrite Ha, Hb. reflexivity.
  - rewrite !filter_loop_raises by exact Hsc. reflexivity.
Qed.

End RetrieverProperties.

Section RetrieverExamples.
Import Py.


(** The two hits at distance 0.125 and 0.1875 pass the bar 0.75; the one
    at 0.5 does not. *)
Example retrieve_facts_three_hits :
  retriever.retrieve_facts sample.three_hits 0%float 1%float "bitcoin price" 2 None
    0.75%float
  = Ok {| retriever.query := "bitcoin price";
          retriever.facts :=
            [ retriever.set_similarity
                (sample.hit "a" (Some (Some 0.125%float))) 0.875%float;
              retriever.set_similarity
                (sample.hit "b" (Some (Some 0.1875%float))) 0.8125%float ];
          retriever.total_found := 3;
          retriever.retrieval_time := 1%float |}.
Proof. vm_compute. reflexivity. Qed.

(** C7, refuted as stated: with threshold 2 (above 1) and with threshold
    -1 (below 0) the retrieval is executed and a result comes back: an
    empty one in the first case, every hit in the second. *)
Lemma threshold_outside_unit_interval_not_refused :
  (1 <? 2)%float = true /\
  retriever.retrieve_facts sample.three_hits 0%float 1%float "bitcoin price" 5 None
    2%float
  = Ok {| retriever.query := "bitcoin price";
          retriever.facts := [];
          retriever.total_found := 3;
          retriever.retrieval_time := 1%float |} /\
  (-1 <? 0)%float = true /\
  exists r,
    retriever.retrieve_facts sample.three_hits 0%float 1%float "bitcoin price" 5 None
      (-1)%float = Ok r /\
    props.len (retriever.facts r) = 3.
Proof.
  split; [reflexivity|]. split; [vm_compute; reflexivity|].
  split; [reflexivity|]. eexists; split; [vm_compute; reflexivity|reflexivity].
Qed.

(** The same search at threshold -0.5, below the unit interval: all three
    hits are kept. *)
Lemma retrieve_facts_accepts_every_threshold_witness :
  exists r,
    retriever.retrieve_facts sample.three_hits 0%float 1%float "bitcoin price" 5 None
      (-0.5)%float = Ok r /\
    retriever.total_found r = props.len sample.three_hits /\
    retriever.facts r
    = retriever.slice_to
        (map derived.annotate (filter (derived.passes (-0.5)%float) sample.three_hits))
        5 /\
    Forall (props.relevant (-0.5)%float) (retriever.facts r).
Proof.
  apply (retrieve_facts_accepts_every_threshold sample.three_hits 0%float 1%float
           "bitcoin price" 5 None (-0.5)%float sample.three_hits);
    reflexivity.
Defined.

(** At that threshold the kept hits are the three hits of the search, each
    with its similarity. *)
Example passing_hits_below_zero :
  map derived.annotate (filter (derived.passes (-0.5)%float) sample.three_hits)
  = [ retriever.set_similarity (sample.hit "a" (Some (Some 0.125%float))) 0.875%float;
      retriever.set_similarity (sample.hit "b" (Some (Some 0.1875%float))) 0.8125%float;
      retriever.set_similarity (sample.hit "c" (Some (Some 0.5%float))) 0.5%float ].
Proof. vm_compute. reflexivity. Qed.

(** [Config.validate] looks at the API key and at nothing else. *)
Lemma validate_checks_the_api_key_only (cls : config.Config) :
  config.validate cls = negb (String.eqb (config.GROQ_API_KEY cls) "").
Proof. unfold config.validate. destruct (String.eqb _ _); reflexivity. Qed.

(** C9.  On "Compare Bitcoin and Ethereum market caps" the analysis gives
    the entities BTC and ETH and no other, each once, the intent
    market_cap, a comparison, and not a general query. *)
Theorem analyze_query_intent_compare_bitcoin_ethereum :
  let r := retriever.analyze_query_intent "Compare Bitcoin and Ethereum market caps" in
  (forall s, In s (retriever.cryptos r) <-> s = "BTC" \/ s = "ETH") /\
  NoDup (retriever.cryptos r) /\
  In "market_cap" (retriever.intents r) /\
  retriever.is_comparison r = true /\
  retriever.is_general r = false.
Proof.
  assert (Hr : retriever.analyze_query_intent "Compare Bitcoin and Ethereum market caps"
               = {| retriever.cryptos := ["BTC"; "ETH"];
                    retriever.intents := ["market_cap"];
                    retriever.is_comparison := true;
                    retriever.is_general := false |})
    by (vm_compute; reflexivity).
  cbv zeta. rewrite Hr; simpl. repeat split.
  - intros [<-|[<-|[]]]; auto.
  - intros [->| ->]; auto.
  - repeat constructor; simpl; intuition discriminate.
  - auto.
Qed.

End RetrieverExamples.

(** Any hit annotated with [None] makes [retrieve_facts] raise, whatever the
    store, the other hits and the threshold. *)
Lemma retrieve_facts_raises_on_none_distance
    {S : Type} `{retriever.VectorStore S} (vector_store : S)
    (start_time end_time : float) (query : string) (k : Z)
    (crypto_filter : option string) (t : float)
    (raw_results : list embed_store.candidate) :
  retriever.search_facts vector_store query (k * 2) crypto_filter = Py.Ok raw_results ->
  forallb props.scored raw_results = false ->
  retriever.retrieve_facts vector_store start_time end_time query k crypto_filter t
  = Py.Raise Py.TypeError.
Proof.
  intros Hsearch Hsc. unfold retriever.retrieve_facts. rewrite Hsearch; simpl.
  rewrite (filter_loop_raises t raw_results [] Hsc). reflexivity.
Qed.

(* ================================================================== *)
(** * What the database hands to the retriever                        *)
(* ================================================================== *)

Section DatabaseAnswers.
Import Py.








(** The result of that call: the stored fact, found at distance 0.125. *)
Example retrieve_facts_stored_price_fact :
  retriever.retrieve_facts (sample.store_of chromadb.SkipExisting) 0%float 0%float
    "What is Bitcoin's price?" 5 None 0.75%float
  = Ok derived.one_fact_result.
Proof. vm_compute. reflexivity. Qed.


(** X8.  With [max_facts <= 0] the call never returns a result, not even
    an empty one: the database refuses [n_results = 2 * max_facts <= 0] and
    nothing between it and the caller of [retrieve_facts] catches the
    error. *)
Theorem retrieve_facts_refuses_nonpositive_max_facts
    (self : embed_store.CryptoVectorStore) (start_time end_time : float)
    (query : string) (k : Z) (crypto_filter : option string) (t : float) :
  k <= 0 ->
  exists e,
    embed_store.search_facts self query (k * 2) crypto_filter = Raise e /\
    retriever.retrieve_facts self start_time end_time query k crypto_filter t
    = Raise e.
Proof.
  intros Hk. exists TypeError.
  assert (Hsearch : embed_store.search_facts self query (k * 2) crypto_filter
                    = Raise TypeError).
  { unfold embed_store.search_facts, chromadb.query.
    destruct (k * 2 <=? 0) eqn:Hle; [reflexivity|apply Z.leb_gt in Hle; lia]. }
  split; [exact Hsearch|].
  unfold retriever.retrieve_facts.
  cbn [retriever.search_facts retriever.CryptoVectorStore_store].
  rewrite Hsearch. reflexivity.
Qed.

(** The stored price fact, searched for with [max_facts = 0]. *)
Lemma retrieve_facts_refuses_nonpositive_max_facts_witness :
  exists e,
    embed_store.search_facts (sample.store_of chromadb.SkipExisting)
      "What is Bitcoin's price?" (0 * 2) None = Raise e /\
    retriever.retrieve_facts (sample.store_of chromadb.SkipExisting) 0%float 1%float
      "What is Bitcoin's price?" 0 None 0.75%float
    = Raise e.
Proof.
  apply (retrieve_facts_refuses_nonpositive_max_facts
           (sample.store_of chromadb.SkipExisting) 0%float 1%float
           "What is Bitcoin's price?" 0 None 0.75%float).
  lia.
Defined.

End DatabaseAnswers.

(* ================================================================== *)
(** * Properties of the fact extractor                                *)
(* ================================================================== *)

(** Case analysis on a monadic run that returned. *)
Ltac unbind H :=
  repeat match type of H with
    | Py.bind ?r _ = Py.Ok _ =>
        let x := fresh "x" in
        let E := fresh "E" in
        destruct r as [x|?] eqn:E; cbn [Py.bind] in H; [|discriminate H]
    | (if ?b then _ else _) = Py.Ok _ =>
        let B := fresh "B" in destruct b eqn:B
    end.

Section ExtractorProperties.
Import Py.

Lemma extract_loop_facts_of_records :
  forall crypto_data facts,
    fact_extractor.extract_loop facts crypto_data
    = (new_facts <- props.facts_of_records crypto_data ;; Ok (facts ++ new_facts)%list).
Proof.
  induction crypto_data as [|crypto rest IH]; intros facts; simpl.
  - rewrite app_nil_r. reflexivity.
  - destruct (fact_extractor.facts_of_record crypto) as [new|e]; simpl; [|reflexivity].
    rewrite IH. destruct (props.facts_of_records rest) as [more|e]; simpl; [|reflexivity].
    rewrite app_assoc. reflexivity.
Qed.

Lemma extract_facts_facts_of_records (crypto_data : list fetch_prices.CryptoData) :
  fact_extractor.extract_facts crypto_data = props.facts_of_records crypto_data.
Proof.
  unfold fact_extractor.extract_facts. rewrite extract_loop_facts_of_records.
  destruct (props.facts_of_records crypto_data); reflexivity.
Qed.

(** What holds of the facts of each record holds of the facts of a batch. *)
Lemma facts_of_records_Forall
    (P : fetch_prices.CryptoData -> fact_extractor.CryptoFact -> Prop) :
  (forall crypto new_facts,
      fact_extractor.facts_of_record crypto = Ok new_facts -> Forall (P crypto) new_facts) ->
  forall crypto_data facts,
    props.facts_of_records crypto_data = Ok facts ->
    Forall (fun fact => exists crypto, In crypto crypto_data /\ P crypto fact) facts.
Proof.
  intros Hrec. induction crypto_data as [|crypto rest IH]; simpl; intros facts Hrun.
  - inversion Hrun. constructor.
  - unbind Hrun. inversion Hrun; subst. apply Forall_app; split.
    + eapply Forall_impl; [|apply (Hrec _ _ E)]. intros f Hf. exists crypto; auto.
    + eapply Forall_impl; [|apply (IH _ eq_refl)].
      intros f [c [Hin Hf]]. exists c; auto.
Qed.

(** The same, record by record, from the four extractors. *)
Lemma facts_of_record_Forall
    (P : fact_extractor.CryptoFact -> Prop) (crypto : fetch_prices.CryptoData) :
  (forall l, fact_extractor._extract_price_facts crypto = Ok l -> Forall P l) ->
  (forall l, fact_extractor._extract_change_facts crypto = Ok l -> Forall P l) ->
  (forall l, fact_extractor._extract_market_facts crypto = Ok l -> Forall P l) ->
  (forall l, fact_extractor._extract_volume_facts crypto = Ok l -> Forall P l) ->
  forall new_facts,
    fact_extractor.facts_of_record crypto = Ok new_facts -> Forall P new_facts.
Proof.
  intros Hp Hc Hm Hv new_facts Hrun. unfold fact_extractor.facts_of_record in Hrun.
  unbind Hrun. inversion Hrun; subst.
  repeat (apply Forall_app; split); auto.
Qed.

(** The shape of what each extractor returns. *)
Lemma _extract_price_facts_inv crypto l :
  fact_extractor._extract_price_facts crypto = Ok l ->
  exists price,
    format_2f true (fetch_prices.current_price crypto) = Ok price /\
    l = [ {| fact_extractor.fact_id :=
               fetch_prices.id crypto ++ "_price_" ++ fetch_prices.timestamp crypto;
             fact_extractor.content :=
               fetch_prices.name crypto ++ " (" ++ fetch_prices.symbol crypto
                 ++ ") is currently trading at $" ++ price ++ " USD.";
             fact_extractor.crypto_id := fetch_prices.id crypto;
             fact_extractor.crypto_symbol := fetch_prices.symbol crypto;
             fact_extractor.fact_type := "price";
             fact_extractor.timestamp := fetch_prices.timestamp crypto;
             fact_extractor.metadata :=
               [ ("price", fetch_prices.current_price crypto);
                 ("currency", PyStr "USD");
                 ("source", PyStr (fetch_prices.source crypto)) ] |} ].
Proof.
  unfold fact_extractor._extract_price_facts. intros Hrun. unbind Hrun.
  inversion Hrun. eauto.
Qed.

Lemma _extract_change_facts_inv crypto l :
  fact_extractor._extract_change_facts crypto = Ok l ->
  l = [] \/
  exists up pct dollars apct aabs,
    gt_zero (fetch_prices.price_change_percentage_24h crypto) = Ok up /\
    py_abs (fetch_prices.price_change_percentage_24h crypto) = Ok apct /\
    format_2f false apct = Ok pct /\
    py_abs (fetch_prices.price_change_24h crypto) = Ok aabs /\
    format_2f false aabs = Ok dollars /\
    l = [ {| fact_extractor.fact_id :=
               fetch_prices.id crypto ++ "_change_" ++ fetch_prices.timestamp crypto;
             fact_extractor.content :=
               fetch_prices.name crypto ++ " has "
                 ++ (if up : bool then "increased" else "decreased") ++ " by " ++ pct
                 ++ "% ($" ++ dollars ++ ") in the last 24 hours.";
             fact_extractor.crypto_id := fetch_prices.id crypto;
             fact_extractor.crypto_symbol := fetch_prices.symbol crypto;
             fact_extractor.fact_type := "change";
             fact_extractor.timestamp := fetch_prices.timestamp crypto;
             fact_extractor.metadata :=
               [ ("change_percentage", fetch_prices.price_change_percentage_24h crypto);
                 ("change_absolute", fetch_prices.price_change_24h crypto);
                 ("direction", PyStr (if up : bool then "increased" else "decreased"));
                 ("timeframe", PyStr "24h") ] |} ].
Proof.
  unfold fact_extractor._extract_change_facts. intros Hrun. unbind Hrun.
  - inversion Hrun. right. do 5 eexists. repeat split; eassumption.
  - inversion Hrun. auto.
Qed.

Lemma _extract_market_facts_inv crypto l :
  fact_extractor._extract_market_facts crypto = Ok l ->
  l = [] \/
  exists market_cap_billions billions,
    truediv_lit (fetch_prices.market_cap crypto) 1000000000 = Ok market_cap_billions /\
    format_2f false market_cap_billions = Ok billions /\
    l = [ {| fact_extractor.fact_id :=
               fetch_prices.id crypto ++ "_market_" ++ fetch_prices.timestamp crypto;
             fact_extractor.content :=
               fetch_prices.name crypto ++ " has a market capitalization of $" ++ billions
                 ++ " billion USD, ranking #"
                 ++ fact_extractor.rank_str (fetch_prices.market_cap_rank crypto)
                 ++ " by market cap.";
             fact_extractor.crypto_id := fetch_prices.id crypto;
             fact_extractor.crypto_symbol := fetch_prices.symbol crypto;
             fact_extractor.fact_type := "market_cap";
             fact_extractor.timestamp := fetch_prices.timestamp crypto;
             fact_extractor.metadata :=
               [ ("market_cap", fetch_prices.market_cap crypto);
                 ("market_cap_billions", market_cap_billions);
                 ("rank", fact_extractor.rank_val (fetch_prices.market_cap_rank crypto)) ] |} ].
Proof.
  unfold fact_extractor._extract_market_facts. intros Hrun. unbind Hrun.
  - inversion Hrun. right. do 2 eexists. repeat split; eassumption.
  - inversion Hrun. auto.
Qed.

Lemma _extract_volume_facts_inv crypto l :
  fact_extractor._extract_volume_facts crypto = Ok l ->
  l = [] \/
  exists volume_millions millions,
    truediv_lit (fetch_prices.volume_24h crypto) 1000000 = Ok volume_millions /\
    format_2f false volume_millions = Ok millions /\
    l = [ {| fact_extractor.fact_id :=
               fetch_prices.id crypto ++ "_volume_" ++ fetch_prices.timestamp crypto;
             fact_extractor.content :=
               fetch_prices.name crypto ++ " has a 24-hour trading volume of $" ++ millions
                 ++ " million USD.";
             fact_extractor.crypto_id := fetch_prices.id crypto;
             fact_extractor.crypto_symbol := fetch_prices.symbol crypto;
             fact_extractor.fact_type := "volume";
             fact_extractor.timestamp := fetch_prices.timestamp crypto;
             fact_extractor.metadata :=
               [ ("volume_24h", fetch_prices.volume_24h crypto);
                 ("volume_millions", volume_millions);
                 ("timeframe", PyStr "24h") ] |} ].
Proof.
  unfold fact_extractor._extract_volume_facts. intros Hrun. unbind Hrun.
  - inversion Hrun. right. do 2 eexists. repeat split; eassumption.
  - inversion Hrun. auto.
Qed.

End ExtractorProperties.

Section ExtractorClaims.
Import Py.

(** The extraction of the sample record, and of the same record under
    another name or at a negative price. *)
Example extract_facts_btc :
  fact_extractor.extract_facts [sample.btc]
  = Ok (sample.btc_facts "Bitcoin" "50,000.00" (PyFloat 50000)).
Proof. vm_compute. reflexivity. Qed.

Example extract_facts_btc_renamed :
  fact_extractor.extract_facts [sample.with_name sample.btc "Bitcoin Classic"]
  = Ok (sample.btc_facts "Bitcoin Classic" "50,000.00" (PyFloat 50000)).
Proof. vm_compute. reflexivity. Qed.

Example extract_facts_btc_negative_price :
  fact_extractor.extract_facts [sample.with_price sample.btc (PyFloat (-1))]
  = Ok (sample.btc_facts "Bitcoin" "-1.00" (PyFloat (-1))).
Proof. vm_compute. reflexivity. Qed.

(** ** Fact ids *)

(** C2, refuted as stated: the market_cap fact of the sample record has the
    id [bitcoin_market_<timestamp>], which is not
    [<entity_id>_market_cap_<timestamp>]. *)
Lemma market_cap_fact_id_not_built_from_fact_type :
  exists facts fact,
    fact_extractor.extract_facts [sample.btc] = Ok facts /\
    In fact facts /\
    fact_extractor.fact_type fact = "market_cap" /\
    fact_extractor.fact_id fact = "bitcoin_market_2024-01-01T00:00:00+00:00" /\
    fact_extractor.fact_id fact
    <> fetch_prices.id sample.btc ++ "_" ++ fact_extractor.fact_type fact ++ "_"
         ++ fetch_prices.timestamp sample.btc.
Proof.
  exists (sample.btc_facts "Bitcoin" "50,000.00" (PyFloat 50000)),
         (sample.btc_market_fact "Bitcoin").
  split; [exact extract_facts_btc|].
  split; [simpl; auto|].
  split; [reflexivity|]. split; [reflexivity|].
  vm_compute. discriminate.
Qed.

(** C2 as amended.  Every fact [extract_facts] emits comes from a record of
    the input and has the id [<entity_id>_<tag>_<timestamp>] of that record,
    where the tag is the fact type for price, change and volume facts and
    [market] for a market_cap fact. *)
Theorem fact_id_from_entity_tag_timestamp
    (crypto_data : list fetch_prices.CryptoData)
    (facts : list fact_extractor.CryptoFact) :
  fact_extractor.extract_facts crypto_data = Ok facts ->
  Forall (fun fact =>
            exists crypto,
              In crypto crypto_data /\
              fact_extractor.crypto_id fact = fetch_prices.id crypto /\
              fact_extractor.timestamp fact = fetch_prices.timestamp crypto /\
              fact_extractor.fact_id fact
              = fetch_prices.id crypto ++ "_"
                  ++ props.id_tag (fact_extractor.fact_type fact) ++ "_"
                  ++ fetch_prices.timestamp crypto)
         facts.
Proof.
  rewrite extract_facts_facts_of_records.
  apply (facts_of_records_Forall
           (fun crypto fact =>
              fact_extractor.crypto_id fact = fetch_prices.id crypto /\
              fact_extractor.timestamp fact = fetch_prices.timestamp crypto /\
              fact_extractor.fact_id fact
              = fetch_prices.id crypto ++ "_"
                  ++ props.id_tag (fact_extractor.fact_type fact) ++ "_"
                  ++ fetch_prices.timestamp crypto)).
  intros crypto. apply facts_of_record_Forall; intros l Hl.
  - apply _extract_price_facts_inv in Hl as [price [_ ->]].
    repeat constructor.
  - apply _extract_change_facts_inv in Hl
      as [->|[up [pct [dollars [apct [aabs [_ [_ [_ [_ [_ ->]]]]]]]]]]];
      repeat constructor.
  - apply _extract_market_facts_inv in Hl as [->|[b [s [_ [_ ->]]]]];
      repeat constructor.
  - apply _extract_volume_facts_inv in Hl as [->|[m [s [_ [_ ->]]]]];
      repeat constructor.
Qed.

(** The ids of the four facts of the sample record. *)
Lemma fact_id_from_entity_tag_timestamp_witness :
  Forall (fun fact =>
            exists crypto,
              In crypto [sample.btc] /\
              fact_extractor.crypto_id fact = fetch_prices.id crypto /\
              fact_extractor.timestamp fact = fetch_prices.timestamp crypto /\
              fact_extractor.fact_id fact
              = fetch_prices.id crypto ++ "_"
                  ++ props.id_tag (fact_extractor.fact_type fact) ++ "_"
                  ++ fetch_prices.timestamp crypto)
         (sample.btc_facts "Bitcoin" "50,000.00" (PyFloat 50000)).
Proof.
  apply (fact_id_from_entity_tag_timestamp [sample.btc]).
  vm_compute. reflexivity.
Defined.

(** ** Price facts *)

Lemma count_type_app ty (l l' : list fact_extractor.CryptoFact) :
  props.count_type ty (l ++ l') = (props.count_type ty l + props.count_type ty l')%nat.
Proof. unfold props.count_type. rewrite filter_app, length_app. reflexivity. Qed.

Lemma facts_of_record_one_price crypto new_facts :
  fact_extractor.facts_of_record crypto = Ok new_facts ->
  props.count_type "price" new_facts = 1%nat.
Proof.
  unfold fact_extractor.facts_of_record. intros Hrun. unbind Hrun.
  inversion Hrun; subst. rewrite !count_type_app.
  apply _extract_price_facts_inv in E as [price [_ ->]].
  apply _extract_change_facts_inv in E0
    as [->|[up [pct [dollars [apct [aabs [_ [_ [_ [_ [_ ->]]]]]]]]]]];
    apply _extract_market_facts_inv in E1 as [->|[b [s [_ [_ ->]]]]];
    apply _extract_volume_facts_inv in E2 as [->|[m [s' [_ [_ ->]]]]];
    reflexivity.
Qed.

(** C4, refuted as stated: the sample record with its price set to -1 still
    gets its price fact. *)
Lemma price_fact_emitted_for_negative_price :
  (0 <=? -1)%float = false /\
  fact_extractor.extract_facts [sample.with_price sample.btc (PyFloat (-1))]
  = Ok (sample.btc_facts "Bitcoin" "-1.00" (PyFloat (-1))) /\
  In (sample.btc_price_fact "Bitcoin" "-1.00" (PyFloat (-1)))
     (sample.btc_facts "Bitcoin" "-1.00" (PyFloat (-1))) /\
  fact_extractor.fact_type (sample.btc_price_fact "Bitcoin" "-1.00" (PyFloat (-1)))
  = "price".
Proof.
  split; [reflexivity|]. split; [exact extract_facts_btc_negative_price|].
  split; [simpl; auto|reflexivity].
Qed.

(** C4 as amended.  [extract_facts] emits one fact of type price for every
    record of its input, whatever the price: in what it returns there are
    as many price facts as there are records. *)
Theorem one_price_fact_per_record
    (crypto_data : list fetch_prices.CryptoData)
    (facts : list fact_extractor.CryptoFact) :
  fact_extractor.extract_facts crypto_data = Ok facts ->
  props.count_type "price" facts = List.length crypto_data.
Proof.
  rewrite extract_facts_facts_of_records. revert facts.
  induction crypto_data as [|crypto rest IH]; simpl; intros facts Hrun.
  - inversion Hrun. reflexivity.
  - unbind Hrun. inversion Hrun; subst. rewrite count_type_app.
    rewrite (facts_of_record_one_price _ _ E), (IH _ eq_refl). reflexivity.
Qed.

(** One price fact for the record at price -1. *)
Lemma one_price_fact_per_record_witness :
  props.count_type "price" (sample.btc_facts "Bitcoin" "-1.00" (PyFloat (-1)))
  = List.length [sample.with_price sample.btc (PyFloat (-1))].
Proof.
  apply one_price_fact_per_record. vm_compute. reflexivity.
Defined.

End ExtractorClaims.

Section ContentProperties.
Import Py.

(** ** Regenerating the content *)

Lemma str_of_rank_val (r : option Z) :
  props.str_of (fact_extractor.rank_val r) = Ok (fact_extractor.rank_str r).
Proof. destruct r; reflexivity. Qed.

Lemma facts_of_record_regenerate crypto new_facts :
  fact_extractor.facts_of_record crypto = Ok new_facts ->
  Forall (fun fact =>
            fact_extractor.crypto_id fact = fetch_prices.id crypto /\
            props.regenerate (fetch_prices.name crypto)
              (fact_extractor.crypto_symbol fact) (fact_extractor.fact_type fact)
              (fact_extractor.metadata fact)
            = Ok (fact_extractor.content fact))
         new_facts.
Proof.
  revert new_facts. apply facts_of_record_Forall; intros l Hl.
  - apply _extract_price_facts_inv in Hl as [price [Hprice ->]].
    constructor; [|constructor]. split; [reflexivity|].
    unfold props.regenerate, props.item; simpl. rewrite Hprice. reflexivity.
  - apply _extract_change_facts_inv in Hl
      as [->|[up [pct [dollars [apct [aabs [_ [Hapct [Hpct [Haabs [Hdollars ->]]]]]]]]]]];
      constructor; [|constructor]. split; [reflexivity|].
    unfold props.regenerate, props.item; simpl.
    rewrite Hapct; simpl. rewrite Hpct; simpl.
    rewrite Haabs; simpl. rewrite Hdollars. reflexivity.
  - apply _extract_market_facts_inv in Hl as [->|[b [s [_ [Hs ->]]]]];
      constructor; [|constructor]. split; [reflexivity|].
    unfold props.regenerate, props.item; simpl.
    rewrite Hs; simpl. rewrite str_of_rank_val. reflexivity.
  - apply _extract_volume_facts_inv in Hl as [->|[m [s [_ [Hs ->]]]]];
      constructor; [|constructor]. split; [reflexivity|].
    unfold props.regenerate, props.item; simpl. rewrite Hs. reflexivity.
Qed.

(** C5, refuted as stated: the sample record and the same record under
    another name give price facts with the same metadata, symbol and type
    and different contents, so no function of those three reproduces the
    content of every emitted fact. *)
Lemma content_not_a_function_of_metadata_symbol_type :
  ~ exists derive : dict -> string -> string -> string,
      forall crypto_data facts,
        fact_extractor.extract_facts crypto_data = Ok facts ->
        Forall (fun fact =>
                  fact_extractor.content fact
                  = derive (fact_extractor.metadata fact)
                      (fact_extractor.crypto_symbol fact)
                      (fact_extractor.fact_type fact))
               facts.
Proof.
  intros [derive Hderive].
  pose proof (Hderive _ _ extract_facts_btc) as H1.
  pose proof (Hderive _ _ extract_facts_btc_renamed) as H2.
  unfold sample.btc_facts in H1, H2.
  apply Forall_inv in H1. apply Forall_inv in H2.
  cbn [sample.btc_price_fact fact_extractor.content fact_extractor.metadata
         fact_extractor.crypto_symbol fact_extractor.fact_type] in H1, H2.
  rewrite <- H2 in H1. vm_compute in H1. discriminate H1.
Qed.

(** C5 as amended.  The content of every fact [extract_facts] emits is
    reconstructable from the name of its entity (the record of the input
    the fact is about) together with the fact's symbol, type and metadata:
    one function, [regenerate], reproduces it for all four fact types. *)
Theorem content_regenerates_from_name_symbol_type_metadata
    (crypto_data : list fetch_prices.CryptoData)
    (facts : list fact_extractor.CryptoFact) :
  fact_extractor.extract_facts crypto_data = Ok facts ->
  Forall (fun fact =>
            exists crypto,
              In crypto crypto_data /\
              fact_extractor.crypto_id fact = fetch_prices.id crypto /\
              props.regenerate (fetch_prices.name crypto)
                (fact_extractor.crypto_symbol fact) (fact_extractor.fact_type fact)
                (fact_extractor.metadata fact)
              = Ok (fact_extractor.content fact))
         facts.
Proof.
  rewrite extract_facts_facts_of_records.
  apply (facts_of_records_Forall
           (fun crypto fact =>
              fact_extractor.crypto_id fact = fetch_prices.id crypto /\
              props.regenerate (fetch_prices.name crypto)
                (fact_extractor.crypto_symbol fact) (fact_extractor.fact_type fact)
                (fact_extractor.metadata fact)
              = Ok (fact_extractor.content fact))).
  exact facts_of_record_regenerate.
Qed.

(** The four contents of the sample record, regenerated. *)
Lemma content_regenerates_from_name_symbol_type_metadata_witness :
  Forall (fun fact =>
            exists crypto,
              In crypto [sample.btc] /\
              fact_extractor.crypto_id fact = fetch_prices.id crypto /\
              props.regenerate (fetch_prices.name crypto)
                (fact_extractor.crypto_symbol fact) (fact_extractor.fact_type fact)
                (fact_extractor.metadata fact)
              = Ok (fact_extractor.content fact))
         (sample.btc_facts "Bitcoin" "50,000.00" (PyFloat 50000)).
Proof.
  apply (content_regenerates_from_name_symbol_type_metadata [sample.btc]).
  vm_compute. reflexivity.
Defined.

End ContentProperties.

Section TotalityProperties.
Import Py.

(** ** Where the extraction returns and where it raises *)

(** Rounding overflows for a mantissa whatever its sign. *)
Lemma binary_round_aux_overflow_sign sx sy mx ex lx :
  returns (float_of_rounded (binary_round_aux prec emax sx mx ex lx))
  = returns (float_of_rounded (binary_round_aux prec emax sy mx ex lx)).
Proof.
  unfold binary_round_aux.
  destruct (shr_fexp prec emax mx ex lx) as [mrs e'].
  destruct (shr_fexp prec emax _ e' loc_Exact) as [mrs' e''].
  destruct (shr_m mrs'); try reflexivity.
  destruct (e'' <=? emax - prec); reflexivity.
Qed.

Lemma float_of_int_returns_opp (z : Z) :
  returns (float_of_int (- z)) = returns (float_of_int z).
Proof.
  destruct z as [|p|p]; [reflexivity| |].
  - change (- Z.pos p) with (Z.neg p).
    unfold float_of_int, binary_normalize, binary_round.
    destruct (shl_align p 0 _) as [mz ez].
    apply binary_round_aux_overflow_sign.
  - change (- Z.neg p) with (Z.pos p).
    unfold float_of_int, binary_normalize, binary_round.
    destruct (shl_align p 0 _) as [mz ez].
    apply binary_round_aux_overflow_sign.
Qed.

Lemma float_of_int_returns_abs (z : Z) :
  returns (float_of_int (Z.abs z)) = returns (float_of_int z).
Proof.
  destruct z as [|p|p]; try reflexivity.
  change (Z.abs (Zneg p)) with (- Zneg p). apply float_of_int_returns_opp.
Qed.

Lemma format_2f_converts comma v :
  props.converts v = true -> exists s, format_2f comma v = Ok s.
Proof.
  destruct v as [|z|x|s]; simpl; intros Hv; try discriminate; [|eauto].
  destruct (float_of_int z); [simpl; eauto|discriminate].
Qed.

Lemma py_abs_converts v :
  props.converts v = true -> exists a, py_abs v = Ok a /\ props.converts a = true.
Proof.
  destruct v as [|z|x|s]; simpl; intros Hv; try discriminate.
  - eexists; split; [reflexivity|]. simpl. rewrite float_of_int_returns_abs. exact Hv.
  - eexists; split; reflexivity.
Qed.

Lemma gt_zero_converts v :
  props.converts v = true -> exists b, gt_zero v = Ok b.
Proof. destruct v; simpl; intros Hv; try discriminate; eauto. Qed.

Lemma gt_zero_divides d v :
  props.divides d v = true -> exists b, gt_zero v = Ok b.
Proof. destruct v; simpl; intros Hv; try discriminate; eauto. Qed.

Lemma truediv_lit_divides d v :
  returns (float_of_int d) = true ->
  props.divides d v = true ->
  exists q, truediv_lit v d = Ok (PyFloat q).
Proof.
  intros Hd. destruct v as [|z|x|s]; simpl; intros Hv; try discriminate.
  - destruct (int_truediv z d); [simpl; eauto|discriminate].
  - destruct (float_of_int d); [simpl; eauto|discriminate].
Qed.

Lemma facts_of_record_returns crypto :
  props.numeric_record crypto = true ->
  exists new_facts, fact_extractor.facts_of_record crypto = Ok new_facts.
Proof.
  unfold props.numeric_record. intros Hn.
  repeat (apply andb_true_iff in Hn as [Hn ?]).
  destruct (format_2f_converts true _ Hn) as [price Hprice].
  destruct (gt_zero_converts _ H2) as [up Hup].
  destruct (py_abs_converts _ H2) as [apct [Hapct Hc]].
  destruct (format_2f_converts false _ Hc) as [pct Hpct].
  destruct (py_abs_converts _ H1) as [aabs [Haabs Hc']].
  destruct (format_2f_converts false _ Hc') as [dollars Hdollars].
  destruct (gt_zero_divides _ _ H0) as [pos_cap Hcap].
  destruct (truediv_lit_divides 1000000000 _ eq_refl H0) as [billions Hbillions].
  destruct (gt_zero_divides _ _ H) as [pos_vol Hvol].
  destruct (truediv_lit_divides 1000000 _ eq_refl H) as [millions Hmillions].
  unfold fact_extractor.facts_of_record, fact_extractor._extract_price_facts,
    fact_extractor._extract_change_facts, fact_extractor._extract_market_facts,
    fact_extractor._extract_volume_facts.
  destruct (ne_zero _), pos_cap, pos_vol;
    repeat match goal with
      | Heq : _ = Ok _ |- _ => rewrite Heq; cbn [bind format_2f]
      end;
    eauto.
Qed.

Lemma facts_of_records_returns crypto_data :
  forallb props.numeric_record crypto_data = true ->
  exists facts, props.facts_of_records crypto_data = Ok facts.
Proof.
  induction crypto_data as [|crypto rest IH]; simpl; intros Hn.
  - eauto.
  - apply andb_true_iff in Hn as [Hc Hrest].
    destruct (facts_of_record_returns _ Hc) as [new ->].
    destruct (IH Hrest) as [more ->]. simpl. eauto.
Qed.

Lemma facts_of_records_raises crypto_data crypto e :
  In crypto crypto_data ->
  fact_extractor.facts_of_record crypto = Raise e ->
  exists e', props.facts_of_records crypto_data = Raise e'.
Proof.
  induction crypto_data as [|c rest IH]; simpl; intros Hin Hraise; [contradiction|].
  destruct (fact_extractor.facts_of_record c) as [new|e0] eqn:Hc; simpl; [|eauto].
  destruct Hin as [->|Hin]; [congruence|].
  destruct (IH Hin Hraise) as [e' ->]. simpl. eauto.
Qed.

Lemma facts_of_record_none_price crypto :
  fetch_prices.current_price crypto = PyNone ->
  fact_extractor.facts_of_record crypto = Raise TypeError.
Proof.
  intros Hp. unfold fact_extractor.facts_of_record, fact_extractor._extract_price_facts.
  rewrite Hp. reflexivity.
Qed.

End TotalityProperties.

Section TotalityClaims.
Import Py.

(** C6, refuted as stated: a batch of the sample record and of one record
    whose price is [None] raises [TypeError]; no fact list comes back, not
    even the facts of the sound record. *)
Lemma extract_facts_aborts_on_none_price :
  fact_extractor.extract_facts [sample.btc; sample.with_price sample.btc PyNone]
  = Raise TypeError.
Proof. vm_compute. reflexivity. Qed.

(** C6 as amended.  [extract_facts] returns a fact list for every batch of
    records whose numeric fields hold numbers (floats, or ints in float
    range); it does not recover per record: a record whose price is [None]
    makes the whole call raise. *)
Theorem extract_facts_returns_on_numeric_records :
  (forall crypto_data,
      forallb props.numeric_record crypto_data = true ->
      exists facts, fact_extractor.extract_facts crypto_data = Ok facts)
  /\
  (forall crypto_data crypto,
      In crypto crypto_data ->
      fetch_prices.current_price crypto = PyNone ->
      exists e, fact_extractor.extract_facts crypto_data = Raise e).
Proof.
  split.
  - intros crypto_data Hn. rewrite extract_facts_facts_of_records.
    apply facts_of_records_returns. exact Hn.
  - intros crypto_data crypto Hin Hp. rewrite extract_facts_facts_of_records.
    apply (facts_of_records_raises crypto_data crypto TypeError Hin).
    apply facts_of_record_none_price. exact Hp.
Qed.

(** A batch of two numeric records, one with an int as its price. *)
Lemma extract_facts_returns_on_numeric_records_witness :
  forallb props.numeric_record [sample.btc; sample.with_price sample.btc (PyInt (-3))]
  = true /\
  exists facts,
    fact_extractor.extract_facts [sample.btc; sample.with_price sample.btc (PyInt (-3))]
    = Ok facts.
Proof.
  split; [vm_compute; reflexivity|].
  apply (proj1 extract_facts_returns_on_numeric_records).
  vm_compute. reflexivity.
Defined.

End TotalityClaims.

(* ================================================================== *)
(** * Properties of the store                                         *)
(* ================================================================== *)

Section StoreProperties.
Import Py.

Lemma mem_In (x : string) (l : list string) : mem x l = true <-> In x l.
Proof.
  unfold mem. rewrite existsb_exists. split.
  - intros [y [Hin Heq]]. apply String.eqb_eq in Heq. subst. exact Hin.
  - intros Hin. exists x. split; [exact Hin|apply String.eqb_refl].
Qed.

Lemma mem_not_In (x : string) (l : list string) : mem x l = false <-> ~ In x l.
Proof.
  rewrite <- mem_In. destruct (mem x l); split; congruence.
Qed.

Lemma distinct_NoDup (l : list string) : chromadb.distinct l = true <-> NoDup l.
Proof.
  induction l as [|x l IH]; simpl.
  - split; [constructor|reflexivity].
  - rewrite andb_true_iff, negb_true_iff, mem_not_In, IH. split.
    + intros [Hx Hl]. constructor; assumption.
    + intros Hnd. inversion Hnd; subst. split; assumption.
Qed.

Lemma get_by_id_app (c c' : chromadb.Collection) (i : string) :
  chromadb.get_by_id (c ++ c')%list i
  = (chromadb.get_by_id c i ++ chromadb.get_by_id c' i)%list.
Proof. unfold chromadb.get_by_id. apply filter_app. Qed.

Lemma get_by_id_absent (c : chromadb.Collection) (i : string) :
  ~ In i (chromadb.ids_of c) -> chromadb.get_by_id c i = [].
Proof.
  induction c as [|e c IH]; simpl; intros Hni; [reflexivity|].
  destruct (String.eqb (chromadb.entry_id e) i) eqn:He.
  - apply String.eqb_eq in He. exfalso. apply Hni. auto.
  - apply IH. intros Hin. apply Hni. auto.
Qed.

(** In a collection with distinct ids, a stored id names one entry. *)
Lemma get_by_id_one (c : chromadb.Collection) (i : string) :
  NoDup (chromadb.ids_of c) -> In i (chromadb.ids_of c) ->
  exists e, chromadb.get_by_id c i = [e] /\ chromadb.entry_id e = i.
Proof.
  induction c as [|e c IH]; simpl; intros Hnd Hin; [contradiction|].
  inversion Hnd as [|? ? Hne Hnd']; subst.
  destruct (String.eqb (chromadb.entry_id e) i) eqn:He.
  - apply String.eqb_eq in He. subst i.
    rewrite (get_by_id_absent c _ Hne). eauto.
  - apply String.eqb_neq in He. destruct Hin as [Heq|Hin]; [congruence|].
    apply IH; assumption.
Qed.

Lemma NoDup_ids_filter (p : chromadb.entry -> bool) (batch : list chromadb.entry) :
  NoDup (map chromadb.entry_id batch) ->
  NoDup (map chromadb.entry_id (filter p batch)).
Proof.
  induction batch as [|e batch IH]; simpl; intros Hnd; [constructor|].
  inversion Hnd as [|? ? Hne Hnd']; subst.
  destruct (p e); simpl; [|auto].
  constructor; [|auto].
  intros Hin. apply Hne. apply in_map_iff in Hin as [e' [Heq Hin]].
  apply filter_In in Hin as [Hin _]. apply in_map_iff. eauto.
Qed.

(** What [add] returns extends the collection by entries with new ids. *)
Lemma add_extends (cl : chromadb.Client) (c c' : chromadb.Collection)
    (batch : list chromadb.entry) :
  chromadb.add cl c batch = Ok c' ->
  exists new,
    c' = (c ++ new)%list /\
    NoDup (chromadb.ids_of new) /\
    (forall i, In i (chromadb.ids_of c) -> ~ In i (chromadb.ids_of new)).
Proof.
  unfold chromadb.add.
  destruct (chromadb.distinct (map chromadb.entry_id batch)) eqn:Hd;
    simpl; [|discriminate].
  apply distinct_NoDup in Hd.
  destruct (forallb (fun e => chromadb.valid_metadata (chromadb.entry_metadata e)) batch);
    simpl; [|discriminate].
  destruct (chromadb.on_existing_id cl).
  - destruct (existsb _ batch) eqn:Hex; [discriminate|].
    intros Hrun. inversion Hrun; subst. exists batch.
    split; [reflexivity|]. split; [exact Hd|].
    intros i Hi Hin. unfold chromadb.ids_of in Hin.
    apply in_map_iff in Hin as [e [Heq Hin]]. subst i.
    assert (Hm : existsb (fun e => mem (chromadb.entry_id e) (chromadb.ids_of c)) batch = true).
    { apply existsb_exists. exists e. split; [exact Hin|]. apply mem_In. exact Hi. }
    congruence.
  - intros Hrun. inversion Hrun; subst. eexists.
    split; [reflexivity|]. split; [apply NoDup_ids_filter; exact Hd|].
    intros i Hi Hin. unfold chromadb.ids_of in Hin.
    apply in_map_iff in Hin as [e [Heq Hin]]. subst i.
    apply filter_In in Hin as [_ Hnew]. apply negb_true_iff in Hnew.
    apply mem_not_In in Hnew. contradiction.
Qed.

(** C3 as amended.  [add_facts] hands its batch to the database's [add],
    which inserts and never overwrites.  So for every store whose ids are
    distinct and every fact list, once the call is over the ids are still
    distinct, and an id that was stored before still names exactly one
    entry: the one it named before, with its content, metadata and
    embedding unchanged. *)
Theorem add_facts_keeps_stored_entries
    (self : embed_store.CryptoVectorStore)
    (facts : list fact_extractor.CryptoFact) :
  chromadb.distinct (chromadb.ids_of (embed_store.collection self)) = true ->
  let after := props.after_add_facts self facts in
  chromadb.distinct (chromadb.ids_of (embed_store.collection after)) = true /\
  forall i,
    mem i (chromadb.ids_of (embed_store.collection self)) = true ->
    exists e,
      chromadb.get_by_id (embed_store.collection self) i = [e] /\
      chromadb.get_by_id (embed_store.collection after) i = [e].
Proof.
  intros Hd after.
  assert (Hnd : NoDup (chromadb.ids_of (embed_store.collection self)))
    by (apply distinct_NoDup; exact Hd).
  assert (Hsame :
    forall i, mem i (chromadb.ids_of (embed_store.collection self)) = true ->
    exists e, chromadb.get_by_id (embed_store.collection self) i = [e] /\
              chromadb.get_by_id (embed_store.collection self) i = [e]).
  { intros i Hi. apply mem_In in Hi.
    destruct (get_by_id_one _ i Hnd Hi) as [e [He _]]. eauto. }
  subst after. unfold props.after_add_facts, embed_store.add_facts.
  destruct facts as [|fact facts]; [split; assumption|].
  destruct (chromadb.add _ _ _) as [c'|err] eqn:Hadd; cbn [bind];
    [|split; assumption].
  apply add_extends in Hadd as [new [-> [Hnew Hfresh]]].
  cbn [embed_store.with_collection embed_store.collection]. split.
  - apply distinct_NoDup. unfold chromadb.ids_of. rewrite map_app.
    apply NoDup_app; assumption.
  - intros i Hi. apply mem_In in Hi.
    destruct (get_by_id_one _ i Hnd Hi) as [e [He _]].
    exists e. split; [exact He|].
    rewrite get_by_id_app, He, (get_by_id_absent new i (Hfresh i Hi)).
    reflexivity.
Qed.

End StoreProperties.

Section StoreExamples.
Import Py.

(** C3, refuted as stated: the store holds the price fact of a snapshot;
    [add_facts] is called with a fact of the same id and a new content.
    With a database that skips known ids the call reports one fact added
    and the stored entry is the old one; with a database that refuses them
    the call raises.  In neither case is the content replaced. *)
Lemma add_facts_does_not_replace :
  fact_extractor.fact_id sample.btc_price_fact_again = chromadb.entry_id sample.btc_entry /\
  fact_extractor.content sample.btc_price_fact_again <> chromadb.document sample.btc_entry /\
  embed_store.add_facts (sample.store_of chromadb.SkipExisting) [sample.btc_price_fact_again]
  = Ok (sample.store_of chromadb.SkipExisting, 1) /\
  chromadb.get_by_id (embed_store.collection (sample.store_of chromadb.SkipExisting))
    (fact_extractor.fact_id sample.btc_price_fact_again)
  = [sample.btc_entry] /\
  embed_store.add_facts (sample.store_of chromadb.RefuseBatch) [sample.btc_price_fact_again]
  = Raise IDAlreadyExistsError.
Proof.
  split; [reflexivity|]. split; [vm_compute; discriminate|].
  split; [vm_compute; reflexivity|]. split; vm_compute; reflexivity.
Qed.

(** The stored price fact after the same snapshot is added again. *)
Lemma add_facts_keeps_stored_entries_witness :
  let self := sample.store_of chromadb.SkipExisting in
  let after := props.after_add_facts self [sample.btc_price_fact_again] in
  chromadb.distinct (chromadb.ids_of (embed_store.collection after)) = true /\
  forall i,
    mem i (chromadb.ids_of (embed_store.collection self)) = true ->
    exists e,
      chromadb.get_by_id (embed_store.collection self) i = [e] /\
      chromadb.get_by_id (embed_store.collection after) i = [e].
Proof.
  apply (add_facts_keeps_stored_entries (sample.store_of chromadb.SkipExisting)
           [sample.btc_price_fact_again]).
  vm_compute. reflexivity.
Defined.

End StoreExamples.

Section StatsProperties.
Import Py.

Lemma py_in_rev (v : pyval) (s : list pyval) :
  props.py_in v (rev s) = props.py_in v s.
Proof.
  unfold props.py_in. induction s as [|x s IH]; simpl; [reflexivity|].
  rewrite existsb_app, IH. simpl. rewrite orb_false_r. apply orb_comm.
Qed.

Lemma py_in_app_l (v : pyval) (s s' : list pyval) :
  props.py_in v s = true -> props.py_in v (s ++ s') = true.
Proof.
  unfold props.py_in. intros Hin. rewrite existsb_app, Hin. reflexivity.
Qed.

(** The loop that fills a set, from the members [s0] it starts with. *)
Lemma fold_set_add (l : list pyval) :
  forall s0,
    let s := fold_left embed_store.set_add l s0 in
    (forall v, In v s -> In v s0 \/ In v l) /\
    (forall v, In v s0 -> In v s) /\
    (forall v, props.py_in v s0 = true -> props.py_in v s = true) /\
    (forall v, In v l -> In v s \/ props.py_in v s = true) /\
    (props.distinct_newest_first (rev s0) = true ->
     props.distinct_newest_first (rev s) = true).
Proof.
  induction l as [|x l IH]; intros s0; cbn zeta; simpl.
  - repeat split; auto.
  - destruct (IH (embed_store.set_add s0 x)) as [Hsub [Hmono [Hin [Hcov Hdist]]]].
    cbn zeta in *.
    assert (Hadd : (props.py_in x s0 = true /\ embed_store.set_add s0 x = s0) \/
                   (props.py_in x s0 = false /\ embed_store.set_add s0 x = (s0 ++ [x])%list)).
    { unfold embed_store.set_add, props.py_in.
      destruct (existsb (embed_store.py_eq x) s0); auto. }
    destruct Hadd as [[Hx Heq]|[Hx Heq]]; rewrite Heq in *.
    + repeat split; auto.
      * intros v Hv. destruct (Hsub v Hv); auto.
      * intros v [<-|Hv]; auto.
    + repeat split.
      * intros v Hv. destruct (Hsub v Hv) as [Hv'|Hv']; auto.
        apply in_app_or in Hv' as [Hv'|[<-|[]]]; auto.
      * intros v Hv. apply Hmono. apply in_or_app. auto.
      * intros v Hv. apply Hin. apply py_in_app_l. exact Hv.
      * intros v [<-|Hv]; auto. left. apply Hmono. apply in_or_app. simpl. auto.
      * intros Hd. apply Hdist. rewrite rev_app_distr. simpl.
        rewrite py_in_rev, Hx, Hd. reflexivity.
Qed.

Lemma fold_set_add_set_of (l : list pyval) :
  props.set_of (fold_left embed_store.set_add l []) l.
Proof.
  destruct (fold_set_add l []) as [Hsub [_ [_ [Hcov Hdist]]]]. cbn zeta in *.
  repeat split.
  - intros v Hv. destruct (Hsub v Hv) as [[]|Hl]. exact Hl.
  - exact Hcov.
  - apply Hdist. reflexivity.
Qed.

Lemma fold_left_values (k : string) (metadatas : list dict) (s0 : list pyval) :
  fold_left (fun s metadata =>
               embed_store.set_add s (dict_get_default metadata k (PyStr "unknown")))
            metadatas s0
  = fold_left embed_store.set_add (props.values_of k metadatas) s0.
Proof.
  revert s0. induction metadatas as [|m rest IH]; intros s0; simpl; [reflexivity|].
  apply IH.
Qed.

(** The sample is the first hundred entries. *)
Lemma get_metadatas_sample (self : embed_store.CryptoVectorStore) :
  chromadb.get_metadatas (embed_store.collection self)
    (Z.min 100 (chromadb.count (embed_store.collection self)))
  = props.sampled self.
Proof.
  unfold chromadb.get_metadatas, props.sampled, chromadb.count. f_equal.
  set (c := embed_store.collection self).
  destruct (Z.leb_spec 100 (Z.of_nat (List.length c))) as [Hle|Hlt].
  - rewrite Z.min_l by lia. reflexivity.
  - rewrite Z.min_r by lia. rewrite Nat2Z.id.
    rewrite firstn_all. symmetry. apply firstn_all2. lia.
Qed.

(** C8 as amended.  [get_collection_stats] returns the total number of
    stored facts.  For a collection that is not empty it returns with it the
    distinct entity symbols and the distinct fact types of the first
    hundred stored entries, both as lists, and the number of those symbols;
    for an empty collection it returns the total, 0, and nothing else. *)
Theorem get_collection_stats_samples_first_hundred
    (self : embed_store.CryptoVectorStore) :
  let stats := embed_store.get_collection_stats self in
  let total := props.len (embed_store.collection self) in
  embed_store.stat_get stats "total_facts" = Some (embed_store.StatInt total) /\
  (total = 0 -> stats = [ ("total_facts", embed_store.StatInt 0) ]) /\
  (0 < total ->
   exists symbols types,
     stats = [ ("total_facts", embed_store.StatInt total);
               ("unique_cryptos", embed_store.StatInt (props.len symbols));
               ("crypto_symbols", embed_store.StatList symbols);
               ("fact_types", embed_store.StatList types) ] /\
     props.set_of symbols (props.values_of "crypto_symbol" (props.sampled self)) /\
     props.set_of types (props.values_of "fact_type" (props.sampled self))).
Proof.
  cbn zeta. unfold embed_store.get_collection_stats.
  rewrite get_metadatas_sample, !fold_left_values.
  change (chromadb.count (embed_store.collection self))
    with (props.len (embed_store.collection self)).
  destruct (0 <? props.len (embed_store.collection self)) eqn:Hpos.
  - apply Z.ltb_lt in Hpos. split; [reflexivity|]. split; [lia|].
    intros _. do 2 eexists. split; [reflexivity|].
    split; apply fold_set_add_set_of.
  - apply Z.ltb_ge in Hpos.
    assert (Hz : props.len (embed_store.collection self) = 0)
      by (unfold props.len in *; lia).
    rewrite Hz. split; [reflexivity|]. split; [reflexivity|]. lia.
Qed.

(** C8, refuted as stated: of 101 stored facts, a hundred about BTC and the
    last one about ETH, the statistics count one entity where two are
    stored; and for an empty collection they hold the total and no count of
    entities or of fact types. *)
Lemma stats_sample_misses_later_entries :
  let self := sample.crowded_store 100 in
  let stored := props.values_of "crypto_symbol"
                  (map chromadb.entry_metadata (embed_store.collection self)) in
  chromadb.distinct (chromadb.ids_of (embed_store.collection self)) = true /\
  embed_store.stat_get (embed_store.get_collection_stats self) "total_facts"
  = Some (embed_store.StatInt 101) /\
  embed_store.stat_get (embed_store.get_collection_stats self) "unique_cryptos"
  = Some (embed_store.StatInt 1) /\
  embed_store.stat_get (embed_store.get_collection_stats self) "crypto_symbols"
  = Some (embed_store.StatList [PyStr "BTC"]) /\
  In (PyStr "BTC") stored /\ In (PyStr "ETH") stored /\
  embed_store.get_collection_stats sample.empty_store
  = [ ("total_facts", embed_store.StatInt 0) ].
Proof.
  cbn zeta. split; [vm_compute; reflexivity|].
  split; [vm_compute; reflexivity|]. split; [vm_compute; reflexivity|].
  split; [vm_compute; reflexivity|].
  split; [|split; [|reflexivity]].
  - unfold sample.crowded_store, props.values_of; simpl. auto.
  - unfold sample.crowded_store, props.values_of.
    cbn [embed_store.collection]. rewrite !map_app. apply in_or_app. right.
    simpl. auto.
Qed.

End StatsProperties.

(* ================================================================== *)
(** * Further properties of the fact extractor                        *)
(* ================================================================== *)

Section ExtractorCounts.
Import Py.

Lemma _extract_price_facts_counts crypto l :
  fact_extractor._extract_price_facts crypto = Ok l ->
  props.count_type "price" l = 1%nat /\ props.count_type "change" l = 0%nat /\
  props.count_type "market_cap" l = 0%nat /\ props.count_type "volume" l = 0%nat /\
  List.length l = 1%nat.
Proof.
  intros Hl. apply _extract_price_facts_inv in Hl as [price [_ ->]].
  repeat split.
Qed.

Lemma _extract_change_facts_counts crypto l :
  fact_extractor._extract_change_facts crypto = Ok l ->
  props.count_type "price" l = 0%nat /\
  props.count_type "change" l = Nat.b2n (derived.emits_change crypto) /\
  props.count_type "market_cap" l = 0%nat /\ props.count_type "volume" l = 0%nat /\
  List.length l = Nat.b2n (derived.emits_change crypto).
Proof.
  unfold fact_extractor._extract_change_facts, derived.emits_change.
  intros Hl. destruct (ne_zero _).
  - unbind Hl. inversion Hl; subst. repeat split.
  - inversion Hl; subst. repeat split.
Qed.

Lemma _extract_market_facts_counts crypto l :
  fact_extractor._extract_market_facts crypto = Ok l ->
  props.count_type "price" l = 0%nat /\ props.count_type "change" l = 0%nat /\
  props.count_type "market_cap" l = Nat.b2n (derived.emits_market crypto) /\
  props.count_type "volume" l = 0%nat /\
  List.length l = Nat.b2n (derived.emits_market crypto).
Proof.
  unfold fact_extractor._extract_market_facts, derived.emits_market.
  intros Hl. destruct (gt_zero _) as [[|]|e]; cbn [bind] in Hl; [| |discriminate].
  - unbind Hl. inversion Hl; subst. repeat split.
  - inversion Hl; subst. repeat split.
Qed.

Lemma _extract_volume_facts_counts crypto l :
  fact_extractor._extract_volume_facts crypto = Ok l ->
  props.count_type "price" l = 0%nat /\ props.count_type "change" l = 0%nat /\
  props.count_type "market_cap" l = 0%nat /\
  props.count_type "volume" l = Nat.b2n (derived.emits_volume crypto) /\
  List.length l = Nat.b2n (derived.emits_volume crypto).
Proof.
  unfold fact_extractor._extract_volume_facts, derived.emits_volume.
  intros Hl. destruct (gt_zero _) as [[|]|e]; cbn [bind] in Hl; [| |discriminate].
  - unbind Hl. inversion Hl; subst. repeat split.
  - inversion Hl; subst. repeat split.
Qed.

(** The facts of one record, counted by type. *)
Lemma facts_of_record_counts crypto new_facts :
  fact_extractor.facts_of_record crypto = Ok new_facts ->
  props.count_type "change" new_facts = Nat.b2n (derived.emits_change crypto) /\
  props.count_type "market_cap" new_facts = Nat.b2n (derived.emits_market crypto) /\
  props.count_type "volume" new_facts = Nat.b2n (derived.emits_volume crypto) /\
  List.length new_facts
  = (1 + Nat.b2n (derived.emits_change crypto) + Nat.b2n (derived.emits_market crypto)
     + Nat.b2n (derived.emits_volume crypto))%nat.
Proof.
  unfold fact_extractor.facts_of_record. intros Hrun. unbind Hrun.
  inversion Hrun; subst.
  apply _extract_price_facts_counts in E as [_ [Pc [Pm [Pv Pl]]]].
  apply _extract_change_facts_counts in E0 as [_ [Cc [Cm [Cv Cl]]]].
  apply _extract_market_facts_counts in E1 as [_ [Mc [Mm [Mv Ml]]]].
  apply _extract_volume_facts_counts in E2 as [_ [Vc [Vm [Vv Vl]]]].
  rewrite !count_type_app, !length_app.
  rewrite Pc, Pm, Pv, Pl, Cc, Cm, Cv, Cl, Mc, Mm, Mv, Ml, Vc, Vm, Vv, Vl.
  repeat split; lia.
Qed.

Lemma count_if_cons {A} (p : A -> bool) (x : A) (l : list A) :
  derived.count_if p (x :: l) = (Nat.b2n (p x) + derived.count_if p l)%nat.
Proof. unfold derived.count_if. simpl. destruct (p x); reflexivity. Qed.

(** The facts of a batch, counted by type. *)
Lemma facts_of_records_counts crypto_data :
  forall facts,
    props.facts_of_records crypto_data = Ok facts ->
    props.count_type "change" facts = derived.count_if derived.emits_change crypto_data /\
    props.count_type "market_cap" facts = derived.count_if derived.emits_market crypto_data /\
    props.count_type "volume" facts = derived.count_if derived.emits_volume crypto_data /\
    List.length facts
    = (List.length crypto_data + derived.count_if derived.emits_change crypto_data
       + derived.count_if derived.emits_market crypto_data
       + derived.count_if derived.emits_volume crypto_data)%nat.
Proof.
  induction crypto_data as [|crypto rest IH]; simpl; intros facts Hrun.
  - inversion Hrun. repeat split.
  - unbind Hrun. inversion Hrun; subst.
    destruct (facts_of_record_counts _ _ E) as [Hc [Hm [Hv Hl]]].
    destruct (IH _ eq_refl) as [Hc' [Hm' [Hv' Hl']]].
    rewrite !count_type_app, length_app, !count_if_cons.
    rewrite Hc, Hm, Hv, Hl, Hc', Hm', Hv', Hl'. repeat split; lia.
Qed.

End ExtractorCounts.

Section ExtractorExtras.
Import Py.

Lemma count_if_le {A} (p : A -> bool) (l : list A) :
  (derived.count_if p l <= List.length l)%nat.
Proof.
  unfold derived.count_if. induction l as [|x l IH]; simpl; [lia|].
  destruct (p x); simpl; lia.
Qed.

(** X1.  In what [extract_facts] returns, the facts of type change are as
    many as the records whose 24h percent change is not equal to zero: a
    record gets a change fact exactly when [price_change_percentage_24h !=
    0] (a change of zero gives none, whatever the absolute change). *)
Theorem change_fact_per_nonzero_change
    (crypto_data : list fetch_prices.CryptoData)
    (facts : list fact_extractor.CryptoFact) :
  fact_extractor.extract_facts crypto_data = Ok facts ->
  props.count_type "change" facts = derived.count_if derived.emits_change crypto_data.
Proof.
  rewrite extract_facts_facts_of_records. intros Hrun.
  apply (facts_of_records_counts _ _ Hrun).
Qed.

(** The sample record has a change of 2.5 percent, hence one change fact. *)
Lemma change_fact_per_nonzero_change_witness :
  props.count_type "change" (sample.btc_facts "Bitcoin" "50,000.00" (PyFloat 50000))
  = derived.count_if derived.emits_change [sample.btc].
Proof.
  apply change_fact_per_nonzero_change. vm_compute. reflexivity.
Defined.

(** X2.  In what [extract_facts] returns, the facts of type market_cap are
    as many as the records whose market cap is greater than zero. *)
Theorem market_cap_fact_per_positive_cap
    (crypto_data : list fetch_prices.CryptoData)
    (facts : list fact_extractor.CryptoFact) :
  fact_extractor.extract_facts crypto_data = Ok facts ->
  props.count_type "market_cap" facts
  = derived.count_if derived.emits_market crypto_data.
Proof.
  rewrite extract_facts_facts_of_records. intros Hrun.
  apply (facts_of_records_counts _ _ Hrun).
Qed.

Lemma market_cap_fact_per_positive_cap_witness :
  props.count_type "market_cap" (sample.btc_facts "Bitcoin" "50,000.00" (PyFloat 50000))
  = derived.count_if derived.emits_market [sample.btc].
Proof.
  apply market_cap_fact_per_positive_cap. vm_compute. reflexivity.
Defined.

(** X3.  In what [extract_facts] returns, the facts of type volume are as
    many as the records whose 24h volume is greater than zero. *)
Theorem volume_fact_per_positive_volume
    (crypto_data : list fetch_prices.CryptoData)
    (facts : list fact_extractor.CryptoFact) :
  fact_extractor.extract_facts crypto_data = Ok facts ->
  props.count_type "volume" facts
  = derived.count_if derived.emits_volume crypto_data.
Proof.
  rewrite extract_facts_facts_of_records. intros Hrun.
  apply (facts_of_records_counts _ _ Hrun).
Qed.

Lemma volume_fact_per_positive_volume_witness :
  props.count_type "volume" (sample.btc_facts "Bitcoin" "50,000.00" (PyFloat 50000))
  = derived.count_if derived.emits_volume [sample.btc].
Proof.
  apply volume_fact_per_positive_volume. vm_compute. reflexivity.
Defined.

(** X4.  [extract_facts] returns at least one fact and at most four facts
    per record of its input. *)
Theorem between_one_and_four_facts_per_record
    (crypto_data : list fetch_prices.CryptoData)
    (facts : list fact_extractor.CryptoFact) :
  fact_extractor.extract_facts crypto_data = Ok facts ->
  (List.length crypto_data <= List.length facts <= 4 * List.length crypto_data)%nat.
Proof.
  rewrite extract_facts_facts_of_records. intros Hrun.
  destruct (facts_of_records_counts _ _ Hrun) as [_ [_ [_ Hlen]]].
  pose proof (count_if_le derived.emits_change crypto_data).
  pose proof (count_if_le derived.emits_market crypto_data).
  pose proof (count_if_le derived.emits_volume crypto_data).
  lia.
Qed.

Lemma between_one_and_four_facts_per_record_witness :
  (List.length [sample.btc]
   <= List.length (sample.btc_facts "Bitcoin" "50,000.00" (PyFloat 50000))
   <= 4 * List.length [sample.btc])%nat.
Proof.
  apply between_one_and_four_facts_per_record. vm_compute. reflexivity.
Defined.

Lemma facts_of_records_app (a b : list fetch_prices.CryptoData) :
  props.facts_of_records (a ++ b)
  = (facts_a <- props.facts_of_records a ;;
     facts_b <- props.facts_of_records b ;;
     Ok (facts_a ++ facts_b)%list).
Proof.
  induction a as [|crypto rest IH]; simpl.
  - destruct (props.facts_of_records b); reflexivity.
  - destruct (fact_extractor.facts_of_record crypto) as [new|e]; simpl; [|reflexivity].
    rewrite IH. destruct (props.facts_of_records rest) as [fa|e]; simpl; [|reflexivity].
    destruct (props.facts_of_records b) as [fb|e]; simpl; [|reflexivity].
    rewrite app_assoc. reflexivity.
Qed.

(** X5.  Extracting a batch made of two batches is extracting the first,
    then the second, and appending the facts: the facts come in the order
    of the records, and the call raises as soon as one of the two does. *)
Theorem extract_facts_app (a b : list fetch_prices.CryptoData) :
  fact_extractor.extract_facts (a ++ b)
  = (facts_a <- fact_extractor.extract_facts a ;;
     facts_b <- fact_extractor.extract_facts b ;;
     Ok (facts_a ++ facts_b)%list).
Proof.
  rewrite !extract_facts_facts_of_records. apply facts_of_records_app.
Qed.

Lemma append_inj_l (s a b : string) : s ++ a = s ++ b -> a = b.
Proof.
  induction s as [|c s IH]; simpl; intros Heq; [exact Heq|].
  inversion Heq. auto.
Qed.

(** X6.  The facts of one record have pairwise distinct ids: a batch of a
    single record never holds the same id twice. *)
Theorem fact_ids_of_a_record_distinct
    (crypto : fetch_prices.CryptoData)
    (facts : list fact_extractor.CryptoFact) :
  fact_extractor.extract_facts [crypto] = Ok facts ->
  NoDup (map fact_extractor.fact_id facts).
Proof.
  rewrite extract_facts_facts_of_records. simpl. intros Hrun.
  destruct (fact_extractor.facts_of_record crypto) as [fs|e] eqn:Hrec;
    simpl in Hrun; [|discriminate].
  inversion Hrun; subst; clear Hrun. rewrite app_nil_r.
  unfold fact_extractor.facts_of_record in Hrec. unbind Hrec.
  inversion Hrec; subst; clear Hrec.
  apply _extract_price_facts_inv in E as [price [_ ->]].
  apply _extract_change_facts_inv in E0
    as [->|[up [pct [dollars [apct [aabs [_ [_ [_ [_ [_ ->]]]]]]]]]]];
    apply _extract_market_facts_inv in E1 as [->|[b [s [_ [_ ->]]]]];
    apply _extract_volume_facts_inv in E2 as [->|[m [s' [_ [_ ->]]]]];
    cbn [map app fact_extractor.fact_id];
    repeat (constructor;
            [cbn [In]; intros Hin;
             repeat (destruct Hin as [Hin|Hin];
                     [apply append_inj_l in Hin; discriminate Hin|]);
             exact Hin|]);
    constructor.
Qed.

Lemma fact_ids_of_a_record_distinct_witness :
  NoDup (map fact_extractor.fact_id
           (sample.btc_facts "Bitcoin" "50,000.00" (PyFloat 50000))).
Proof.
  apply (fact_ids_of_a_record_distinct sample.btc). vm_compute. reflexivity.
Defined.

End ExtractorExtras.

(* ================================================================== *)
(** * Further properties of the retriever                             *)
(* ================================================================== *)

Section RetrievalOrder.
Import Py.
Context {S : Type} `{retriever.VectorStore S}.

(** X7.  The facts [retrieve_facts] returns for [max_facts = k >= 0] are the
    first [k] of the hits that pass the threshold, in the order in which
    the store returned them; a kept hit is the store's hit with the
    similarity written into it, and [total_found] counts all the hits. *)
Theorem retrieve_facts_first_k_passing
    (vector_store : S) (start_time end_time : float) (query : string)
    (k : Z) (crypto_filter : option string) (t : float)
    (r : retriever.RetrievalResult) :
  0 <= k ->
  retriever.retrieve_facts vector_store start_time end_time query k crypto_filter t
    = Ok r ->
  exists raw_results,
    retriever.search_facts vector_store query (k * 2) crypto_filter = Ok raw_results /\
    retriever.facts r
    = firstn (Z.to_nat k) (map derived.annotate (filter (derived.passes t) raw_results)) /\
    retriever.total_found r = props.len raw_results.
Proof.
  intros Hk. unfold retriever.retrieve_facts. intros Hrun.
  destruct (retriever.search_facts vector_store query (k * 2) crypto_filter)
    as [raw|e]; simpl in Hrun; [|discriminate].
  destruct (retriever.filter_loop t [] raw) as [kept|e] eqn:Hloop;
    simpl in Hrun; [|discriminate].
  inversion Hrun; subst; simpl. exists raw. split; [reflexivity|].
  split; [|reflexivity].
  apply filter_loop_filter in Hloop. simpl in Hloop. subst kept.
  unfold retriever.slice_to.
  destruct (k <? 0) eqn:Hneg; [apply Z.ltb_lt in Hneg; lia|reflexivity].
Qed.

End RetrievalOrder.

Section RetrievalOrderExamples.
Import Py.

(** Of the three sample hits two pass the bar 0.75; one fact is asked for. *)
Lemma retrieve_facts_first_k_passing_witness :
  exists r raw_results,
    retriever.retrieve_facts sample.three_hits 0%float 1%float "bitcoin price" 1 None
      0.75%float = Ok r /\
    retriever.search_facts sample.three_hits "bitcoin price" (1 * 2) None = Ok raw_results /\
    retriever.facts r
    = firstn (Z.to_nat 1)
        (map derived.annotate (filter (derived.passes 0.75%float) raw_results)) /\
    retriever.total_found r = props.len raw_results.
Proof.
  assert (Hr : exists r,
             retriever.retrieve_facts sample.three_hits 0%float 1%float "bitcoin price"
               1 None 0.75%float = Ok r)
    by (eexists; vm_compute; reflexivity).
  destruct Hr as [r Hr]. exists r.
  destruct (retrieve_facts_first_k_passing sample.three_hits 0%float 1%float
              "bitcoin price" 1 None 0.75%float r ltac:(lia) Hr)
    as [raw [Hs [Hf Ht]]].
  exists raw. split; [exact Hr|]. split; [exact Hs|]. split; [exact Hf|exact Ht].
Defined.

End RetrievalOrderExamples.

Section ContextStringProperties.
Import Py.
Variable float_repr : float -> string.

Lemma context_entry_inv (i : Z) (fact : embed_store.candidate) (entry : list string) :
  retriever.context_entry float_repr i fact = Ok entry ->
  exists ts,
    dict_get_default (embed_store.metadata fact) "timestamp" (PyStr "unknown") = PyStr ts /\
    entry
    = [ str_int i ++ ". " ++ embed_store.content fact;
        "   (Source: "
          ++ retriever.py_str float_repr
               (dict_get_default (embed_store.metadata fact) "crypto_symbol" (PyStr "N/A"))
          ++ ", Time: " ++ substring 0 19 ts ++ ")" ].
Proof.
  unfold retriever.context_entry, retriever.slice19.
  destruct (dict_get_default (embed_store.metadata fact) "timestamp" (PyStr "unknown"))
    as [|z|x|ts]; simpl; intros Hrun; try discriminate.
  inversion Hrun. eauto.
Qed.

(** The loop appends two lines per fact, numbered from [i] on. *)
Lemma context_loop_entries :
  forall facts context_parts i parts,
    retriever.context_loop float_repr context_parts i facts = Ok parts ->
    exists entries,
      parts = (context_parts ++ entries)%list /\
      List.length entries = (2 * List.length facts)%nat /\
      forall j fact,
        nth_error facts j = Some fact ->
        exists ts,
          dict_get_default (embed_store.metadata fact) "timestamp" (PyStr "unknown")
          = PyStr ts /\
          nth_error entries (2 * j)
          = Some (str_int (i + Z.of_nat j) ++ ". " ++ embed_store.content fact) /\
          nth_error entries (2 * j + 1)
          = Some ("   (Source: "
                    ++ retriever.py_str float_repr
                         (dict_get_default (embed_store.metadata fact) "crypto_symbol"
                            (PyStr "N/A"))
                    ++ ", Time: " ++ substring 0 19 ts ++ ")").
Proof.
  induction facts as [|fact rest IH]; intros acc i parts Hrun;
    cbn [retriever.context_loop] in Hrun.
  - inversion Hrun. exists []. rewrite app_nil_r. repeat split.
    intros j f Hj. destruct j; discriminate.
  - unbind Hrun.
    apply context_entry_inv in E as [ts [Hts ->]].
    apply IH in Hrun as [entries [-> [Hlen Hnth]]].
    eexists. split; [rewrite <- app_assoc; reflexivity|].
    split; [simpl; lia|].
    intros j f Hj. destruct j as [|j]; cbn [nth_error] in Hj.
    + inversion Hj; subst f. exists ts.
      change (Z.of_nat 0) with 0. rewrite Z.add_0_r.
      split; [exact Hts|]. split; reflexivity.
    + destruct (Hnth j f Hj) as [ts' [Hts' [Hfirst Hsecond]]].
      exists ts'. split; [exact Hts'|].
      replace (2 * S j + 1)%nat with (S (S (2 * j + 1))) by lia.
      replace (2 * S j)%nat with (S (S (2 * j))) by lia.
      replace (i + Z.of_nat (S j)) with (i + 1 + Z.of_nat j) by lia.
      cbn [app nth_error]. auto.
Qed.


Lemma context_loop_returns_iff :
  forall facts context_parts i,
    match retriever.context_loop float_repr context_parts i facts with
    | Ok _ => forallb derived.timestamp_is_text facts = true
    | Raise e => e = TypeError /\ forallb derived.timestamp_is_text facts = false
    end.
Proof.
  induction facts as [|fact rest IH]; simpl; intros acc i; [reflexivity|].
  unfold retriever.context_entry, retriever.slice19, derived.timestamp_is_text at 1 3.
  destruct (dict_get_default (embed_store.metadata fact) "timestamp" (PyStr "unknown"));
    simpl; auto.
  apply IH.
Qed.

(** X11.  [get_context_string] returns exactly when the [timestamp] of every
    fact's metadata is a string or is absent; a fact whose timestamp is
    another value ([None], a number) makes it raise [TypeError], since the
    value is sliced. *)
Theorem get_context_string_returns_iff_text_timestamps
    (retrieval_result : retriever.RetrievalResult) :
  match retriever.get_context_string float_repr retrieval_result with
  | Ok _ =>
      forallb derived.timestamp_is_text (retriever.facts retrieval_result) = true
  | Raise e =>
      e = TypeError /\
      forallb derived.timestamp_is_text (retriever.facts retrieval_result) = false
  end.
Proof.
  unfold retriever.get_context_string, retriever.context_parts.
  destruct (retriever.facts retrieval_result) as [|fact rest] eqn:Hfacts;
    [reflexivity|].
  pose proof (context_loop_returns_iff (fact :: rest) [retriever.context_header] 1)
    as Hloop.
  destruct (retriever.context_loop float_repr [retriever.context_header] 1 (fact :: rest));
    simpl; exact Hloop.
Qed.

Lemma prefix_append (s t : string) : String.prefix s (s ++ t) = true.
Proof.
  induction s as [|c s IH]; simpl; [destruct t; reflexivity|].
  destruct (Ascii.ascii_dec c c) as [_|Hne]; [exact IH|contradiction].
Qed.

(** X9.  When [get_context_string] returns, it returns the fixed sentence
    "No relevant information found in the knowledge base." if and only if
    the result has no facts; otherwise the string starts with the header. *)
Theorem get_context_string_fixed_sentence_iff_no_facts
    (retrieval_result : retriever.RetrievalResult) (context : string) :
  retriever.get_context_string float_repr retrieval_result = Ok context ->
  (context = retriever.no_context <-> retriever.facts retrieval_result = []) /\
  (retriever.facts retrieval_result <> [] ->
   String.prefix retriever.context_header context = true).
Proof.
  unfold retriever.get_context_string, retriever.context_parts.
  destruct (retriever.facts retrieval_result) as [|fact rest].
  - intros Hrun. inversion Hrun. split; [tauto|congruence].
  - intros Hrun. unbind Hrun. inversion Hrun; subst.
    apply context_loop_entries in E as [entries [-> [Hlen _]]].
    destruct entries as [|e1 entries]; [simpl in Hlen; lia|].
    split.
    + split; [|discriminate]. simpl. unfold retriever.context_header, retriever.no_context.
      simpl. discriminate.
    + intros _. cbn [app String.concat]. apply prefix_append.
Qed.

End ContextStringProperties.

Section ContextStringExamples.
Import Py.

(** The context of a result that holds the stored price fact. *)
Example get_context_string_one_fact :
  retriever.get_context_string derived.no_float_repr derived.one_fact_result
  = Ok ("Based on the latest cryptocurrency data, here are the relevant facts:"
          ++ retriever.newline
          ++ "1. Bitcoin (BTC) is currently trading at $50,000.00 USD."
          ++ retriever.newline
          ++ "   (Source: BTC, Time: 2024-01-01T00:00:00)").
Proof. vm_compute. reflexivity. Qed.


Lemma get_context_string_fixed_sentence_iff_no_facts_witness :
  exists context,
    retriever.get_context_string derived.no_float_repr derived.one_fact_result
    = Ok context /\
    (context = retriever.no_context <-> retriever.facts derived.one_fact_result = []) /\
    (retriever.facts derived.one_fact_result <> [] ->
     String.prefix retriever.context_header context = true).
Proof.
  assert (Hr : exists context,
             retriever.get_context_string derived.no_float_repr derived.one_fact_result
             = Ok context)
    by (eexists; vm_compute; reflexivity).
  destruct Hr as [context Hr]. exists context. split; [exact Hr|].
  apply (get_context_string_fixed_sentence_iff_no_facts derived.no_float_repr
           derived.one_fact_result context Hr).
Defined.

End ContextStringExamples.

Section QueryAnalysisProperties.
Import Py.

Lemma list_set_In (x : string) :
  forall l seen, In x (retriever.list_set l seen) <-> In x seen \/ In x l.
Proof.
  induction l as [|y l IH]; simpl; intros seen; [tauto|].
  destruct (mem y seen) eqn:Hm; rewrite IH.
  - apply mem_In in Hm. split; [tauto|]. intros [Hs|[->|Hl]]; auto.
  - rewrite in_app_iff. simpl. tauto.
Qed.

Lemma list_set_NoDup :
  forall l seen, NoDup seen -> NoDup (retriever.list_set l seen).
Proof.
  induction l as [|y l IH]; simpl; intros seen Hnd; [exact Hnd|].
  destruct (mem y seen) eqn:Hm; apply IH; [exact Hnd|].
  apply mem_not_In in Hm. apply NoDup_app; [exact Hnd|repeat constructor; simpl; tauto|].
  intros a Ha [<-|[]]. contradiction.
Qed.

Lemma filtered_keys_distinct {K V : Type} (keep : K * V -> bool) :
  forall table : list (K * V),
    NoDup (map fst table) -> NoDup (map fst (filter keep table)).
Proof.
  intros table. induction table as [|row rest IHrest]; intros Hkeys.
  - apply NoDup_nil.
  - cbn [map] in Hkeys. apply NoDup_cons_iff in Hkeys as [Hnew Hrest].
    cbn [filter]. destruct (keep row); [|exact (IHrest Hrest)].
    cbn [map]. apply NoDup_cons; [|exact (IHrest Hrest)].
    intros Hin. apply Hnew.
    apply in_map_iff in Hin as [row' [Hfst Hin]].
    apply filter_In in Hin as [Hin _].
    apply in_map_iff. exists row'. split; assumption.
Qed.

(** X12.  For a query of ASCII text, the symbols [analyze_query_intent]
    reports are exactly the symbols of the names and aliases of its table
    that occur in the query lower-cased, as substrings, and none is
    reported twice. *)
Theorem analyze_query_intent_cryptos (query : string) :
  isascii query = true ->
  (forall symbol,
      In symbol (retriever.cryptos (retriever.analyze_query_intent query)) <->
      exists name,
        In (name, symbol) retriever.crypto_mapping /\
        retriever.contains name (retriever.lower query) = true) /\
  NoDup (retriever.cryptos (retriever.analyze_query_intent query)).
Proof.
  intros _. unfold retriever.analyze_query_intent; cbn [retriever.cryptos]. split.
  - intros symbol. rewrite list_set_In, in_map_iff. split.
    + intros [[]|[[name sym] [Heq Hin]]]. simpl in Heq. subst sym.
      apply filter_In in Hin as [Hin Hc]. exists name. auto.
    + intros [name [Hin Hc]]. right. exists (name, symbol).
      split; [reflexivity|]. apply filter_In. auto.
  - apply list_set_NoDup. constructor.
Qed.

(** A question that names Bitcoin by its symbol, in capitals. *)
Lemma analyze_query_intent_cryptos_witness :
  (forall symbol,
      In symbol (retriever.cryptos (retriever.analyze_query_intent "Is BTC up today?")) <->
      exists name,
        In (name, symbol) retriever.crypto_mapping /\
        retriever.contains name (retriever.lower "Is BTC up today?") = true) /\
  NoDup (retriever.cryptos (retriever.analyze_query_intent "Is BTC up today?")).
Proof.
  apply (analyze_query_intent_cryptos "Is BTC up today?"). reflexivity.
Defined.

Example analyze_query_intent_btc_in_capitals :
  retriever.cryptos (retriever.analyze_query_intent "Is BTC up today?") = ["BTC"].
Proof. vm_compute. reflexivity. Qed.

(** X13.  [is_general] is true exactly when no symbol is reported. *)
Theorem analyze_query_intent_general_iff_no_crypto (query : string) :
  retriever.is_general (retriever.analyze_query_intent query) = true <->
  retriever.cryptos (retriever.analyze_query_intent query) = [].
Proof.
  unfold retriever.analyze_query_intent;
    cbn [retriever.cryptos retriever.is_general].
  set (mentioned := map snd (filter _ retriever.crypto_mapping)).
  rewrite Nat.eqb_eq. split.
  - intros Hlen. destruct mentioned; [reflexivity|discriminate].
  - intros Hset. destruct mentioned as [|x l]; [reflexivity|].
    assert (Hin : In x (retriever.list_set (x :: l) []))
      by (apply list_set_In; simpl; auto).
    rewrite Hset in Hin. contradiction.
Qed.

Lemma lower_char_lower_char (c : ascii) :
  retriever.lower_char (retriever.lower_char c) = retriever.lower_char c.
Proof. destruct c as [[] [] [] [] [] [] [] []]; reflexivity. Qed.

Lemma lower_char_upper_char (c : ascii) :
  retriever.lower_char (fetch_prices.upper_char c) = retriever.lower_char c.
Proof. destruct c as [[] [] [] [] [] [] [] []]; reflexivity. Qed.

Lemma lower_lower (s : string) : retriever.lower (retriever.lower s) = retriever.lower s.
Proof.
  induction s as [|c s IH]; simpl; [reflexivity|].
  rewrite lower_char_lower_char, IH. reflexivity.
Qed.

Lemma lower_upper (s : string) :
  retriever.lower (fetch_prices.upper s) = retriever.lower s.
Proof.
  induction s as [|c s IH]; simpl; [reflexivity|].
  rewrite lower_char_upper_char, IH. reflexivity.
Qed.

(** X14.  The analysis does not depend on the case of the letters of the
    query: the query in lower case and the query in upper case are
    analysed as the query itself. *)
Theorem analyze_query_intent_case_insensitive (query : string) :
  retriever.analyze_query_intent (retriever.lower query)
  = retriever.analyze_query_intent query /\
  retriever.analyze_query_intent (fetch_prices.upper query)
  = retriever.analyze_query_intent query.
Proof.
  unfold retriever.analyze_query_intent.
  rewrite lower_lower, lower_upper. split; reflexivity.
Qed.

(** X15.  For a query of ASCII text, the intents [analyze_query_intent]
    reports are exactly the categories of its table one of whose keywords
    occurs in the query lower-cased; every matching category is reported,
    once. *)
Theorem analyze_query_intent_intents (query : string) :
  isascii query = true ->
  (forall intent,
      In intent (retriever.intents (retriever.analyze_query_intent query)) <->
      exists keywords,
        In (intent, keywords) retriever.intent_keywords /\
        existsb (fun keyword => retriever.contains keyword (retriever.lower query))
                keywords = true) /\
  NoDup (retriever.intents (retriever.analyze_query_intent query)).
Proof.
  intros _. unfold retriever.analyze_query_intent; cbn [retriever.intents]. split.
  - intros intent. rewrite in_map_iff. split.
    + intros [[i keywords] [Heq Hin]]. simpl in Heq. subst i.
      apply filter_In in Hin as [Hin Hc]. exists keywords. auto.
    + intros [keywords [Hin Hc]]. exists (intent, keywords).
      split; [reflexivity|]. apply filter_In. auto.
  - apply filtered_keys_distinct.
    unfold retriever.intent_keywords; simpl.
    repeat constructor; simpl; intuition discriminate.
Qed.

(** A question about a price, in capitals. *)
Lemma analyze_query_intent_intents_witness :
  (forall intent,
      In intent (retriever.intents (retriever.analyze_query_intent "PRICE of ether?")) <->
      exists keywords,
        In (intent, keywords) retriever.intent_keywords /\
        existsb (fun keyword =>
                   retriever.contains keyword (retriever.lower "PRICE of ether?"))
                keywords = true) /\
  NoDup (retriever.intents (retriever.analyze_query_intent "PRICE of ether?")).
Proof.
  apply (analyze_query_intent_intents "PRICE of ether?"). reflexivity.
Defined.

Example analyze_query_intent_price_in_capitals :
  retriever.intents (retriever.analyze_query_intent "PRICE of ether?") = ["price"].
Proof. vm_compute. reflexivity. Qed.

End QueryAnalysisProperties.

(* ================================================================== *)
(** * Further properties of the store                                 *)
(* ================================================================== *)

Section StoreRoundTrip.
Import Py.

Lemma ids_of_entries (self : embed_store.CryptoVectorStore)
    (facts : list fact_extractor.CryptoFact) :
  map chromadb.entry_id (map (embed_store.entry_of_fact self) facts)
  = map fact_extractor.fact_id facts.
Proof. rewrite map_map. reflexivity. Qed.

Lemma filter_all {A} (p : A -> bool) (l : list A) :
  forallb p l = true -> filter p l = l.
Proof.
  induction l as [|x l IH]; simpl; intros Hall; [reflexivity|].
  apply andb_true_iff in Hall as [Hx Hl]. rewrite Hx, (IH Hl). reflexivity.
Qed.

(** A batch of new, distinct ids is appended whole, whatever the database
    does with known ids. *)
Lemma add_fresh (self : embed_store.CryptoVectorStore)
    (facts : list fact_extractor.CryptoFact) :
  chromadb.distinct (map fact_extractor.fact_id facts) = true ->
  derived.storable facts = true ->
  derived.fresh_ids self facts = true ->
  chromadb.add (embed_store.client self) (embed_store.collection self)
    (map (embed_store.entry_of_fact self) facts)
  = Ok (embed_store.collection self ++ map (embed_store.entry_of_fact self) facts)%list.
Proof.
  intros Hd Hvalid Hfresh. unfold chromadb.add. rewrite ids_of_entries, Hd.
  assert (Hstored : forallb (fun e => chromadb.valid_metadata (chromadb.entry_metadata e))
                      (map (embed_store.entry_of_fact self) facts) = true).
  { clear Hd Hfresh. unfold derived.storable in Hvalid.
    induction facts as [|fact rest IH]; [reflexivity|].
    cbn [map forallb] in *. apply andb_true_iff in Hvalid as [Hfact Hrest].
    cbn [embed_store.entry_of_fact chromadb.entry_metadata].
    rewrite Hfact, (IH Hrest). reflexivity. }
  rewrite Hstored. simpl.
  unfold derived.fresh_ids in Hfresh.
  destruct (chromadb.on_existing_id (embed_store.client self)).
  - assert (Hex : existsb (fun e => mem (chromadb.entry_id e)
                                      (chromadb.ids_of (embed_store.collection self)))
                         (map (embed_store.entry_of_fact self) facts) = false).
    { clear Hd Hvalid Hstored. induction facts as [|fact rest IH]; simpl in *; [reflexivity|].
      apply andb_true_iff in Hfresh as [Hf Hrest]. apply negb_true_iff in Hf.
      rewrite Hf, (IH Hrest). reflexivity. }
    rewrite Hex. reflexivity.
  - rewrite filter_all; [reflexivity|].
    clear Hd Hvalid Hstored. induction facts as [|fact rest IH]; simpl in *; [reflexivity|].
    apply andb_true_iff in Hfresh as [Hf Hrest]. rewrite Hf, (IH Hrest). reflexivity.
Qed.

Lemma fresh_ids_not_In (self : embed_store.CryptoVectorStore)
    (facts : list fact_extractor.CryptoFact) (fact : fact_extractor.CryptoFact) :
  derived.fresh_ids self facts = true -> In fact facts ->
  ~ In (fact_extractor.fact_id fact) (chromadb.ids_of (embed_store.collection self)).
Proof.
  unfold derived.fresh_ids. rewrite forallb_forall. intros Hall Hin.
  apply Hall in Hin. apply negb_true_iff in Hin. apply mem_not_In. exact Hin.
Qed.

Lemma add_facts_fresh (self : embed_store.CryptoVectorStore)
    (facts : list fact_extractor.CryptoFact) :
  chromadb.distinct (map fact_extractor.fact_id facts) = true ->
  derived.storable facts = true ->
  derived.fresh_ids self facts = true ->
  embed_store.add_facts self facts
  = Ok (embed_store.with_collection self
          (embed_store.collection self
             ++ map (embed_store.entry_of_fact self) facts)%list,
        props.len facts).
Proof.
  intros Hd Hvalid Hfresh. unfold embed_store.add_facts. destruct facts as [|fact rest].
  - destruct self; simpl. rewrite app_nil_r. reflexivity.
  - rewrite (add_fresh self (fact :: rest) Hd Hvalid Hfresh). reflexivity.
Qed.

(** X16.  Stored then found.  When the facts of a batch have pairwise
    distinct ids, none of which the collection holds, and no metadata
    value is [None], [add_facts] returns the size of the batch and the collection is the old one followed by one
    entry per fact, in order; looking a fact up by its id then gives one
    entry, with the fact's content, the metadata built for it and the
    embedding of its content. *)
Theorem add_facts_then_get_by_id
    (self : embed_store.CryptoVectorStore)
    (facts : list fact_extractor.CryptoFact) :
  chromadb.distinct (map fact_extractor.fact_id facts) = true ->
  derived.storable facts = true ->
  derived.fresh_ids self facts = true ->
  exists self',
    embed_store.add_facts self facts = Ok (self', props.len facts) /\
    embed_store.collection self'
    = (embed_store.collection self ++ map (embed_store.entry_of_fact self) facts)%list /\
    forall fact,
      In fact facts ->
      chromadb.get_by_id (embed_store.collection self') (fact_extractor.fact_id fact)
      = [ {| chromadb.entry_id := fact_extractor.fact_id fact;
             chromadb.document := fact_extractor.content fact;
             chromadb.entry_metadata := embed_store.stored_metadata fact;
             chromadb.embedding :=
               embed_store.embedding_model self (fact_extractor.content fact) |} ].
Proof.
  intros Hd Hvalid Hfresh.
  assert (Hlookup :
    forall fact, In fact facts ->
    chromadb.get_by_id
      (embed_store.collection self ++ map (embed_store.entry_of_fact self) facts)%list
      (fact_extractor.fact_id fact)
    = [embed_store.entry_of_fact self fact]).
  { intros fact Hin.
    rewrite get_by_id_app,
      (get_by_id_absent _ _ (fresh_ids_not_In self facts fact Hfresh Hin)).
    simpl.
    assert (Hnd : NoDup (chromadb.ids_of (map (embed_store.entry_of_fact self) facts))).
    { unfold chromadb.ids_of. rewrite ids_of_entries. apply distinct_NoDup. exact Hd. }
    assert (Hid : In (fact_extractor.fact_id fact)
                     (chromadb.ids_of (map (embed_store.entry_of_fact self) facts))).
    { unfold chromadb.ids_of. rewrite ids_of_entries. apply in_map. exact Hin. }
    destruct (get_by_id_one _ _ Hnd Hid) as [e [He _]].
    assert (Hmine : In (embed_store.entry_of_fact self fact)
                       (chromadb.get_by_id (map (embed_store.entry_of_fact self) facts)
                          (fact_extractor.fact_id fact))).
    { unfold chromadb.get_by_id. apply filter_In. split; [apply in_map; exact Hin|].
      apply String.eqb_refl. }
    rewrite He in Hmine. destruct Hmine as [<-|[]]. exact He. }
  rewrite (add_facts_fresh self facts Hd Hvalid Hfresh).
  eexists. split; [reflexivity|]. split; [reflexivity|].
  intros f Hin. cbn [embed_store.with_collection embed_store.collection].
  apply (Hlookup f Hin).
Qed.

(** The price fact of the sample record, added to an empty store. *)
Lemma add_facts_then_get_by_id_witness :
  exists self',
    embed_store.add_facts sample.empty_store [sample.btc_price_fact_again]
    = Ok (self', props.len [sample.btc_price_fact_again]) /\
    embed_store.collection self'
    = (embed_store.collection sample.empty_store
         ++ map (embed_store.entry_of_fact sample.empty_store)
              [sample.btc_price_fact_again])%list /\
    forall fact,
      In fact [sample.btc_price_fact_again] ->
      chromadb.get_by_id (embed_store.collection self') (fact_extractor.fact_id fact)
      = [ {| chromadb.entry_id := fact_extractor.fact_id fact;
             chromadb.document := fact_extractor.content fact;
             chromadb.entry_metadata := embed_store.stored_metadata fact;
             chromadb.embedding :=
               embed_store.embedding_model sample.empty_store
                 (fact_extractor.content fact) |} ].
Proof.
  apply (add_facts_then_get_by_id sample.empty_store [sample.btc_price_fact_again]);
    reflexivity.
Defined.

(** X17.  Re-indexing.  After [clear_collection], adding a batch whose ids
    are pairwise distinct and whose metadata hold no [None] always
    succeeds, whatever the collection held before; the collection is then the batch, one entry per fact, and the
    statistics count as many facts as the batch has. *)
Theorem clear_collection_then_add_facts
    (self : embed_store.CryptoVectorStore)
    (facts : list fact_extractor.CryptoFact) :
  chromadb.distinct (map fact_extractor.fact_id facts) = true ->
  derived.storable facts = true ->
  exists self',
    embed_store.add_facts (embed_store.clear_collection self) facts
    = Ok (self', props.len facts) /\
    embed_store.collection self' = map (embed_store.entry_of_fact self) facts /\
    embed_store.stat_get (embed_store.get_collection_stats self') "total_facts"
    = Some (embed_store.StatInt (props.len facts)).
Proof.
  intros Hd Hvalid.
  assert (Hfresh : derived.fresh_ids (embed_store.clear_collection self) facts = true).
  { unfold derived.fresh_ids. apply forallb_forall. intros f _. reflexivity. }
  rewrite (add_facts_fresh (embed_store.clear_collection self) facts Hd Hvalid Hfresh).
  eexists. split; [reflexivity|]. split; [reflexivity|].
  unfold embed_store.get_collection_stats, chromadb.count.
  cbn [embed_store.with_collection embed_store.collection embed_store.clear_collection
         app].
  rewrite length_map. fold (props.len facts).
  destruct (0 <? props.len facts) eqn:Hpos; [reflexivity|].
  apply Z.ltb_ge in Hpos. unfold props.len in *.
  replace (Z.of_nat (List.length facts)) with 0 by lia. reflexivity.
Qed.

End StoreRoundTrip.

Section StoredMetadata.
Import Py.

Lemma clear_collection_then_add_facts_witness :
  exists self',
    embed_store.add_facts (embed_store.clear_collection (sample.crowded_store 3))
      (sample.btc_facts "Bitcoin" "50,000.00" (PyFloat 50000))
    = Ok (self', props.len (sample.btc_facts "Bitcoin" "50,000.00" (PyFloat 50000))) /\
    embed_store.collection self'
    = map (embed_store.entry_of_fact (sample.crowded_store 3))
        (sample.btc_facts "Bitcoin" "50,000.00" (PyFloat 50000)) /\
    embed_store.stat_get (embed_store.get_collection_stats self') "total_facts"
    = Some (embed_store.StatInt
              (props.len (sample.btc_facts "Bitcoin" "50,000.00" (PyFloat 50000)))).
Proof.
  apply (clear_collection_then_add_facts (sample.crowded_store 3));
    vm_compute; reflexivity.
Defined.

Lemma dict_get_In (d : dict) (k : string) (v : pyval) :
  dict_get d k = Some v -> In (k, v) d.
Proof.
  induction d as [|[k' v'] d IH]; simpl; [discriminate|].
  destruct (String.eqb_spec k' k) as [->|Hne].
  - intros Heq. inversion Heq. auto.
  - auto.
Qed.

(** Every entry of a fact's own metadata, a short list of literal keys, is
    found again in the stored metadata. *)
Ltac by_keys :=
  let k := fresh "k" in
  let v := fresh "v" in
  let Hk := fresh "Hk" in
  intros k v Hk; apply dict_get_In in Hk; simpl in Hk;
  repeat (destruct Hk as [Hk|Hk]; [inversion Hk; subst; reflexivity|]);
  contradiction.

(** X18.  A fact emitted by [extract_facts] is stored with its entity id,
    symbol, fact type and timestamp under the keys [crypto_id],
    [crypto_symbol], [fact_type] and [timestamp], each a string, and with
    every entry of its own metadata: no key of the extractors' metadata
    takes the place of one of the four. *)
Theorem stored_metadata_of_extracted_fact
    (crypto_data : list fetch_prices.CryptoData)
    (facts : list fact_extractor.CryptoFact) :
  fact_extractor.extract_facts crypto_data = Ok facts ->
  Forall (fun fact =>
            let stored := embed_store.stored_metadata fact in
            dict_get stored "crypto_id" = Some (PyStr (fact_extractor.crypto_id fact)) /\
            dict_get stored "crypto_symbol"
            = Some (PyStr (fact_extractor.crypto_symbol fact)) /\
            dict_get stored "fact_type" = Some (PyStr (fact_extractor.fact_type fact)) /\
            dict_get stored "timestamp" = Some (PyStr (fact_extractor.timestamp fact)) /\
            forall k v,
              dict_get (fact_extractor.metadata fact) k = Some v ->
              dict_get stored k = Some v)
         facts.
Proof.
  rewrite extract_facts_facts_of_records. intros Hrun.
  eapply Forall_impl;
    [|apply (facts_of_records_Forall
               (fun _ fact =>
                  let stored := embed_store.stored_metadata fact in
                  dict_get stored "crypto_id"
                  = Some (PyStr (fact_extractor.crypto_id fact)) /\
                  dict_get stored "crypto_symbol"
                  = Some (PyStr (fact_extractor.crypto_symbol fact)) /\
                  dict_get stored "fact_type"
                  = Some (PyStr (fact_extractor.fact_type fact)) /\
                  dict_get stored "timestamp"
                  = Some (PyStr (fact_extractor.timestamp fact)) /\
                  forall k v,
                    dict_get (fact_extractor.metadata fact) k = Some v ->
                    dict_get stored k = Some v)
               ) with (2 := Hrun)].
  - intros fact [crypto [_ Hfact]]. exact Hfact.
  - intros crypto. apply facts_of_record_Forall; intros l Hl.
    + apply _extract_price_facts_inv in Hl as [price [_ ->]].
      constructor; [|constructor]. cbv zeta. repeat split; try reflexivity. by_keys.
    + apply _extract_change_facts_inv in Hl
        as [->|[up [pct [dollars [apct [aabs [_ [_ [_ [_ [_ ->]]]]]]]]]]];
        constructor; [|constructor]. cbv zeta. repeat split; try reflexivity. by_keys.
    + apply _extract_market_facts_inv in Hl as [->|[b [s [_ [_ ->]]]]];
        constructor; [|constructor]. cbv zeta. repeat split; try reflexivity. by_keys.
    + apply _extract_volume_facts_inv in Hl as [->|[m [s [_ [_ ->]]]]];
        constructor; [|constructor]. cbv zeta. repeat split; try reflexivity. by_keys.
Qed.

End StoredMetadata.

Section SearchResults.
Import Py.

(** The facts of the sample record, as stored. *)
Lemma stored_metadata_of_extracted_fact_witness :
  Forall (fun fact =>
            let stored := embed_store.stored_metadata fact in
            dict_get stored "crypto_id" = Some (PyStr (fact_extractor.crypto_id fact)) /\
            dict_get stored "crypto_symbol"
            = Some (PyStr (fact_extractor.crypto_symbol fact)) /\
            dict_get stored "fact_type" = Some (PyStr (fact_extractor.fact_type fact)) /\
            dict_get stored "timestamp" = Some (PyStr (fact_extractor.timestamp fact)) /\
            forall k v,
              dict_get (fact_extractor.metadata fact) k = Some v ->
              dict_get stored k = Some v)
         (sample.btc_facts "Bitcoin" "50,000.00" (PyFloat 50000)).
Proof.
  apply (stored_metadata_of_extracted_fact [sample.btc]). vm_compute. reflexivity.
Defined.

Lemma index00_first_row {A} (field : option (list (list A))) (i : nat) (x : A) :
  embed_store.index00 field i = Ok x ->
  nth_error (derived.first_row field) i = Some x.
Proof.
  unfold embed_store.index00, embed_store.index, derived.first_row.
  destruct field as [[|row rows]|]; simpl; try discriminate.
  destruct (nth_error row i); simpl; [|discriminate].
  intros Heq. inversion Heq. reflexivity.
Qed.

(** The hit built for the index [i]. *)
Lemma format_hit_inv (results : chromadb.QueryResult) (i : nat)
    (hit : embed_store.candidate) :
  embed_store.format_hit results i = Ok hit ->
  nth_error (derived.first_row (chromadb.documents results)) i
  = Some (embed_store.content hit) /\
  nth_error (derived.first_row (chromadb.metadatas results)) i
  = Some (embed_store.metadata hit) /\
  nth_error (derived.first_row (Some (chromadb.ids results))) i
  = Some (embed_store.id hit) /\
  embed_store.similarity hit = None /\
  match derived.first_row (chromadb.distances results) with
  | [] =>
      embed_store.distance hit = Some None \/
      exists d, embed_store.distance hit = Some (Some d)
  | row => exists d, nth_error row i = Some d /\ embed_store.distance hit = Some (Some d)
  end /\
  (chromadb.distances results = None -> embed_store.distance hit = Some None).
Proof.
  unfold embed_store.format_hit. intros Hrun. unbind Hrun.
  inversion Hrun; subst; clear Hrun. cbn [embed_store.content embed_store.metadata
    embed_store.id embed_store.similarity embed_store.distance].
  apply index00_first_row in E, E0, E2.
  repeat (split; [assumption || reflexivity|]).
  destruct (chromadb.distances results) as [[|row rows]|]; simpl in *.
  - inversion E1. auto.
  - unfold embed_store.index in E1. simpl in E1.
    destruct (nth_error row i) as [d|] eqn:Hd; simpl in E1; [|discriminate].
    inversion E1; subst. split; [|discriminate].
    destruct row; [destruct i; discriminate|]. eauto.
  - inversion E1. auto.
Qed.

Lemma format_loop_hits (results : chromadb.QueryResult) :
  forall indices formatted_results out,
    embed_store.format_loop results formatted_results indices = Ok out ->
    exists hits,
      out = (formatted_results ++ hits)%list /\
      Forall2 (fun i hit => embed_store.format_hit results i = Ok hit) indices hits.
Proof.
  induction indices as [|i rest IH]; simpl; intros acc out Hrun.
  - inversion Hrun. exists []. rewrite app_nil_r. split; [reflexivity|constructor].
  - unbind Hrun. apply IH in Hrun as [hits [-> Hall]].
    exists (x :: hits). rewrite <- app_assoc. split; [reflexivity|].
    constructor; assumption.
Qed.

Lemma Forall2_seq_nth {A} (R : nat -> A -> Prop) :
  forall n a (l : list A),
    Forall2 R (seq a n) l ->
    List.length l = n /\
    forall i x, nth_error l i = Some x -> R (a + i)%nat x.
Proof.
  induction n as [|n IH]; simpl; intros a l Hall.
  - inversion Hall. split; [reflexivity|]. intros i x Hi. destruct i; discriminate.
  - inversion Hall as [|? y ? l' Hy Hrest]; subst.
    destruct (IH _ _ Hrest) as [Hlen Hnth]. split; [simpl; lia|].
    intros i x Hi. destruct i as [|i]; simpl in Hi.
    + inversion Hi; subst. rewrite Nat.add_0_r. exact Hy.
    + replace (a + S i)%nat with (S a + i)%nat by lia. apply Hnth. exact Hi.
Qed.

(** X19.  The hits [search_facts] builds from the answer of the database
    are one per document of the answer's first row, in order: the hit of
    rank [i] holds the document, the metadata and the id of rank [i], no
    similarity yet, and always a [distance] entry, which is [None] when the
    answer carries no distances. *)
Theorem format_results_hits
    (results : chromadb.QueryResult) (hits : list embed_store.candidate) :
  embed_store.format_results results = Ok hits ->
  List.length hits = List.length (derived.first_row (chromadb.documents results)) /\
  forall i hit,
    nth_error hits i = Some hit ->
    nth_error (derived.first_row (chromadb.documents results)) i
    = Some (embed_store.content hit) /\
    nth_error (derived.first_row (chromadb.metadatas results)) i
    = Some (embed_store.metadata hit) /\
    nth_error (derived.first_row (Some (chromadb.ids results))) i
    = Some (embed_store.id hit) /\
    embed_store.similarity hit = None /\
    embed_store.distance hit <> None /\
    (chromadb.distances results = None -> embed_store.distance hit = Some None).
Proof.
  unfold embed_store.format_results. intros Hrun.
  assert (Hempty : hits = [] ->
            derived.first_row (chromadb.documents results) = [] ->
            List.length hits
            = List.length (derived.first_row (chromadb.documents results)) /\
            forall i hit, nth_error hits i = Some hit -> False).
  { intros -> ->. split; [reflexivity|]. intros i hit Hi. destruct i; discriminate. }
  destruct (chromadb.documents results) as [[|first rows]|] eqn:Hdocs.
  - inversion Hrun; subst. destruct (Hempty eq_refl eq_refl) as [Hl Hn].
    split; [exact Hl|]. intros i hit Hi. destruct (Hn i hit Hi).
  - destruct first as [|doc first].
    + inversion Hrun; subst. destruct (Hempty eq_refl eq_refl) as [Hl Hn].
      split; [exact Hl|]. intros i hit Hi. destruct (Hn i hit Hi).
    + apply format_loop_hits in Hrun as [found [-> Hall]].
      apply Forall2_seq_nth in Hall as [Hlen Hnth].
      cbn [app derived.first_row]. split; [exact Hlen|].
      intros i hit Hi. apply Hnth in Hi. simpl in Hi.
      apply format_hit_inv in Hi as [Hd [Hm [Hi' [Hs [Hdist Hnone]]]]].
      rewrite Hdocs in Hd. cbn [derived.first_row] in Hd.
      repeat (split; [assumption|]). split; [|exact Hnone].
      destruct (derived.first_row (chromadb.distances results)).
      * destruct Hdist as [->|[d ->]]; discriminate.
      * destruct Hdist as [d [_ ->]]. discriminate.
  - inversion Hrun; subst. destruct (Hempty eq_refl eq_refl) as [Hl Hn].
    split; [exact Hl|]. intros i hit Hi. destruct (Hn i hit Hi).
Qed.

End SearchResults.

Section StatsBounds.
Import Py.

Lemma format_results_hits_witness :
  exists hits,
    embed_store.format_results derived.one_answer = Ok hits /\
    List.length hits
    = List.length (derived.first_row (chromadb.documents derived.one_answer)) /\
    forall i hit,
      nth_error hits i = Some hit ->
      nth_error (derived.first_row (chromadb.documents derived.one_answer)) i
      = Some (embed_store.content hit) /\
      nth_error (derived.first_row (chromadb.metadatas derived.one_answer)) i
      = Some (embed_store.metadata hit) /\
      nth_error (derived.first_row (Some (chromadb.ids derived.one_answer))) i
      = Some (embed_store.id hit) /\
      embed_store.similarity hit = None /\
      embed_store.distance hit <> None /\
      (chromadb.distances derived.one_answer = None ->
       embed_store.distance hit = Some None).
Proof.
  assert (Hr : exists hits, embed_store.format_results derived.one_answer = Ok hits)
    by (eexists; vm_compute; reflexivity).
  destruct Hr as [hits Hr]. exists hits. split; [exact Hr|].
  apply (format_results_hits derived.one_answer hits Hr).
Defined.

Lemma set_add_length (s : list pyval) (v : pyval) :
  (List.length s <= List.length (embed_store.set_add s v) <= List.length s + 1)%nat.
Proof.
  unfold embed_store.set_add. destruct (existsb _ s); [lia|].
  rewrite length_app. simpl. lia.
Qed.

Lemma fold_set_add_length (l : list pyval) :
  forall s0,
    (List.length s0 <= List.length (fold_left embed_store.set_add l s0)
     <= List.length s0 + List.length l)%nat.
Proof.
  induction l as [|x l IH]; simpl; intros s0; [lia|].
  pose proof (set_add_length s0 x). pose proof (IH (embed_store.set_add s0 x)). lia.
Qed.

(** X20.  When the statistics report a number of entities, it is at least 1
    and at most the smaller of 100 and the number of stored facts. *)
Theorem unique_cryptos_bounds (self : embed_store.CryptoVectorStore) (n : Z) :
  derived.stat_int (embed_store.get_collection_stats self) "unique_cryptos" = Some n ->
  1 <= n <= Z.min 100 (props.len (embed_store.collection self)).
Proof.
  unfold derived.stat_int, embed_store.get_collection_stats.
  rewrite get_metadatas_sample, !fold_left_values.
  change (chromadb.count (embed_store.collection self))
    with (props.len (embed_store.collection self)).
  destruct (0 <? props.len (embed_store.collection self)) eqn:Hpos;
    [|simpl; discriminate].
  apply Z.ltb_lt in Hpos. simpl. intros Hn. inversion Hn; subst n; clear Hn.
  set (values := props.values_of "crypto_symbol" (props.sampled self)).
  assert (Hvalues : List.length values
                    = Nat.min 100 (List.length (embed_store.collection self))).
  { unfold values, props.values_of, props.sampled.
    rewrite !length_map, length_firstn. reflexivity. }
  pose proof (fold_set_add_length values []) as [_ Hup]. simpl in Hup.
  assert (Hlow : (1 <= List.length (fold_left embed_store.set_add values []))%nat).
  { destruct values as [|v rest] eqn:Hv.
    - cbn [List.length] in Hvalues. unfold props.len in Hpos. lia.
    - simpl. pose proof (fold_set_add_length rest (embed_store.set_add [] v)) as [Hl _].
      unfold embed_store.set_add in Hl at 1. simpl in Hl.
      exact Hl. }
  unfold props.len in *. lia.
Qed.

(** A store of a hundred facts about one symbol and one about another. *)
Lemma unique_cryptos_bounds_witness :
  derived.stat_int (embed_store.get_collection_stats (sample.crowded_store 100))
    "unique_cryptos" = Some 1 /\
  1 <= 1 <= Z.min 100 (props.len (embed_store.collection (sample.crowded_store 100))).
Proof.
  assert (Hs : derived.stat_int (embed_store.get_collection_stats
                                   (sample.crowded_store 100)) "unique_cryptos" = Some 1)
    by (vm_compute; reflexivity).
  split; [exact Hs|].
  apply (unique_cryptos_bounds (sample.crowded_store 100) 1 Hs).
Defined.

End StatsBounds.

(* ================================================================== *)
(** * Properties of the fetcher's parsing loop                        *)
(* ================================================================== *)

Section FetcherProperties.
Import Py.

Lemma float_of_rounded_cases (sf : spec_float) :
  (exists x, float_of_rounded sf = Ok x) \/ float_of_rounded sf = Raise OverflowError.
Proof. destruct sf; simpl; eauto. Qed.

Lemma to_float_or_zero (v : fetch_prices.json_number) :
  (exists x, fetch_prices.to_float (fetch_prices.or_zero v) = Ok x) \/
  fetch_prices.to_float (fetch_prices.or_zero v) = Raise OverflowError.
Proof.
  destruct v as [|z|x]; simpl.
  - left. eexists. reflexivity.
  - destruct (z =? 0); simpl; [left; eexists; reflexivity|].
    apply float_of_rounded_cases.
  - destruct (x =? 0)%float; simpl; left; eexists; reflexivity.
Qed.

Lemma to_int_or_zero (v : fetch_prices.json_number) :
  (exists z, fetch_prices.to_int (fetch_prices.or_zero v) = Ok z) \/
  fetch_prices.to_int (fetch_prices.or_zero v) = Raise ValueError \/
  fetch_prices.to_int (fetch_prices.or_zero v) = Raise OverflowError.
Proof.
  destruct v as [|z|x]; simpl.
  - left. eexists. reflexivity.
  - destruct (z =? 0); simpl; left; eexists; reflexivity.
  - destruct (x =? 0)%float; simpl; [left; eexists; reflexivity|].
    destruct (Prim2SF x); eauto.
Qed.

(** What parsing one coin can give. *)
Lemma parse_coin_outcome (timestamp : string) (c : fetch_prices.coin) :
  match fetch_prices.parse_coin timestamp c with
  | Ok crypto =>
      derived.from_fetcher crypto = true /\
      fetch_prices.timestamp crypto = timestamp /\
      fetch_prices.source crypto = "coingecko"
  | Raise e =>
      e = KeyError \/ e = ValueError \/ e = OverflowError \/
      (e = AttributeError /\
       fetch_prices.coin_symbol c = Some fetch_prices.JNotString)
  end.
Proof.
  unfold fetch_prices.parse_coin.
  destruct c as [i s n price cap rank change pct volume];
    cbn [fetch_prices.coin_id fetch_prices.coin_symbol fetch_prices.coin_name
         fetch_prices.coin_current_price fetch_prices.coin_market_cap
         fetch_prices.coin_market_cap_rank fetch_prices.coin_price_change_24h
         fetch_prices.coin_price_change_percentage_24h fetch_prices.coin_total_volume].
  destruct i; cbn [fetch_prices.subscript bind]; auto.
  destruct s as [[sym|]|]; cbn [fetch_prices.subscript fetch_prices.upper_method bind];
    auto 7.
  destruct n; cbn [fetch_prices.subscript bind]; auto.
  destruct price as [v|]; cbn [fetch_prices.subscript bind]; auto.
  destruct (to_float_or_zero v) as [[x ->]| ->]; cbn [bind]; auto.
  destruct cap as [v1|]; cbn [fetch_prices.subscript bind]; auto.
  destruct (to_int_or_zero v1) as [[z1 ->]|[->| ->]]; cbn [bind]; auto.
  destruct rank as [v2|]; cbn [fetch_prices.subscript bind]; auto.
  destruct (to_int_or_zero v2) as [[z2 ->]|[->| ->]]; cbn [bind]; auto.
  destruct change as [v3|]; cbn [fetch_prices.subscript bind]; auto.
  destruct (to_float_or_zero v3) as [[x3 ->]| ->]; cbn [bind]; auto.
  destruct pct as [v4|]; cbn [fetch_prices.subscript bind]; auto.
  destruct (to_float_or_zero v4) as [[x4 ->]| ->]; cbn [bind]; auto.
  destruct volume as [v5|]; cbn [fetch_prices.subscript bind]; auto.
  destruct (to_float_or_zero v5) as [[x5 ->]| ->]; cbn [bind]; auto.
Qed.

(** Some coin of the list has a value under [symbol] that is not a string. *)
Lemma symbol_not_a_string_later (c : fetch_prices.coin) (rest : list fetch_prices.coin)
    (e : exn) :
  e = OverflowError \/
  (e = AttributeError /\
   Exists (fun c => fetch_prices.coin_symbol c = Some fetch_prices.JNotString) rest) ->
  e = OverflowError \/
  (e = AttributeError /\
   Exists (fun c => fetch_prices.coin_symbol c = Some fetch_prices.JNotString)
     (c :: rest)).
Proof. intros [He|[He Hex]]; [left; exact He|right; split; [exact He|]]. apply Exists_cons_tl. exact Hex. Qed.

Lemma parse_loop_outcome (timestamp : string) :
  forall data crypto_list warnings,
    Forall (fun crypto =>
              derived.from_fetcher crypto = true /\
              fetch_prices.timestamp crypto = timestamp /\
              fetch_prices.source crypto = "coingecko") crypto_list ->
    match fetch_prices.parse_loop timestamp crypto_list warnings data with
    | Ok (records, warned) =>
        (List.length records + List.length warned
         = List.length crypto_list + List.length warnings + List.length data)%nat /\
        Forall (fun crypto =>
                  derived.from_fetcher crypto = true /\
                  fetch_prices.timestamp crypto = timestamp /\
                  fetch_prices.source crypto = "coingecko") records
    | Raise e =>
        e = OverflowError \/
        (e = AttributeError /\
         Exists (fun c => fetch_prices.coin_symbol c = Some fetch_prices.JNotString)
           data)
    end.
Proof.
  induction data as [|c rest IH]; intros acc warnings Hacc;
    cbn [fetch_prices.parse_loop].
  - split; [simpl; lia|exact Hacc].
  - pose proof (parse_coin_outcome timestamp c) as Hc.
    destruct (fetch_prices.parse_coin timestamp c) as [crypto|e].
    + assert (Hacc' : Forall (fun crypto =>
                                derived.from_fetcher crypto = true /\
                                fetch_prices.timestamp crypto = timestamp /\
                                fetch_prices.source crypto = "coingecko")
                             (acc ++ [crypto])).
      { apply Forall_app. split; [exact Hacc|]. constructor; [exact Hc|constructor]. }
      specialize (IH (acc ++ [crypto])%list warnings Hacc').
      destruct (fetch_prices.parse_loop timestamp (acc ++ [crypto]) warnings rest)
        as [[records warned]|e]; [|exact (symbol_not_a_string_later c rest e IH)].
      destruct IH as [Hlen Hall]. split; [|exact Hall].
      rewrite length_app in Hlen. simpl in *. lia.
    + destruct Hc as [->|[->|[->|[-> Hsym]]]]; cbn [fetch_prices.caught].
      * specialize (IH acc (warnings ++ [fetch_prices.warned_id c])%list Hacc).
        destruct (fetch_prices.parse_loop timestamp acc _ rest)
          as [[records warned]|e]; [|exact (symbol_not_a_string_later c rest e IH)].
        destruct IH as [Hlen Hall]. split; [|exact Hall].
        rewrite length_app in Hlen. simpl in *. lia.
      * specialize (IH acc (warnings ++ [fetch_prices.warned_id c])%list Hacc).
        destruct (fetch_prices.parse_loop timestamp acc _ rest)
          as [[records warned]|e]; [|exact (symbol_not_a_string_later c rest e IH)].
        destruct IH as [Hlen Hall]. split; [|exact Hall].
        rewrite length_app in Hlen. simpl in *. lia.
      * left. reflexivity.
      * right. split; [reflexivity|]. apply Exists_cons_hd. exact Hsym.
Qed.

End FetcherProperties.

Section FetcherClaims.
Import Py.

(** The records of a fetch have the types the fetcher gives them. *)
Lemma fetched_records_typed (timestamp : string)
    (data : option (list fetch_prices.coin))
    (records : list fetch_prices.CryptoData) (warned : list string) :
  fetch_prices.fetch_top_cryptocurrencies timestamp data = Ok (records, warned) ->
  Forall (fun crypto => derived.from_fetcher crypto = true) records.
Proof.
  unfold fetch_prices.fetch_top_cryptocurrencies. intros Hrun.
  destruct data as [[|c rest]|]; try (inversion Hrun; constructor).
  pose proof (parse_loop_outcome timestamp (c :: rest) [] [] (Forall_nil _)) as Hloop.
  rewrite Hrun in Hloop. destruct Hloop as [_ Hall].
  eapply Forall_impl; [|exact Hall]. intros crypto [Hc _]. exact Hc.
Qed.

(** X21.  The fetcher accounts for every coin of the answer: each coin
    either becomes a record or is skipped with a warning, so the records
    and the warnings are together as many as the coins.  Every record holds
    floats as its price, changes and volume and ints as its market cap and
    rank ([null] has become 0), the timestamp of the fetch and the source
    [coingecko]. *)
Theorem fetch_accounts_for_every_coin
    (timestamp : string) (data : option (list fetch_prices.coin))
    (records : list fetch_prices.CryptoData) (warned : list string) :
  fetch_prices.fetch_top_cryptocurrencies timestamp data = Ok (records, warned) ->
  (List.length records + List.length warned = List.length (derived.coins_of data))%nat /\
  Forall (fun crypto =>
            derived.from_fetcher crypto = true /\
            fetch_prices.timestamp crypto = timestamp /\
            fetch_prices.source crypto = "coingecko") records.
Proof.
  unfold fetch_prices.fetch_top_cryptocurrencies. intros Hrun.
  destruct data as [[|c rest]|]; cbn [derived.coins_of].
  - inversion Hrun. split; [reflexivity|constructor].
  - pose proof (parse_loop_outcome timestamp (c :: rest) [] [] (Forall_nil _)) as Hloop.
    rewrite Hrun in Hloop. exact Hloop.
  - inversion Hrun. split; [reflexivity|constructor].
Qed.

(** An answer of three coins, one of which lacks its price. *)
Lemma fetch_accounts_for_every_coin_witness :
  exists records warned,
    fetch_prices.fetch_top_cryptocurrencies "2024-01-01T00:00:00+00:00"
      (Some [derived.btc_coin; derived.priceless_coin; derived.null_coin "x" "x" "X"])
    = Ok (records, warned) /\
    warned = ["ethereum"] /\
    (List.length records + List.length warned
     = List.length
         (derived.coins_of
            (Some [derived.btc_coin; derived.priceless_coin;
                   derived.null_coin "x" "x" "X"])))%nat /\
    Forall (fun crypto =>
              derived.from_fetcher crypto = true /\
              fetch_prices.timestamp crypto = "2024-01-01T00:00:00+00:00" /\
              fetch_prices.source crypto = "coingecko") records.
Proof.
  assert (Hr : exists records,
             fetch_prices.fetch_top_cryptocurrencies "2024-01-01T00:00:00+00:00"
               (Some [derived.btc_coin; derived.priceless_coin;
                      derived.null_coin "x" "x" "X"])
             = Ok (records, ["ethereum"]))
    by (eexists; vm_compute; reflexivity).
  destruct Hr as [records Hr]. exists records, ["ethereum"].
  split; [exact Hr|]. split; [reflexivity|].
  apply (fetch_accounts_for_every_coin _ _ _ _ Hr).
Defined.



(** A coin whose market cap is infinite, after a sound one. *)
Example fetch_aborts_on_an_infinite_market_cap :
  fetch_prices.fetch_top_cryptocurrencies "2024-01-01T00:00:00+00:00"
    (Some [derived.btc_coin; derived.infinite_cap_coin])
  = Raise OverflowError.
Proof. vm_compute. reflexivity. Qed.

Lemma float_of_int_million : float_of_int 1000000 = Ok 1000000%float.
Proof. vm_compute. reflexivity. Qed.

(** On a record as the fetcher builds it, the extraction returns, or the
    market cap is too large to be divided. *)
Lemma facts_of_record_from_fetcher (crypto : fetch_prices.CryptoData) :
  derived.from_fetcher crypto = true ->
  (exists new_facts, fact_extractor.facts_of_record crypto = Ok new_facts) \/
  fact_extractor.facts_of_record crypto = Raise OverflowError.
Proof.
  unfold derived.from_fetcher.
  unfold fact_extractor.facts_of_record, fact_extractor._extract_price_facts,
    fact_extractor._extract_change_facts, fact_extractor._extract_market_facts,
    fact_extractor._extract_volume_facts.
  destruct (fetch_prices.current_price crypto) as [| |price|]; try discriminate.
  destruct (fetch_prices.market_cap crypto) as [|cap| |]; try discriminate.
  destruct (fetch_prices.market_cap_rank crypto) as [rank|]; try discriminate.
  destruct (fetch_prices.price_change_24h crypto) as [| |change|]; try discriminate.
  destruct (fetch_prices.price_change_percentage_24h crypto) as [| |pct|];
    try discriminate.
  destruct (fetch_prices.volume_24h crypto) as [| |volume|]; try discriminate.
  intros _.
  cbn [format_2f bind ne_zero gt_zero py_abs truediv_lit].
  rewrite float_of_int_million. cbn [bind format_2f].
  assert (Hdiv : (exists q, int_truediv cap 1000000000 = Ok q) \/
                 int_truediv cap 1000000000 = Raise OverflowError).
  { unfold int_truediv. destruct (Z.abs cap); simpl; eauto.
    apply float_of_rounded_cases. }
  destruct (negb (pct =? 0)%float), (0 <? cap), (0 <? volume)%float;
    cbn [bind format_2f]; eauto;
    destruct Hdiv as [[q ->]| ->]; cbn [bind format_2f]; eauto.
Qed.

Lemma facts_of_records_from_fetcher (records : list fetch_prices.CryptoData) :
  Forall (fun crypto => derived.from_fetcher crypto = true) records ->
  (exists facts, props.facts_of_records records = Ok facts) \/
  props.facts_of_records records = Raise OverflowError.
Proof.
  induction records as [|crypto rest IH]; simpl; intros Hall; [eauto|].
  inversion Hall as [|? ? Hc Hrest]; subst.
  destruct (facts_of_record_from_fetcher crypto Hc) as [[new ->]| ->]; simpl; [|auto].
  destruct (IH Hrest) as [[more ->]| ->]; simpl; eauto.
Qed.

(** X23.  Fetching then extracting.  On the records the fetcher returns,
    [extract_facts] never fails on a missing or ill-typed field: it returns
    a fact list, or raises [OverflowError] when a market cap is too large
    an int to be divided into a float. *)
Theorem extract_facts_of_fetched_records
    (timestamp : string) (data : option (list fetch_prices.coin))
    (records : list fetch_prices.CryptoData) (warned : list string) :
  fetch_prices.fetch_top_cryptocurrencies timestamp data = Ok (records, warned) ->
  (exists facts, fact_extractor.extract_facts records = Ok facts) \/
  fact_extractor.extract_facts records = Raise OverflowError.
Proof.
  intros Hrun. rewrite extract_facts_facts_of_records.
  apply facts_of_records_from_fetcher.
  exact (fetched_records_typed timestamp data records warned Hrun).
Qed.

End FetcherClaims.

Section FetcherExamples.
Import Py.

(** The sample coins, fetched and extracted. *)
Lemma extract_facts_of_fetched_records_witness :
  exists records warned,
    fetch_prices.fetch_top_cryptocurrencies "2024-01-01T00:00:00+00:00"
      (Some [derived.btc_coin; derived.priceless_coin])
    = Ok (records, warned) /\
    ((exists facts, fact_extractor.extract_facts records = Ok facts) \/
     fact_extractor.extract_facts records = Raise OverflowError).
Proof.
  assert (Hr : exists records warned,
             fetch_prices.fetch_top_cryptocurrencies "2024-01-01T00:00:00+00:00"
               (Some [derived.btc_coin; derived.priceless_coin])
             = Ok (records, warned))
    by (do 2 eexists; vm_compute; reflexivity).
  destruct Hr as [records [warned Hr]]. exists records, warned.
  split; [exact Hr|].
  apply (extract_facts_of_fetched_records _ _ _ _ Hr).
Defined.

(** X24.  A coin whose numeric values are all [null] is not skipped: every
    number becomes 0, and the one fact extracted from its record says that
    the coin is trading at $0.00.  The symbol is ASCII text, printed in
    upper case. *)
Theorem null_numbers_give_a_zero_price_fact (timestamp i sym n : string) :
  isascii sym = true ->
  fetch_prices.fetch_top_cryptocurrencies timestamp (Some [derived.null_coin i sym n])
  = Ok ([derived.zero_record timestamp i sym n], []) /\
  fact_extractor.extract_facts [derived.zero_record timestamp i sym n]
  = Ok [derived.zero_price_fact timestamp i sym n].
Proof. intros _. split; reflexivity. Qed.

(** The coin [xyz], all of whose numbers are [null]. *)
Lemma null_numbers_give_a_zero_price_fact_witness :
  fetch_prices.fetch_top_cryptocurrencies "2024-01-01T00:00:00+00:00"
    (Some [derived.null_coin "xyz-coin" "xyz" "Xyz"])
  = Ok ([derived.zero_record "2024-01-01T00:00:00+00:00" "xyz-coin" "xyz" "Xyz"], []) /\
  fact_extractor.extract_facts
    [derived.zero_record "2024-01-01T00:00:00+00:00" "xyz-coin" "xyz" "Xyz"]
  = Ok [derived.zero_price_fact "2024-01-01T00:00:00+00:00" "xyz-coin" "xyz" "Xyz"].
Proof.
  apply (null_numbers_give_a_zero_price_fact "2024-01-01T00:00:00+00:00"
           "xyz-coin" "xyz" "Xyz").
  reflexivity.
Defined.

(** The fact of that coin reads as follows. *)
Example zero_price_fact_content :
  fact_extractor.content
    (derived.zero_price_fact "2024-01-01T00:00:00+00:00" "xyz-coin" "xyz" "Xyz")
  = "Xyz (XYZ) is currently trading at $0.00 USD.".
Proof. reflexivity. Qed.

End FetcherExamples.

(* ================================================================== *)
(** * Properties of the scheduler and of the batch file               *)
(* ================================================================== *)

Section SchedulerProperties.
Import Py.

(** What a successful [add_facts] does to the collection. *)
Lemma add_facts_extends (self self' : embed_store.CryptoVectorStore)
    (facts : list fact_extractor.CryptoFact) (n : Z) :
  embed_store.add_facts self facts = Ok (self', n) ->
  n = props.len facts /\
  exists new,
    embed_store.collection self' = (embed_store.collection self ++ new)%list /\
    NoDup (chromadb.ids_of new) /\
    (forall i, In i (chromadb.ids_of (embed_store.collection self)) ->
               ~ In i (chromadb.ids_of new)).
Proof.
  unfold embed_store.add_facts. destruct facts as [|fact rest].
  - intros Hrun. inversion Hrun; subst. split; [reflexivity|].
    exists []. rewrite app_nil_r. split; [reflexivity|].
    split; [constructor|]. intros i _ [].
  - destruct (chromadb.add _ _ _) as [c'|err] eqn:Hadd; cbn [bind]; [|discriminate].
    intros Hrun. inversion Hrun; subst. split; [reflexivity|].
    apply add_extends in Hadd as [new [-> [Hnew Hfresh]]].
    exists new. auto.
Qed.

(** X25.  A run of [update_knowledge_base] never raises and never loses
    what is stored: whatever the API answered, the ids of the collection
    are still pairwise distinct after the run and every id stored before
    names the same entry as before.  Only a run that ends as an update
    changes the store at all; a run that fetched nothing or failed leaves
    it as it was. *)
Theorem update_knowledge_base_keeps_store
    (self : update_scheduler.CryptoKnowledgeScheduler)
    (timestamp : string) (data : option (list fetch_prices.coin)) :
  chromadb.distinct
    (chromadb.ids_of (embed_store.collection (update_scheduler.vector_store self)))
  = true ->
  let run := update_scheduler.update_knowledge_base self timestamp data in
  let before := embed_store.collection (update_scheduler.vector_store self) in
  let after := embed_store.collection (update_scheduler.vector_store (fst run)) in
  chromadb.distinct (chromadb.ids_of after) = true /\
  (forall i, mem i (chromadb.ids_of before) = true ->
             chromadb.get_by_id after i = chromadb.get_by_id before i) /\
  match snd run with
  | update_scheduler.Updated added_count => 0 < added_count
  | update_scheduler.NothingFetched | update_scheduler.Failed _ => fst run = self
  end.
Proof.
  intros Hd. cbv zeta. unfold update_scheduler.update_knowledge_base.
  destruct (fetch_prices.fetch_top_cryptocurrencies timestamp data)
    as [[records warned]|e]; [|simpl; auto].
  destruct records as [|crypto records]; [simpl; auto|].
  destruct (fact_extractor.extract_facts (crypto :: records)) as [facts|e] eqn:Hfacts;
    [|simpl; auto].
  destruct (embed_store.add_facts (update_scheduler.vector_store self) facts)
    as [[store added]|e] eqn:Hadd; [|simpl; auto].
  apply add_facts_extends in Hadd as [-> [new [Hcoll [Hnew Hfresh]]]].
  cbn [fst snd update_scheduler.vector_store]. rewrite Hcoll.
  apply distinct_NoDup in Hd. split; [|split].
  - apply distinct_NoDup. unfold chromadb.ids_of. rewrite map_app.
    apply NoDup_app; assumption.
  - intros i Hi. apply mem_In in Hi.
    rewrite get_by_id_app, (get_by_id_absent new i (Hfresh i Hi)).
    apply app_nil_r.
  - rewrite extract_facts_facts_of_records in Hfacts.
    destruct (facts_of_records_counts _ _ Hfacts) as [_ [_ [_ Hlen]]].
    unfold props.len. cbn [List.length] in Hlen. lia.
Qed.

End SchedulerProperties.

Section SchedulerExamples.
Import Py.

(** A run on the store that already holds the price fact of the snapshot
    it fetches again. *)
Lemma update_knowledge_base_keeps_store_witness :
  let self := derived.scheduler_of (sample.store_of chromadb.SkipExisting) in
  let run := update_scheduler.update_knowledge_base self "2024-01-01T00:00:00+00:00"
               (Some [derived.btc_coin; derived.priceless_coin]) in
  let before := embed_store.collection (update_scheduler.vector_store self) in
  let after := embed_store.collection (update_scheduler.vector_store (fst run)) in
  chromadb.distinct (chromadb.ids_of after) = true /\
  (forall i, mem i (chromadb.ids_of before) = true ->
             chromadb.get_by_id after i = chromadb.get_by_id before i) /\
  match snd run with
  | update_scheduler.Updated added_count => 0 < added_count
  | update_scheduler.NothingFetched | update_scheduler.Failed _ => fst run = self
  end.
Proof.
  apply (update_knowledge_base_keeps_store
           (derived.scheduler_of (sample.store_of chromadb.SkipExisting))).
  vm_compute. reflexivity.
Defined.

(** The run above adds the four facts of the sound coin; with a database
    that refuses known ids the same run fails and the store is unchanged. *)
Example update_knowledge_base_sample_runs :
  snd (update_scheduler.update_knowledge_base
         (derived.scheduler_of (sample.store_of chromadb.SkipExisting))
         "2024-01-01T00:00:00+00:00" (Some [derived.btc_coin; derived.priceless_coin]))
  = update_scheduler.Updated 4 /\
  update_scheduler.update_knowledge_base
    (derived.scheduler_of (sample.store_of chromadb.RefuseBatch))
    "2024-01-01T00:00:00+00:00" (Some [derived.btc_coin; derived.priceless_coin])
  = (derived.scheduler_of (sample.store_of chromadb.RefuseBatch),
     update_scheduler.Failed IDAlreadyExistsError).
Proof. split; vm_compute; reflexivity. Qed.

End SchedulerExamples.

Section BatchFileProperties.
Import Py.

Lemma append_prices_rows (timestamp : string) :
  forall prices data out,
    batch_process.append_prices timestamp data prices = Ok out ->
    exists rows,
      out = (data ++ rows)%list /\
      List.length rows = List.length prices /\
      forall i crypto value,
        nth_error prices i = Some (crypto, value) ->
        exists price_usd,
          dict_get value "usd" = Some price_usd /\
          nth_error rows i = Some (derived.row timestamp crypto price_usd).
Proof.
  induction prices as [|[crypto value] rest IH]; intros data out Hrun;
    cbn [batch_process.append_prices] in Hrun.
  - inversion Hrun. exists []. rewrite app_nil_r. repeat split.
    intros i c v Hi. destruct i; discriminate.
  - unfold batch_process.getitem in Hrun.
    destruct (dict_get value "usd") as [usd|] eqn:Husd; cbn [bind] in Hrun;
      [|discriminate].
    apply IH in Hrun as [rows [-> [Hlen Hnth]]].
    exists (derived.row timestamp crypto usd :: rows).
    rewrite <- app_assoc. split; [reflexivity|]. split; [simpl; lia|].
    intros i c v Hi. destruct i as [|i]; cbn [nth_error] in *.
    + inversion Hi; subst. eauto.
    + apply (Hnth i c v Hi).
Qed.

(** X26.  [update_json_batch] only appends: the file it writes holds the
    rows of the file it read (none when there was no file), in order,
    followed by one row per crypto of the prices, in order, each with the
    crypto's name, its price in US dollars and the one timestamp of the
    run, the clock reading followed by Z. *)
Theorem update_json_batch_appends
    (utcnow : string) (prices : list (string * dict))
    (file written : batch_process.json_file) :
  batch_process.update_json_batch utcnow prices file = Ok written ->
  exists rows,
    written = Some (batch_process.read_json file ++ rows)%list /\
    List.length rows = List.length prices /\
    forall i crypto value,
      nth_error prices i = Some (crypto, value) ->
      exists price_usd,
        dict_get value "usd" = Some price_usd /\
        nth_error rows i = Some (derived.row (utcnow ++ "Z") crypto price_usd).
Proof.
  unfold batch_process.update_json_batch. cbv zeta. intros Hrun. unbind Hrun.
  inversion Hrun; subst.
  apply append_prices_rows in E as [rows [-> Hrows]].
  exists rows. split; [reflexivity|exact Hrows].
Qed.

Lemma update_json_batch_appends_witness :
  exists written rows,
    batch_process.update_json_batch "2024-01-01T00:00:00" derived.two_prices
      derived.old_file = Ok written /\
    written = Some (batch_process.read_json derived.old_file ++ rows)%list /\
    List.length rows = List.length derived.two_prices.
Proof.
  assert (Hr : exists written,
             batch_process.update_json_batch "2024-01-01T00:00:00" derived.two_prices
               derived.old_file = Ok written)
    by (eexists; vm_compute; reflexivity).
  destruct Hr as [written Hr]. exists written.
  destruct (update_json_batch_appends _ _ _ _ Hr) as [rows [Hw [Hlen _]]].
  exists rows. split; [exact Hr|]. split; assumption.
Defined.


(** On a file that is absent or holds a list, the two models of
    [update_json_batch] agree. *)
Lemma update_json_batch_on_disk_of
    (utcnow : string) (prices : list (string * dict)) (file : batch_process.json_file) :
  batch_process.update_json_batch_on_disk utcnow prices (batch_process.disk_of file)
  = (written <- batch_process.update_json_batch utcnow prices file ;;
     Ok (batch_process.disk_of written)).
Proof.
  unfold batch_process.update_json_batch_on_disk, batch_process.update_json_batch.
  cbv zeta.
  destruct file as [rows|];
    cbn [batch_process.disk_of batch_process.read_json_on_disk batch_process.read_json
         batch_process.append_to bind];
    destruct (batch_process.append_prices (utcnow ++ "Z") _ prices); reflexivity.
Qed.


(** The sample prices on an empty file and on a file that holds a JSON
    object. *)
Example update_json_batch_on_other_files :
  batch_process.update_json_batch_on_disk "2024-01-01T00:00:00" derived.two_prices
    batch_process.NotJson
  = Raise ValueError /\
  batch_process.update_json_batch_on_disk "2024-01-01T00:00:00" derived.two_prices
    (batch_process.Holds batch_process.JsonNotList)
  = Raise AttributeError /\
  batch_process.update_json_batch_on_disk "2024-01-01T00:00:00" []
    (batch_process.Holds batch_process.JsonNotList)
  = Ok (batch_process.Holds batch_process.JsonNotList).
Proof. repeat split. Qed.

(** The two runs on the sample prices. *)
Example update_json_batch_sample_runs :
  batch_process.update_json_batch "2024-01-01T00:00:00" derived.two_prices
    derived.old_file
  = Ok (Some [ derived.row "2023-12-31T00:00:00Z" "bitcoin" (PyInt 42000);
               derived.row "2024-01-01T00:00:00Z" "bitcoin" (PyInt 50000);
               derived.row "2024-01-01T00:00:00Z" "ethereum" (PyFloat 2500.5) ]) /\
  batch_process.update_json_batch "2024-01-01T00:00:00" derived.prices_without_usd
    derived.old_file
  = Raise KeyError.
Proof. split; vm_compute; reflexivity. Qed.

End BatchFileProperties.
